(** * AI agent system: agents, model factory, agent manager and HTTP handlers

    A shallow embedding of [src/models/ai_models.py], [src/config.py],
    [src/agents/base_agent.py], [src/agents/agent_manager.py] and the agent
    routes of [src/server/api.py].

    Python objects with identity (agents) live in a heap indexed by
    locations; Python dictionaries are insertion-ordered association lists;
    calls that leave the process (the provider SDK behind a model adapter,
    the hosting platform behind the repository client) are answered by an
    oracle and recorded in a trace; exceptions are the left summand of the
    result of a state-and-error monad. *)

From Stdlib Require Import ZArith QArith Ascii String DecimalString List.
From stdpp Require Import base option list gmap strings.

Local Open Scope Z_scope.

(** ** Python strings *)

Module PyStr.

Definition nl : string := String (ascii_of_nat 10) EmptyString.

(** [str.lower()] on the ASCII letters; other bytes are left alone, so a
    capital letter outside ASCII is not lower-cased as Python does.  No
    text with such a letter lower-cases to an ASCII word, so comparing the
    result with an ASCII word is as in Python. *)
Definition lower_ascii (c : ascii) : ascii :=
  let n := N_of_ascii c in
  if ((65 <=? n) && (n <=? 90))%N then ascii_of_N (n + 32) else c.

Fixpoint lower (s : string) : string :=
  match s with
  | EmptyString => EmptyString
  | String c r => String (lower_ascii c) (lower r)
  end.

(** What "the same name in another capitalization" means, letter by
    letter and without [lower]: [c] is [w], or [w] is a lower-case ASCII
    letter and [c] is its capital. *)
Definition same_letter (c w : ascii) : bool :=
  let n := N_of_ascii w in
  Ascii.eqb c w ||
  (((97 <=? n) && (n <=? 122))%N && Ascii.eqb c (ascii_of_N (n - 32))).

Fixpoint capitalization_of (p w : string) : bool :=
  match p, w with
  | EmptyString, EmptyString => true
  | String c p', String d w' => same_letter c d && capitalization_of p' w'
  | _, _ => false
  end.

(** Every byte, in order. *)
Definition all_ascii : list ascii := map ascii_of_nat (seq 0 256).

Definition not_capital (w : ascii) : bool :=
  let n := N_of_ascii w in negb ((65 <=? n) && (n <=? 90))%N.

Fixpoint no_capitals (w : string) : bool :=
  match w with
  | EmptyString => true
  | String d w' => not_capital d && no_capitals w'
  end.

(** Truthiness of a [list]: the empty list is falsy. *)
Definition truthy_list {A} (l : list A) : bool :=
  match l with [] => false | _ :: _ => true end.

(** Truthiness of a [str]: the empty string is falsy. *)
Definition truthy (s : string) : bool :=
  match s with EmptyString => false | String _ _ => true end.

(** Truthiness of an [Optional[str]]. *)
Definition truthy_opt (o : option string) : bool :=
  match o with Some s => truthy s | None => false end.

(** [o or d] for [o : Optional[str]]. *)
Definition or_else (o : option string) (d : string) : string :=
  match o with
  | Some s => if truthy s then s else d
  | None => d
  end.

(** [str(n)] for an [int]. *)
Definition of_Z (n : Z) : string := NilZero.string_of_int (Z.to_int n).

Fixpoint prefix (p s : string) : bool :=
  match p, s with
  | EmptyString, _ => true
  | String a p', String b s' => if Ascii.eqb a b then prefix p' s' else false
  | String _ _, EmptyString => false
  end.

(** [sub in s]. *)
Fixpoint contains (s sub : string) : bool :=
  if prefix sub s then true
  else match s with
       | EmptyString => false
       | String _ s' => contains s' sub
       end.

Fixpoint has_char (c : ascii) (s : string) : bool :=
  match s with
  | EmptyString => false
  | String a r => Ascii.eqb a c || has_char c r
  end.

Definition hex_digit (n : N) : ascii :=
  if (n <? 10)%N then ascii_of_N (48 + n) else ascii_of_N (87 + n).

(** One character of [repr(s)], for the quote character [q] in use. *)
Definition repr_char (q c : ascii) : string :=
  let n := N_of_ascii c in
  let bs := ascii_of_nat 92 in
  if Ascii.eqb c q || Ascii.eqb c bs then String bs (String c EmptyString)
  else if (n =? 9)%N then String bs "t"
  else if (n =? 10)%N then String bs "n"
  else if (n =? 13)%N then String bs "r"
  else if ((n <? 32) || (n =? 127))%N
       then String bs (String "x" (String (hex_digit (n / 16))
                                     (String (hex_digit (n mod 16)) EmptyString)))
  else String c EmptyString.

Fixpoint repr_body (q : ascii) (s : string) : string :=
  match s with
  | EmptyString => EmptyString
  | String c r => repr_char q c +:+ repr_body q r
  end.

(** [repr(s)] for a [str]: single quotes, unless the text has a single
    quote and no double quote.  It is Python's for ASCII texts.  Bytes
    above 127 are kept, as Python keeps printable non-ASCII characters;
    the non-printable ones, which Python escapes, are not told apart. *)
Definition repr (s : string) : string :=
  let sq := ascii_of_nat 39 in
  let dq := ascii_of_nat 34 in
  let q := if has_char sq s && negb (has_char dq s) then dq else sq in
  String q (repr_body q s +:+ String q EmptyString).

Fixpoint join (sep : string) (l : list string) : string :=
  match l with
  | [] => EmptyString
  | [x] => x
  | x :: r => x +:+ sep +:+ join sep r
  end.

(** [str(l)] for a list of [str]. *)
Definition repr_list (l : list string) : string :=
  "[" +:+ join ", " (map repr l) +:+ "]".

End PyStr.

(** ** Python dictionaries with string keys

    Insertion-ordered: assigning to a present key keeps its position,
    assigning to an absent key appends. *)

Module PyDict.

Definition t (V : Type) : Type := list (string * V).

Definition empty {V} : t V := [].

Fixpoint get {V} (k : string) (d : t V) : option V :=
  match d with
  | [] => None
  | (k', v) :: r => if String.eqb k k' then Some v else get k r
  end.

(** [k in d] *)
Definition mem {V} (k : string) (d : t V) : bool :=
  match get k d with Some _ => true | None => false end.

(** [d[k] = v] *)
Fixpoint set {V} (k : string) (v : V) (d : t V) : t V :=
  match d with
  | [] => [(k, v)]
  | (k', v') :: r =>
      if String.eqb k k' then (k', v) :: r else (k', v') :: set k v r
  end.

(** [del d[k]] *)
Fixpoint del {V} (k : string) (d : t V) : t V :=
  match d with
  | [] => []
  | (k', v') :: r => if String.eqb k k' then r else (k', v') :: del k r
  end.

(** [list(d.keys())] *)
Definition keys {V} (d : t V) : list string := map fst d.

(** [d.items()] *)
Definition items {V} (d : t V) : list (string * V) := d.

(** [len(d)] *)
Definition size {V} (d : t V) : nat := length d.

End PyDict.

(** ** Exceptions and results *)

Definition loc := nat.

Inductive Exn :=
| ValueError (msg : string)
  (** any exception raised by the provider SDK or by the platform client *)
| UpstreamError (msg : string)
  (** a method called on a location that holds no object; Python code
      cannot get there, a reference keeps its object alive *)
| NoSuchObject (l : loc).

(** [str(e)] *)
Definition str_of_exn (e : Exn) : string :=
  match e with
  | ValueError msg => msg
  | UpstreamError msg => msg
  | NoSuchObject _ => EmptyString
  end.

Definition Result (A : Type) : Type := Exn + A.

Definition bindR {A B} (r : Result A) (k : A -> Result B) : Result B :=
  match r with
  | inl e => inl e
  | inr a => k a
  end.

Declare Scope py_scope.
Delimit Scope py_scope with py.

Notation "'let?' x ':=' r 'in' k" := (bindR r (fun x => k))
  (at level 10, x name, r at level 100, k at level 200) : py_scope.

Local Open Scope py_scope.

(** ** Model adapters and the model factory ([src/models/ai_models.py]) *)

Inductive ModelClass := ClaudeModel | OpenAIModel.

Record AIModel := {
  model_class : ModelClass;
  api_key : string;
  model : string;
  max_tokens : Z;
  temperature : Q
}.

Module ModelFactory.

Definition create_model (provider api_key : string) (model : option string)
    (max_tokens : Z) (temperature : Q) : Result AIModel :=
  let provider := PyStr.lower provider in
  if String.eqb provider "anthropic" || String.eqb provider "claude" then
    let model := PyStr.or_else model "claude-3-sonnet-20240229" in
    inr {| model_class := ClaudeModel; api_key := api_key; model := model;
           max_tokens := max_tokens; temperature := temperature |}
  else if String.eqb provider "openai" then
    let model := PyStr.or_else model "gpt-4" in
    inr {| model_class := OpenAIModel; api_key := api_key; model := model;
           max_tokens := max_tokens; temperature := temperature |}
  else inl (ValueError ("Unsupported AI provider: " +:+ provider)).

End ModelFactory.

(** ** Configuration ([src/config.py]) *)

Record Config := {
  ANTHROPIC_API_KEY : string;
  OPENAI_API_KEY : string;
  GITHUB_TOKEN : string;
  GITHUB_USERNAME : string;
  DEFAULT_MODEL : string;
  MAX_TOKENS : Z;
  TEMPERATURE : Q
}.

Definition get_api_key (cfg : Config) (provider : string) : option string :=
  let keys := [("anthropic", ANTHROPIC_API_KEY cfg);
               ("openai", OPENAI_API_KEY cfg)]%string in
  PyDict.get (PyStr.lower provider) keys.

Definition validate (cfg : Config) : bool :=
  let required_keys := [("GITHUB_TOKEN", GITHUB_TOKEN cfg)]%string in
  let missing := filter (fun kv => negb (PyStr.truthy (snd kv))) required_keys in
  match missing with
  | [] => true
  | _ :: _ => false
  end.

(** ** The platform, as the agents see it *)

Record GitHubClient := { token : string }.

Record Repository := { full_name : string }.

Record PullRequest := {
  pr_title : string;
  pr_body : option string;
  pr_changed_files : Z;
  pr_additions : Z;
  pr_deletions : Z
}.

Record Issue := {
  issue_title : string;
  issue_body : option string;
  issue_labels : list string;
  issue_state : string
}.

Record Message := { role : string; content : string }.

(** A call that leaves the process. *)
Inductive Call :=
| CallGenerate (m : AIModel) (prompt system_prompt : string)
| CallChat (m : AIModel) (messages : list Message)
| CallGetRepository (c : GitHubClient) (repo_name : string)
| CallGetPull (r : Repository) (number : Z)
| CallGetIssue (r : Repository) (number : Z).

Definition is_model_call (c : Call) : bool :=
  match c with
  | CallGenerate _ _ _ | CallChat _ _ => true
  | _ => false
  end.

Definition is_repository_call (c : Call) : bool :=
  match c with
  | CallGetRepository _ _ | CallGetPull _ _ | CallGetIssue _ _ => true
  | _ => false
  end.

(** What the outside answers, given the calls made so far. *)
Record World := {
  answer_generate : list Call -> AIModel -> string -> string -> Result string;
  answer_chat : list Call -> AIModel -> list Message -> Result string;
  answer_get_repository : list Call -> GitHubClient -> string -> Result Repository;
  answer_get_pull : list Call -> Repository -> Z -> Result PullRequest;
  answer_get_issue : list Call -> Repository -> Z -> Result Issue;
  clock_now : list Call -> string
}.

(** ** Agents and the manager: data *)

Record AgentContext := {
  repository : option string;
  issue_number : option Z;
  pr_number : option Z;
  metadata : PyDict.t string;
  timestamp : string
}.

(** A subclass of [Agent] written by a user of the library, after the
    pattern of the three that ship: [__init__] hands a fixed name and
    description, and the keyword arguments, to [Agent.__init__];
    [execute] renders a prompt and ends in [generate_response]. *)
Record CustomClass := {
  custom_name : string;
  custom_description : string;
  custom_system_prompt : string;
  custom_prompt : AgentContext -> string -> string;
  custom_use_history : bool
}.

Inductive AgentClass :=
| CodeReviewAgent
| IssueTriageAgent
| DocumentationAgent
| CustomAgent (c : CustomClass).

Record Agent := {
  agent_class : AgentClass;
  name : string;
  description : string;
  ai_model : AIModel;
  github_client : GitHubClient;
  conversation_history : list Message
}.

Record AgentManager := {
  agents : PyDict.t loc;
  agent_types : PyDict.t AgentClass
}.

Record State := {
  manager : AgentManager;
  heap : gmap loc Agent;
  trace : list Call
}.

Definition with_manager (s : State) (m : AgentManager) : State :=
  {| manager := m; heap := heap s; trace := trace s |}.

Definition with_heap (s : State) (h : gmap loc Agent) : State :=
  {| manager := manager s; heap := h; trace := trace s |}.

(** The state after one more call has left the process. *)
Definition log_call (s : State) (c : Call) : State :=
  {| manager := manager s; heap := heap s; trace := trace s ++ [c] |}.

Definition set_history (a : Agent) (h : list Message) : Agent :=
  {| agent_class := agent_class a; name := name a;
     description := description a; ai_model := ai_model a;
     github_client := github_client a; conversation_history := h |}.

(** The conversation history of the agent at [self], if there is one. *)
Definition history_at (s : State) (self : loc) : option (list Message) :=
  conversation_history <$> heap s !! self.

(** ** The state-and-error monad *)

Definition M (A : Type) : Type := State -> Result A * State.

Definition ret {A} (a : A) : M A := fun s => (inr a, s).

Definition raise {A} (e : Exn) : M A := fun s => (inl e, s).

Definition bind {A B} (c : M A) (k : A -> M B) : M B :=
  fun s =>
    match c s with
    | (inl e, s') => (inl e, s')
    | (inr a, s') => k a s'
    end.

Definition lift {A} (r : Result A) : M A := fun s => (r, s).

Notation "'let*' x ':=' c 'in' k" := (bind c (fun x => k))
  (at level 10, x name, c at level 100, k at level 200) : py_scope.

Notation "c ';;' k" := (bind c (fun _ => k))
  (at level 100, k at level 200, right associativity) : py_scope.

Definition get_state : M State := fun s => (inr s, s).

Definition get_manager : M AgentManager := fun s => (inr (manager s), s).

Definition put_manager (m : AgentManager) : M unit :=
  fun s => (inr tt, with_manager s m).

(** A new object: a location no object has. *)
Definition alloc (a : Agent) : M loc :=
  fun s =>
    let l := fresh (dom (heap s)) in
    (inr l, with_heap s (<[l := a]> (heap s))).

Definition get_obj (self : loc) : M Agent :=
  fun s =>
    match heap s !! self with
    | Some a => (inr a, s)
    | None => (inl (NoSuchObject self), s)
    end.

Definition put_obj (self : loc) (a : Agent) : M unit :=
  fun s => (inr tt, with_heap s (<[self := a]> (heap s))).

(** ** The program *)

Section Program.

Variable config : Config.
Variable world : World.

(** *** Calls that leave the process *)

(** [model.generate(prompt, system_prompt)] *)
Definition AIModel_generate (m : AIModel) (prompt system_prompt : string)
    : M string :=
  fun s =>
    let r := answer_generate world (trace s) m prompt system_prompt in
    (r, log_call s (CallGenerate m prompt system_prompt)).

(** [model.chat(messages)] *)
Definition AIModel_chat (m : AIModel) (messages : list Message) : M string :=
  fun s =>
    let r := answer_chat world (trace s) m messages in
    (r, log_call s (CallChat m messages)).

(** [client.get_repository(repo_name)] *)
Definition get_repository (c : GitHubClient) (repo_name : string)
    : M Repository :=
  fun s =>
    let r := answer_get_repository world (trace s) c repo_name in
    (r, log_call s (CallGetRepository c repo_name)).

(** [repo.get_pull(number)] *)
Definition get_pull (r : Repository) (number : Z) : M PullRequest :=
  fun s =>
    let p := answer_get_pull world (trace s) r number in
    (p, log_call s (CallGetPull r number)).

(** [repo.get_issue(number)] *)
Definition get_issue (r : Repository) (number : Z) : M Issue :=
  fun s =>
    let i := answer_get_issue world (trace s) r number in
    (i, log_call s (CallGetIssue r number)).

(** *** [AgentContext] *)

Definition AgentContext_init (repository : option string)
    (issue_number pr_number : option Z) (metadata : option (PyDict.t string))
    : M AgentContext :=
  fun s =>
    (inr {| repository := repository;
            issue_number := issue_number;
            pr_number := pr_number;
            metadata := match metadata with
                        | Some (kv :: r) => kv :: r
                        | _ => PyDict.empty
                        end;
            timestamp := clock_now world (trace s) |}, s).

(** *** [Agent] *)

Definition _create_default_model : Result AIModel :=
  match get_api_key config "anthropic" with
  | Some api_key =>
      if negb (PyStr.truthy api_key)
      then inl (ValueError "No API key configured for AI model")
      else ModelFactory.create_model "anthropic" api_key
             (Some (DEFAULT_MODEL config)) (MAX_TOKENS config)
             (TEMPERATURE config)
  | None => inl (ValueError "No API key configured for AI model")
  end.

Definition _create_github_client : Result GitHubClient :=
  if negb (PyStr.truthy (GITHUB_TOKEN config))
  then inl (ValueError "GitHub token not configured")
  else inr {| token := GITHUB_TOKEN config |}.

(** [Agent.__init__], run on a new object of class [cls]. *)
Definition Agent_init (cls : AgentClass) (name description : string)
    (ai_model : option AIModel) (github_client : option GitHubClient)
    : Result Agent :=
  let? m := match ai_model with
            | Some m => inr m
            | None => _create_default_model
            end in
  let? g := match github_client with
            | Some g => inr g
            | None => _create_github_client
            end in
  inr {| agent_class := cls; name := name; description := description;
         ai_model := m; github_client := g; conversation_history := [] |}.

Definition add_to_conversation (self : loc) (role content : string) : M unit :=
  let* a := get_obj self in
  put_obj self
    (set_history a
       (conversation_history a ++ [{| role := role; content := content |}])).

Definition clear_conversation (self : loc) : M unit :=
  let* a := get_obj self in
  put_obj self (set_history a []).

Definition line (s : string) : string := s +:+ PyStr.nl.

Definition get_system_prompt (cls : AgentClass) : string :=
  match cls with
  | CodeReviewAgent =>
      line "You are an expert code reviewer. Your role is to:" +:+
      line "1. Analyze code changes for bugs, security issues, and best practices" +:+
      line "2. Provide constructive feedback with specific suggestions" +:+
      line "3. Consider performance, maintainability, and readability" +:+
      line "4. Be thorough but concise in your reviews" +:+
      "5. Highlight both positive aspects and areas for improvement"
  | IssueTriageAgent =>
      line "You are an expert at triaging GitHub issues. Your role is to:" +:+
      line "1. Categorize issues by type (bug, feature, documentation, etc.)" +:+
      line "2. Assess priority and severity" +:+
      line "3. Suggest appropriate labels" +:+
      line "4. Identify duplicates or related issues" +:+
      "5. Provide actionable next steps"
  | DocumentationAgent =>
      line "You are an expert technical writer. Your role is to:" +:+
      line "1. Create clear, comprehensive documentation" +:+
      line "2. Explain complex concepts in simple terms" +:+
      line "3. Provide code examples where appropriate" +:+
      line "4. Maintain consistent formatting and style" +:+
      "5. Ensure documentation is up-to-date with code changes"
  | CustomAgent c => custom_system_prompt c
  end.

Definition generate_response (self : loc) (prompt : string)
    (use_history : bool) : M string :=
  let* a := get_obj self in
  let* response :=
    if use_history && PyStr.truthy_list (conversation_history a)
    then
      let messages :=
        conversation_history a ++ [{| role := "user"; content := prompt |}] in
      AIModel_chat (ai_model a) messages
    else
      let system_prompt := get_system_prompt (agent_class a) in
      AIModel_generate (ai_model a) prompt system_prompt in
  add_to_conversation self "user" prompt ;;
  add_to_conversation self "assistant" response ;;
  ret response.

Definition to_dict (a : Agent) : string * string * nat :=
  (name a, description a, length (conversation_history a)).

(** *** The three agents that ship, and [execute] *)

(** The arguments a subclass's [__init__] hands to [Agent.__init__]. *)
Definition init_name (cls : AgentClass) : string :=
  match cls with
  | CodeReviewAgent => "Code Review Agent"
  | IssueTriageAgent => "Issue Triage Agent"
  | DocumentationAgent => "Documentation Agent"
  | CustomAgent c => custom_name c
  end.

Definition init_description (cls : AgentClass) : string :=
  match cls with
  | CodeReviewAgent => "Analyzes code changes and provides detailed reviews"
  | IssueTriageAgent => "Triages and categorizes GitHub issues"
  | DocumentationAgent => "Generates and improves documentation"
  | CustomAgent c => custom_description c
  end.

(** [agent_class(...)], with the keyword arguments [create_agent] collects. *)
Definition instantiate (cls : AgentClass) (ai_model : option AIModel)
    (github_client : option GitHubClient) : Result Agent :=
  Agent_init cls (init_name cls) (init_description cls) ai_model github_client.

(** Truthiness of an [Optional[int]]. *)
Definition truthy_int (o : option Z) : bool :=
  match o with Some n => negb (n =? 0) | None => false end.

Definition review_prompt (pr : PullRequest) (user_input : string) : string :=
  line "Please review the following pull request:" +:+
  line "" +:+
  line ("Title: " +:+ pr_title pr) +:+
  line ("Description: " +:+
        PyStr.or_else (pr_body pr) "No description provided") +:+
  line "" +:+
  line ("Files changed: " +:+ PyStr.of_Z (pr_changed_files pr)) +:+
  line ("Additions: +" +:+ PyStr.of_Z (pr_additions pr)) +:+
  line ("Deletions: -" +:+ PyStr.of_Z (pr_deletions pr)) +:+
  line "" +:+
  line ("Additional context: " +:+ user_input) +:+
  line "" +:+
  "Provide a comprehensive code review.".

Definition triage_prompt (issue : Issue) : string :=
  line "Please triage the following GitHub issue:" +:+
  line "" +:+
  line ("Title: " +:+ issue_title issue) +:+
  line ("Body: " +:+
        PyStr.or_else (issue_body issue) "No description provided") +:+
  line ("Labels: " +:+ PyStr.repr_list (issue_labels issue)) +:+
  line ("State: " +:+ issue_state issue) +:+
  line "" +:+
  "Provide triage analysis including category, priority, suggested labels, and next steps.".

Definition CodeReviewAgent_execute (self : loc) (context : AgentContext)
    (user_input : string) : M string :=
  match pr_number context, repository context with
  | Some number, Some repo_name =>
      if truthy_int (Some number) && PyStr.truthy repo_name then
        let* a := get_obj self in
        let* repo := get_repository (github_client a) repo_name in
        let* pr := get_pull repo number in
        generate_response self (review_prompt pr user_input) false
      else
        generate_response self
          ("Review this code:" +:+ PyStr.nl +:+ PyStr.nl +:+ user_input) false
  | _, _ =>
      generate_response self
        ("Review this code:" +:+ PyStr.nl +:+ PyStr.nl +:+ user_input) false
  end.

Definition IssueTriageAgent_execute (self : loc) (context : AgentContext)
    (user_input : string) : M string :=
  match issue_number context, repository context with
  | Some number, Some repo_name =>
      if truthy_int (Some number) && PyStr.truthy repo_name then
        let* a := get_obj self in
        let* repo := get_repository (github_client a) repo_name in
        let* issue := get_issue repo number in
        generate_response self (triage_prompt issue) false
      else
        generate_response self
          ("Triage this issue:" +:+ PyStr.nl +:+ PyStr.nl +:+ user_input) false
  | _, _ =>
      generate_response self
        ("Triage this issue:" +:+ PyStr.nl +:+ PyStr.nl +:+ user_input) false
  end.

Definition DocumentationAgent_execute (self : loc) (context : AgentContext)
    (user_input : string) : M string :=
  generate_response self
    ("Generate documentation for:" +:+ PyStr.nl +:+ PyStr.nl +:+ user_input)
    false.

(** [agent.execute(context, user_input)]: dispatch on the object's class. *)
Definition execute (self : loc) (context : AgentContext)
    (user_input : string) : M string :=
  let* a := get_obj self in
  match agent_class a with
  | CodeReviewAgent => CodeReviewAgent_execute self context user_input
  | IssueTriageAgent => IssueTriageAgent_execute self context user_input
  | DocumentationAgent => DocumentationAgent_execute self context user_input
  | CustomAgent c =>
      generate_response self (custom_prompt c context user_input)
        (custom_use_history c)
  end.

End Program.

(** ** [AgentManager] ([src/agents/agent_manager.py]) *)

Module Manager.

Section Methods.

Variable config : Config.
Variable world : World.

Definition AgentManager_init : AgentManager :=
  {| agents := PyDict.empty;
     agent_types := [("code_review", CodeReviewAgent);
                     ("issue_triage", IssueTriageAgent);
                     ("documentation", DocumentationAgent)]%string |}.

Definition create_agent (agent_type : string) (agent_id : option string)
    (ai_model : option AIModel) (github_client : option GitHubClient)
    : M loc :=
  let* mgr := get_manager in
  match PyDict.get agent_type (agent_types mgr) with
  | None =>
      raise (ValueError ("Unknown agent type: " +:+ agent_type +:+
                         ". Available: " +:+
                         PyStr.repr_list (PyDict.keys (agent_types mgr))))
  | Some agent_class =>
      let agent_id := PyStr.or_else agent_id agent_type in
      let* agent := lift (instantiate config agent_class ai_model github_client) in
      let* l := alloc agent in
      put_manager {| agents := PyDict.set agent_id l (agents mgr);
                     agent_types := agent_types mgr |} ;;
      ret l
  end.

Definition get_agent (agent_id : string) : M (option loc) :=
  let* mgr := get_manager in
  ret (PyDict.get agent_id (agents mgr)).

Definition list_agents : M (list (string * string * string)) :=
  fun s =>
    (inr (omap (fun kv : string * loc =>
                  match heap s !! snd kv with
                  | Some a => Some (fst kv, name a, description a)
                  | None => None
                  end)
               (PyDict.items (agents (manager s)))), s).

Definition remove_agent (agent_id : string) : M bool :=
  let* mgr := get_manager in
  if PyDict.mem agent_id (agents mgr) then
    put_manager {| agents := PyDict.del agent_id (agents mgr);
                   agent_types := agent_types mgr |} ;;
    ret true
  else ret false.

Definition execute_agent (agent_id : string) (context : AgentContext)
    (user_input : string) : M string :=
  let* agent := get_agent agent_id in
  match agent with
  | None => raise (ValueError ("Agent not found: " +:+ agent_id))
  | Some self => execute world self context user_input
  end.

Definition register_agent_type (type_name : string) (agent_class : AgentClass)
    : M unit :=
  let* mgr := get_manager in
  put_manager {| agents := agents mgr;
                 agent_types :=
                   PyDict.set type_name agent_class (agent_types mgr) |}.

Definition get_available_agent_types : M (list string) :=
  let* mgr := get_manager in
  ret (PyDict.keys (agent_types mgr)).

End Methods.

End Manager.

(** ** The agent routes of the HTTP server ([src/server/api.py])

    One [AgentManager] serves all requests: it is the [manager] of the
    state.  A handler returns a status code and a JSON payload. *)

Module Api.

Inductive Payload :=
| ErrorPayload (error : string)
| MessagePayload (message : string)
| AgentPayload (agent : string * string * nat)
| CreatedPayload (message : string) (agent : string * string * nat)
| ExecutePayload (response : string) (repository : option string)
    (timestamp : string).

Definition Response : Type := Z * Payload.

(** The JSON object of a request body, field by field; [None] is an
    absent field. *)
Record CreateBody := { body_type : option string; body_id : option string }.

Record ExecuteBody := {
  body_input : option string;
  body_repository : option string;
  body_issue_number : option Z;
  body_pr_number : option Z;
  body_metadata : option (PyDict.t string)
}.

Section Handlers.

Variable config : Config.
Variable world : World.

(** [try: ... except Exception as e: return jsonify(error=str(e)), 500] *)
Definition guarded (c : M Response) : State -> Response * State :=
  fun s =>
    match c s with
    | (inr r, s') => (r, s')
    | (inl e, s') => ((500, ErrorPayload (str_of_exn e)), s')
    end.

(** [POST /agents] *)
Definition create_agent (data : CreateBody) : State -> Response * State :=
  guarded (
    let agent_type := body_type data in
    let agent_id := body_id data in
    match agent_type with
    | Some (String c r) =>
        let* l := Manager.create_agent config (String c r) agent_id None None in
        let* agent := get_obj l in
        ret (201, CreatedPayload "Agent created successfully" (to_dict agent))
    | _ => ret (400, ErrorPayload "Agent type is required")
    end).

(** [GET /agents/<agent_id>] *)
Definition get_agent (agent_id : string) : State -> Response * State :=
  guarded (
    let* agent := Manager.get_agent agent_id in
    match agent with
    | None => ret (404, ErrorPayload "Agent not found")
    | Some l =>
        let* a := get_obj l in
        ret (200, AgentPayload (to_dict a))
    end).

(** [DELETE /agents/<agent_id>] *)
Definition delete_agent (agent_id : string) : State -> Response * State :=
  guarded (
    let* success := Manager.remove_agent agent_id in
    if negb success then ret (404, ErrorPayload "Agent not found")
    else ret (200, MessagePayload "Agent deleted successfully")).

(** [POST /agents/<agent_id>/execute] *)
Definition execute_agent (agent_id : string) (data : ExecuteBody)
    : State -> Response * State :=
  guarded (
    let user_input := default EmptyString (body_input data) in
    let* context :=
      AgentContext_init world (body_repository data)
        (body_issue_number data) (body_pr_number data)
        (Some (default PyDict.empty (body_metadata data))) in
    let* response := Manager.execute_agent world agent_id context user_input in
    ret (200, ExecutePayload response (repository context)
                (timestamp context))).

(** [DELETE /agents/<agent_id>/conversation] *)
Definition clear_conversation (agent_id : string)
    : State -> Response * State :=
  guarded (
    let* agent := Manager.get_agent agent_id in
    match agent with
    | None => ret (404, ErrorPayload "Agent not found")
    | Some l =>
        clear_conversation l ;;
        ret (200, MessagePayload "Conversation cleared")
    end).

End Handlers.

End Api.


(** ** Concrete configurations, worlds and states *)

Module Samples.

Definition cfg : Config :=
  {| ANTHROPIC_API_KEY := "sk-ant-test"; OPENAI_API_KEY := "";
     GITHUB_TOKEN := "ghp_test"; GITHUB_USERNAME := "octocat";
     DEFAULT_MODEL := "claude-3-sonnet-20240229";
     MAX_TOKENS := 4096; TEMPERATURE := 7 # 10 |}.

(** No environment variable set: every key and token is empty. *)
Definition cfg_unset : Config :=
  {| ANTHROPIC_API_KEY := ""; OPENAI_API_KEY := "";
     GITHUB_TOKEN := ""; GITHUB_USERNAME := "";
     DEFAULT_MODEL := "claude-3-sonnet-20240229";
     MAX_TOKENS := 4096; TEMPERATURE := 7 # 10 |}.

Definition fix_bug : PullRequest :=
  {| pr_title := "Fix bug"; pr_body := None; pr_changed_files := 3;
     pr_additions := 10; pr_deletions := 2 |}.

(** Provider and platform both answer. *)
Definition world_up : World :=
  {| answer_generate := fun _ _ prompt _ => inr ("re: " +:+ prompt);
     answer_chat := fun _ _ _ => inr "continued"%string;
     answer_get_repository := fun _ _ repo_name => inr {| full_name := repo_name |};
     answer_get_pull := fun _ _ _ => inr fix_bug;
     answer_get_issue := fun _ _ _ => inl (UpstreamError "404 Not Found");
     clock_now := fun _ => "2024-01-01T00:00:00"%string |}.

(** The provider is unreachable. *)
Definition world_down : World :=
  {| answer_generate := fun _ _ _ _ => inl (UpstreamError "connection refused");
     answer_chat := fun _ _ _ => inl (UpstreamError "connection refused");
     answer_get_repository := fun _ _ repo_name => inr {| full_name := repo_name |};
     answer_get_pull := fun _ _ _ => inr fix_bug;
     answer_get_issue := fun _ _ _ => inl (UpstreamError "404 Not Found");
     clock_now := fun _ => "2024-01-01T00:00:00"%string |}.

Definition claude : AIModel :=
  {| model_class := ClaudeModel; api_key := "sk-ant-test";
     model := "claude-3-sonnet-20240229"; max_tokens := 4096;
     temperature := 7 # 10 |}.

Definition reviewer : Agent :=
  {| agent_class := CodeReviewAgent; name := "Code Review Agent";
     description := "Analyzes code changes and provides detailed reviews";
     ai_model := claude; github_client := {| token := "ghp_test" |};
     conversation_history := [] |}.

Definition triager : Agent :=
  {| agent_class := IssueTriageAgent; name := "Issue Triage Agent";
     description := "Triages and categorizes GitHub issues";
     ai_model := claude; github_client := {| token := "ghp_test" |};
     conversation_history := [] |}.

(** A reviewer that has already had one exchange. *)
Definition reviewer_with_history : Agent :=
  set_history reviewer
    [{| role := "user"; content := "hello" |};
     {| role := "assistant"; content := "hi" |}].

(** A new manager, nothing created, nothing called. *)
Definition fresh_state : State :=
  {| manager := Manager.AgentManager_init; heap := ∅; trace := [] |}.

(** One agent object at location 0, not registered anywhere. *)
Definition state_with (a : Agent) : State :=
  {| manager := Manager.AgentManager_init; heap := {[ 0%nat := a ]};
     trace := [] |}.

Definition pr_context : AgentContext :=
  {| repository := Some "o/r"%string; issue_number := None;
     pr_number := Some 7; metadata := PyDict.empty; timestamp := "" |}.

Definition bare_context : AgentContext :=
  {| repository := None; issue_number := None; pr_number := None;
     metadata := PyDict.empty; timestamp := "" |}.

(** The state after one [create_agent "code_review"] on a new manager. *)
Definition after_first_create : State :=
  snd (Manager.create_agent cfg "code_review" None None None fresh_state).

(** And after a second one. *)
Definition after_second_create : State :=
  snd (Manager.create_agent cfg "code_review" None None None
         after_first_create).

(** The body of [POST /agents/ghost/execute]. *)
Definition hello_body : Api.ExecuteBody :=
  {| Api.body_input := Some "hello"%string; Api.body_repository := None;
     Api.body_issue_number := None; Api.body_pr_number := None;
     Api.body_metadata := None |}.

(** A user-written agent class. *)
Definition Summarizer : AgentClass :=
  CustomAgent
    {| custom_name := "Summary Agent";
       custom_description := "Summarizes text";
       custom_system_prompt := "You summarize.";
       custom_prompt := fun _ user_input => "Summarize: " +:+ user_input;
       custom_use_history := true |}.

End Samples.

(** ** What the adapters hand to the provider SDK
       ([ClaudeModel], [OpenAIModel] in [src/models/ai_models.py]) *)

Module Adapters.

(** The keyword arguments of [client.messages.create] and of
    [client.chat.completions.create]; [sdk_system] is [None] when the
    [system] argument is not passed. *)
Record SdkRequest := {
  sdk_model : string;
  sdk_max_tokens : Z;
  sdk_temperature : Q;
  sdk_messages : list Message;
  sdk_system : option string
}.

(** The request of [ClaudeModel.generate(prompt, system_prompt)]. *)
Definition ClaudeModel_generate (m : AIModel) (prompt : string)
    (system_prompt : option string) : SdkRequest :=
  let messages := [{| role := "user"; content := prompt |}] in
  {| sdk_model := model m; sdk_max_tokens := max_tokens m;
     sdk_temperature := temperature m; sdk_messages := messages;
     sdk_system := if PyStr.truthy_opt system_prompt then system_prompt
                   else None |}.

(** The request of [ClaudeModel.chat(messages)]. *)
Definition ClaudeModel_chat (m : AIModel) (messages : list Message)
    : SdkRequest :=
  {| sdk_model := model m; sdk_max_tokens := max_tokens m;
     sdk_temperature := temperature m; sdk_messages := messages;
     sdk_system := None |}.

(** The request of [OpenAIModel.generate(prompt, system_prompt)]. *)
Definition OpenAIModel_generate (m : AIModel) (prompt : string)
    (system_prompt : option string) : SdkRequest :=
  let messages :=
    match system_prompt with
    | Some sp => if PyStr.truthy sp
                 then [{| role := "system"; content := sp |}] else []
    | None => []
    end in
  let messages := messages ++ [{| role := "user"; content := prompt |}] in
  {| sdk_model := model m; sdk_max_tokens := max_tokens m;
     sdk_temperature := temperature m; sdk_messages := messages;
     sdk_system := None |}.

(** The request of [OpenAIModel.chat(messages)]. *)
Definition OpenAIModel_chat (m : AIModel) (messages : list Message)
    : SdkRequest :=
  {| sdk_model := model m; sdk_max_tokens := max_tokens m;
     sdk_temperature := temperature m; sdk_messages := messages;
     sdk_system := None |}.

(** [m.generate(prompt, system_prompt)], by the class of [m]. *)
Definition generate_request (m : AIModel) (prompt : string)
    (system_prompt : option string) : SdkRequest :=
  match model_class m with
  | ClaudeModel => ClaudeModel_generate m prompt system_prompt
  | OpenAIModel => OpenAIModel_generate m prompt system_prompt
  end.

(** [m.chat(messages)], by the class of [m]. *)
Definition chat_request (m : AIModel) (messages : list Message) : SdkRequest :=
  match model_class m with
  | ClaudeModel => ClaudeModel_chat m messages
  | OpenAIModel => OpenAIModel_chat m messages
  end.

(** Every text the provider is sent as an instruction above the
    conversation: the [system] argument and the messages of role
    "system". *)
Definition system_texts (r : SdkRequest) : list string :=
  match sdk_system r with Some sp => [sp] | None => [] end ++
  map content
    (filter (fun msg => String.eqb (role msg) "system") (sdk_messages r)).

End Adapters.

(** ** The [agent] command of the command line ([cli.py]) *)

Module Cli.

Record AgentArgs := {
  arg_type : option string;
  arg_id : option string;
  arg_input : option string;
  arg_repo : option string;
  arg_issue : option Z;
  arg_pr : option Z
}.

Definition underscore : ascii := ascii_of_nat 95.

(** [s.split(sep)[0]] for a one-character [sep]. *)
Fixpoint split_head (sep : ascii) (s : string) : string :=
  match s with
  | EmptyString => EmptyString
  | String c r => if Ascii.eqb c sep then EmptyString
                  else String c (split_head sep r)
  end.

(** [id.split('_')[0] if '_' in id else id] *)
Definition agent_type_of_id (id : string) : string :=
  if PyStr.has_char underscore id then split_head underscore id else id.

Section Commands.

Variable config : Config.
Variable world : World.

(** [agent create]: what is printed. *)
Definition agent_create (args : AgentArgs) : M string :=
  put_manager Manager.AgentManager_init ;;
  match arg_type args with
  | Some (String c r) =>
      let* l := Manager.create_agent config (String c r) (arg_id args)
                  None None in
      let* agent := get_obj l in
      ret ("Created agent: " +:+ name agent +:+ PyStr.nl)
  | _ => ret ("Error: --type is required for create action" +:+ PyStr.nl)
  end.

(** [agent execute]: what is printed. *)
Definition agent_execute (args : AgentArgs) : M string :=
  put_manager Manager.AgentManager_init ;;
  match arg_id args, arg_input args with
  | Some (String c r), Some (String c' r') =>
      let id := String c r in
      let input := String c' r' in
      let* context := AgentContext_init world (arg_repo args)
                        (arg_issue args) (arg_pr args) None in
      let* existing := Manager.get_agent id in
      match existing with
      | None =>
          let agent_type := agent_type_of_id id in
          let* _ := Manager.create_agent config agent_type (Some id)
                      None None in
          ret tt
      | Some _ => ret tt
      end ;;
      let* response := Manager.execute_agent world id context input in
      ret (PyStr.nl +:+ "Agent Response:" +:+ PyStr.nl +:+ response +:+
           PyStr.nl)
  | _, _ =>
      ret ("Error: --id and --input are required for execute action" +:+
           PyStr.nl)
  end.

End Commands.

End Cli.

(** ** Well-formed states and histories *)

(** What Python gives for free: the keys of a dictionary are distinct, and
    a reference held by the registry has its object. *)
Definition registry_wf (s : State) : Prop :=
  List.NoDup (PyDict.keys (agents (manager s))) /\
  List.NoDup (PyDict.keys (agent_types (manager s))) /\
  forall k l, PyDict.get k (agents (manager s)) = Some l ->
              is_Some (heap s !! l).

(** A history made of exchanges: a user message, then an assistant
    message, any number of times. *)
Fixpoint exchanges (h : list Message) : bool :=
  match h with
  | [] => true
  | u :: r =>
      match r with
      | [] => false
      | a :: r' => String.eqb (role u) "user" &&
                   String.eqb (role a) "assistant" && exchanges r'
      end
  end.

(** A conversation as [chat] wants it: exchanges, then one user message. *)
Definition ends_with_user_turn (messages : list Message) : Prop :=
  exists h prompt,
    messages = h ++ [{| role := "user"; content := prompt |}] /\
    exchanges h = true.

(** The state after the calls [calls] have left the process, in order. *)
Definition log_calls (s : State) (calls : list Call) : State :=
  {| manager := manager s; heap := heap s; trace := trace s ++ calls |}.

Definition is_chat_call (c : Call) : bool :=
  match c with CallChat _ _ => true | _ => false end.

(** The classes that ship with the library. *)
Definition shipped (cls : AgentClass) : bool :=
  match cls with CustomAgent _ => false | _ => true end.


(** The calls a run added to the trace. *)
Definition calls_during (s s' : State) (calls : list Call) : Prop :=
  trace s' = trace s ++ calls.

(** ** More concrete inputs *)

Module MoreSamples.

Definition documenter : Agent :=
  {| agent_class := DocumentationAgent; name := "Documentation Agent";
     description := "Generates and improves documentation";
     ai_model := Samples.claude; github_client := {| token := "ghp_test" |};
     conversation_history := [] |}.

(** The platform is unreachable. *)
Definition world_no_platform : World :=
  {| answer_generate := fun _ _ prompt _ => inr ("re: " +:+ prompt);
     answer_chat := fun _ _ _ => inr "continued"%string;
     answer_get_repository := fun _ _ _ => inl (UpstreamError "401 Bad credentials");
     answer_get_pull := fun _ _ _ => inr Samples.fix_bug;
     answer_get_issue := fun _ _ _ => inl (UpstreamError "404 Not Found");
     clock_now := fun _ => "2024-01-01T00:00:00"%string |}.

Definition crash_issue : Issue :=
  {| issue_title := "Crash on start"; issue_body := Some "Stack trace"%string;
     issue_labels := ["bug"; "ui"]%string; issue_state := "open" |}.

(** The platform has the issue. *)
Definition world_with_issue : World :=
  {| answer_generate := fun _ _ prompt _ => inr ("re: " +:+ prompt);
     answer_chat := fun _ _ _ => inr "continued"%string;
     answer_get_repository := fun _ _ repo_name => inr {| full_name := repo_name |};
     answer_get_pull := fun _ _ _ => inr Samples.fix_bug;
     answer_get_issue := fun _ _ _ => inr crash_issue;
     clock_now := fun _ => "2024-01-01T00:00:00"%string |}.

Definition issue_context : AgentContext :=
  {| repository := Some "o/r"%string; issue_number := Some 12;
     pr_number := None; metadata := PyDict.empty; timestamp := "" |}.

(** Pull request number 0 and an empty repository name. *)
Definition falsy_context : AgentContext :=
  {| repository := Some ""%string; issue_number := Some 0;
     pr_number := Some 0; metadata := PyDict.empty; timestamp := "" |}.

(** A GitHub token, no API key. *)
Definition cfg_token_only : Config :=
  {| ANTHROPIC_API_KEY := ""; OPENAI_API_KEY := "";
     GITHUB_TOKEN := "ghp_test"; GITHUB_USERNAME := "";
     DEFAULT_MODEL := "claude-3-sonnet-20240229";
     MAX_TOKENS := 4096; TEMPERATURE := 7 # 10 |}.

Definition execute_args (id input : string) : Cli.AgentArgs :=
  {| Cli.arg_type := None; Cli.arg_id := Some id; Cli.arg_input := Some input;
     Cli.arg_repo := None; Cli.arg_issue := None; Cli.arg_pr := None |}.

Definition create_body (t : string) (id : option string) : Api.CreateBody :=
  {| Api.body_type := Some t; Api.body_id := id |}.

End MoreSamples.

(** * Properties *)

(** ** Strings *)

Module PyStrFacts.

Import PyStr.

Lemma all_ascii_complete (c : ascii) : In c all_ascii.
Proof.
  unfold all_ascii. rewrite <- (ascii_nat_embedding c).
  apply in_map, in_seq. pose proof (nat_ascii_bounded c). lia.
Qed.

Lemma same_letter_lower (c w : ascii) :
  not_capital w = true ->
  same_letter c w = Ascii.eqb (lower_ascii c) w.
Proof.
  assert (H : forallb (fun c => forallb (fun w =>
              implb (not_capital w)
                    (Bool.eqb (same_letter c w) (Ascii.eqb (lower_ascii c) w)))
              all_ascii) all_ascii = true) by (vm_compute; reflexivity).
  rewrite forallb_forall in H.
  specialize (H c (all_ascii_complete c)).
  rewrite forallb_forall in H.
  specialize (H w (all_ascii_complete w)).
  intros Hw. rewrite Hw in H. simpl in H.
  apply Bool.eqb_prop in H. exact H.
Qed.

Lemma capitalization_of_lower (w p : string) :
  no_capitals w = true ->
  capitalization_of p w = String.eqb (lower p) w.
Proof.
  revert p. induction w as [|d w IH]; intros [|c p] Hw; simpl; try reflexivity.
  simpl in Hw. apply andb_prop in Hw as [Hd Hw].
  rewrite (same_letter_lower c d Hd), (IH p Hw).
  destruct (Ascii.eqb (lower_ascii c) d); reflexivity.
Qed.

Lemma prefix_append (sub s t : string) :
  prefix sub s = true -> prefix sub (s +:+ t) = true.
Proof.
  revert s. induction sub as [|a sub IH]; intros [|b s]; simpl; try done.
  destruct (Ascii.eqb a b); [apply IH | done].
Qed.

Lemma contains_cons (b : ascii) (s sub : string) :
  contains (String b s) sub =
    if prefix sub (String b s) then true else contains s sub.
Proof. reflexivity. Qed.

Lemma contains_append (s t sub : string) :
  contains s sub = true -> contains (s +:+ t) sub = true.
Proof.
  induction s as [|b s IH].
  - destruct sub; [destruct t; reflexivity | discriminate].
  - change (String b s +:+ t) with (String b (s +:+ t)).
    rewrite !contains_cons.
    destruct (prefix sub (String b s)) eqn:Hp.
    + intros _. apply (prefix_append _ _ t) in Hp.
      change (String b s +:+ t) with (String b (s +:+ t)) in Hp.
      rewrite Hp. reflexivity.
    + intros H. rewrite (IH H).
      destruct (prefix sub (String b (s +:+ t))); reflexivity.
Qed.

End PyStrFacts.

(** ** The model factory *)

(** C6. [ModelFactory.create_model] compares the provider name without
    regard to case: every capitalization of "anthropic" or "claude" gives a
    Claude adapter, every capitalization of "openai" an OpenAI adapter, in
    both cases with the key, token bound and temperature as given and the
    provider's default model when none is given; every other provider
    string raises "Unsupported AI provider", and nothing else is checked. *)
Theorem create_model_provider_case_insensitive
    (provider api_key : string) (model : option string)
    (max_tokens : Z) (temperature : Q) :
  ModelFactory.create_model provider api_key model max_tokens temperature =
    if PyStr.capitalization_of provider "anthropic" ||
       PyStr.capitalization_of provider "claude"
    then inr {| model_class := ClaudeModel; api_key := api_key;
                model := match model with
                         | None | Some EmptyString => "claude-3-sonnet-20240229"
                         | Some m => m
                         end;
                max_tokens := max_tokens; temperature := temperature |}
    else if PyStr.capitalization_of provider "openai"
    then inr {| model_class := OpenAIModel; api_key := api_key;
                model := match model with
                         | None | Some EmptyString => "gpt-4"
                         | Some m => m
                         end;
                max_tokens := max_tokens; temperature := temperature |}
    else inl (ValueError ("Unsupported AI provider: " +:+ PyStr.lower provider)).
Proof.
  unfold ModelFactory.create_model.
  rewrite !PyStrFacts.capitalization_of_lower by reflexivity.
  destruct (String.eqb (PyStr.lower provider) "anthropic"
            || String.eqb (PyStr.lower provider) "claude");
    [destruct model as [[|? ?]|]; reflexivity|].
  destruct (String.eqb (PyStr.lower provider) "openai");
    [destruct model as [[|? ?]|]; reflexivity|].
  reflexivity.
Qed.

(** ** Agents *)

Section AgentFacts.

Variable world : World.

Lemma set_history_twice (a : Agent) (h1 h2 : list Message) :
  set_history (set_history a h1) h2 = set_history a h2.
Proof. reflexivity. Qed.

Lemma heap_log_call (s : State) (c : Call) : heap (log_call s c) = heap s.
Proof. reflexivity. Qed.

Lemma trace_log_call (s : State) (c : Call) :
  trace (log_call s c) = trace s ++ [c].
Proof. reflexivity. Qed.

Lemma add_to_conversation_run (self : loc) (a : Agent) (role content : string)
    (s : State) :
  heap s !! self = Some a ->
  add_to_conversation self role content s =
    (inr tt,
     with_heap s (<[self := set_history a
                     (conversation_history a ++
                        [{| role := role; content := content |}])]>
                    (heap s))).
Proof.
  intros Hself. unfold add_to_conversation, bind, get_obj, put_obj.
  rewrite Hself. reflexivity.
Qed.

(** After the model has answered [response], the two appends. *)
Lemma record_exchange (self : loc) (a : Agent) (prompt response : string)
    (s : State) :
  heap s !! self = Some a ->
  (add_to_conversation self "user" prompt ;;
   add_to_conversation self "assistant" response ;;
   ret response) s =
  (inr response,
   with_heap s (<[self := set_history a
                   (conversation_history a ++
                      [{| role := "user"; content := prompt |};
                       {| role := "assistant"; content := response |}])]>
                  (heap s))).
Proof.
  intros Hself. unfold bind, ret.
  rewrite (add_to_conversation_run self a _ _ s Hself).
  erewrite add_to_conversation_run by apply lookup_insert_eq.
  unfold with_heap; simpl.
  rewrite insert_insert_eq, set_history_twice. simpl.
  rewrite <- app_assoc. reflexivity.
Qed.

(** The single-prompt path of [generate_response]. *)
Lemma generate_response_generate (self : loc) (a : Agent) (prompt : string)
    (use_history : bool) (s : State) :
  heap s !! self = Some a ->
  use_history && PyStr.truthy_list (conversation_history a) = false ->
  generate_response world self prompt use_history s =
    let call := CallGenerate (ai_model a) prompt
                  (get_system_prompt (agent_class a)) in
    match answer_generate world (trace s) (ai_model a) prompt
            (get_system_prompt (agent_class a)) with
    | inl e => (inl e, log_call s call)
    | inr response =>
        (inr response,
         with_heap (log_call s call)
           (<[self := set_history a
                (conversation_history a ++
                   [{| role := "user"; content := prompt |};
                    {| role := "assistant"; content := response |}])]>
              (heap s)))
    end.
Proof.
  intros Hself Hcond. unfold generate_response.
  unfold bind at 1. unfold get_obj at 1. rewrite Hself, Hcond.
  unfold bind at 1. unfold AIModel_generate.
  destruct (answer_generate _ _ _ _ _) as [e|response]; [reflexivity|].
  apply (record_exchange self a prompt response (log_call s _)). exact Hself.
Qed.

(** The replay path of [generate_response]. *)
Lemma generate_response_chat (self : loc) (a : Agent) (prompt : string)
    (use_history : bool) (s : State) :
  heap s !! self = Some a ->
  use_history && PyStr.truthy_list (conversation_history a) = true ->
  generate_response world self prompt use_history s =
    let messages :=
      conversation_history a ++ [{| role := "user"; content := prompt |}] in
    let call := CallChat (ai_model a) messages in
    match answer_chat world (trace s) (ai_model a) messages with
    | inl e => (inl e, log_call s call)
    | inr response =>
        (inr response,
         with_heap (log_call s call)
           (<[self := set_history a
                (conversation_history a ++
                   [{| role := "user"; content := prompt |};
                    {| role := "assistant"; content := response |}])]>
              (heap s)))
    end.
Proof.
  intros Hself Hcond. unfold generate_response.
  unfold bind at 1. unfold get_obj at 1. rewrite Hself, Hcond.
  unfold bind at 1. unfold AIModel_chat.
  destruct (answer_chat _ _ _ _) as [e|response]; [reflexivity|].
  apply (record_exchange self a prompt response (log_call s _)). exact Hself.
Qed.

(** What one [generate_response] does to the heap: on success the object
    at [self] has two more messages, on failure nothing moves. *)
Lemma generate_response_heap (self : loc) (a : Agent) (prompt : string)
    (use_history : bool) (s : State) :
  heap s !! self = Some a ->
  match generate_response world self prompt use_history s with
  | (inr response, s') =>
      heap s' = <[self := set_history a
                   (conversation_history a ++
                      [{| role := "user"; content := prompt |};
                       {| role := "assistant"; content := response |}])]>
                  (heap s)
  | (inl _, s') => heap s' = heap s
  end.
Proof.
  intros Hself.
  destruct (use_history && PyStr.truthy_list (conversation_history a)) eqn:Hc.
  - rewrite (generate_response_chat self a prompt use_history s Hself Hc).
    simpl. destruct (answer_chat _ _ _ _); reflexivity.
  - rewrite (generate_response_generate self a prompt use_history s Hself Hc).
    simpl. destruct (answer_generate _ _ _ _ _); reflexivity.
Qed.

End AgentFacts.

Section AgentClaims.

Variable world : World.

Lemma generate_response_heap_from (self : loc) (a : Agent) (prompt : string)
    (use_history : bool) (s0 s : State) :
  heap s = heap s0 ->
  heap s0 !! self = Some a ->
  match generate_response world self prompt use_history s with
  | (inr response, s') =>
      exists p,
        heap s' = <[self := set_history a
                     (conversation_history a ++
                        [{| role := "user"; content := p |};
                         {| role := "assistant"; content := response |}])]>
                    (heap s0)
  | (inl _, s') => heap s' = heap s0
  end.
Proof.
  intros Hheap Hself. rewrite <- Hheap in Hself.
  pose proof (generate_response_heap world self a prompt use_history s Hself) as H.
  destruct (generate_response world self prompt use_history s) as [[e|r] s'].
  - congruence.
  - exists prompt. congruence.
Qed.

(** Every variant of [execute] ends in one [generate_response], and what
    comes before it only reads. *)
Lemma execute_heap (self : loc) (a : Agent) (context : AgentContext)
    (user_input : string) (s : State) :
  heap s !! self = Some a ->
  match execute world self context user_input s with
  | (inr response, s') =>
      exists p,
        heap s' = <[self := set_history a
                     (conversation_history a ++
                        [{| role := "user"; content := p |};
                         {| role := "assistant"; content := response |}])]>
                    (heap s)
  | (inl _, s') => heap s' = heap s
  end.
Proof.
  intros Hself. unfold execute, bind at 1, get_obj at 1. rewrite Hself.
  destruct (agent_class a).
  - unfold CodeReviewAgent_execute.
    destruct (pr_number context) as [n|], (repository context) as [r|];
      try (apply generate_response_heap_from; [reflexivity | exact Hself]).
    destruct (truthy_int (Some n) && PyStr.truthy r);
      try (apply generate_response_heap_from; [reflexivity | exact Hself]).
    unfold bind at 1, get_obj at 1. rewrite Hself.
    unfold bind at 1, get_repository.
    destruct (answer_get_repository _ _ _ _) as [e|repo]; [reflexivity|].
    unfold bind at 1, get_pull.
    destruct (answer_get_pull _ _ _ _) as [e|pr]; [reflexivity|].
    apply generate_response_heap_from; [reflexivity | exact Hself].
  - unfold IssueTriageAgent_execute.
    destruct (issue_number context) as [n|], (repository context) as [r|];
      try (apply generate_response_heap_from; [reflexivity | exact Hself]).
    destruct (truthy_int (Some n) && PyStr.truthy r);
      try (apply generate_response_heap_from; [reflexivity | exact Hself]).
    unfold bind at 1, get_obj at 1. rewrite Hself.
    unfold bind at 1, get_repository.
    destruct (answer_get_repository _ _ _ _) as [e|repo]; [reflexivity|].
    unfold bind at 1, get_issue.
    destruct (answer_get_issue _ _ _ _) as [e|issue]; [reflexivity|].
    apply generate_response_heap_from; [reflexivity | exact Hself].
  - apply generate_response_heap_from; [reflexivity | exact Hself].
  - apply generate_response_heap_from; [reflexivity | exact Hself].
Qed.

(** C10. With an empty history, [generate_response] asked to use the
    history makes one call, [generate] with the prompt and the variant's
    system prompt, and no [chat].  In general it makes exactly one call,
    and that call is a [chat] exactly when history use is asked for and the
    history is not empty. *)
Theorem chat_only_with_nonempty_history (self : loc) (a : Agent)
    (prompt : string) (s : State) :
  heap s !! self = Some a ->
  (conversation_history a = [] ->
   trace (snd (generate_response world self prompt true s)) =
     trace s ++ [CallGenerate (ai_model a) prompt
                   (get_system_prompt (agent_class a))]) /\
  (forall use_history,
     exists call,
       trace (snd (generate_response world self prompt use_history s)) =
         trace s ++ [call] /\
       is_model_call call = true /\
       ((exists m messages, call = CallChat m messages) <->
        (use_history = true /\ conversation_history a <> []))).
Proof.
  intros Hself. split.
  - intros Hempty.
    rewrite (generate_response_generate world self a prompt true s Hself)
      by (rewrite Hempty; reflexivity).
    simpl. destruct (answer_generate _ _ _ _ _); reflexivity.
  - intros use_history.
    destruct (use_history && PyStr.truthy_list (conversation_history a)) eqn:Hc.
    + rewrite (generate_response_chat world self a prompt use_history s Hself Hc).
      eexists. split; [simpl; destruct (answer_chat _ _ _ _); reflexivity|].
      split; [reflexivity|]. split; [intros _ | intros _; eauto].
      apply andb_prop in Hc as [Hu Hh]. split; [exact Hu|].
      intros Hnil. rewrite Hnil in Hh. discriminate.
    + rewrite (generate_response_generate world self a prompt use_history s Hself Hc).
      eexists. split; [simpl; destruct (answer_generate _ _ _ _ _); reflexivity|].
      split; [reflexivity|]. split; [intros (m & msgs & Heq); discriminate|].
      intros [Hu Hh]. rewrite Hu in Hc.
      destruct (conversation_history a); [congruence | discriminate].
Qed.

End AgentClaims.

Section ExecuteClaims.

Variable world : World.

(** C7. An Issue Triage Agent run on a context without [issue_number]
    takes the raw-text path: [execute] is [generate_response] on
    "Triage this issue:", two newlines and the input as given, without
    history; the only call that leaves the process is the model's
    [generate] with exactly that prompt, so the repository client is not
    called. *)
Theorem issue_triage_without_number_is_raw_text (self : loc) (a : Agent)
    (context : AgentContext) (user_input : string) (s : State) :
  heap s !! self = Some a ->
  agent_class a = IssueTriageAgent ->
  issue_number context = None ->
  execute world self context user_input s =
    generate_response world self
      ("Triage this issue:" +:+ PyStr.nl +:+ PyStr.nl +:+ user_input) false s /\
  trace (snd (execute world self context user_input s)) =
    trace s ++
      [CallGenerate (ai_model a)
         ("Triage this issue:" +:+ PyStr.nl +:+ PyStr.nl +:+ user_input)
         (get_system_prompt IssueTriageAgent)] /\
  filter (fun c => is_repository_call c)
    (trace (snd (execute world self context user_input s))) =
  filter (fun c => is_repository_call c) (trace s).
Proof.
  intros Hself Hclass Hnone.
  assert (Hexec : execute world self context user_input s =
            generate_response world self
              ("Triage this issue:" +:+ PyStr.nl +:+ PyStr.nl +:+ user_input)
              false s).
  { unfold execute, bind at 1, get_obj at 1. rewrite Hself, Hclass.
    unfold IssueTriageAgent_execute. rewrite Hnone. reflexivity. }
  assert (Htrace : trace (snd (execute world self context user_input s)) =
            trace s ++
              [CallGenerate (ai_model a)
                 ("Triage this issue:" +:+ PyStr.nl +:+ PyStr.nl +:+ user_input)
                 (get_system_prompt IssueTriageAgent)]).
  { rewrite Hexec.
    rewrite (generate_response_generate world self a _ false s Hself)
      by reflexivity.
    rewrite Hclass. simpl. destruct (answer_generate _ _ _ _ _); reflexivity. }
  split; [exact Hexec|]. split; [exact Htrace|].
  rewrite Htrace, filter_app. simpl. apply app_nil_r.
Qed.

(** C8. A Code Review Agent run with repository "o/r" and pull request 7,
    where the platform returns a pull request titled "Fix bug" with no
    body, 3 changed files, 10 additions and 2 deletions: after the two
    look-ups the model's [generate] is called with a prompt that has the
    texts "Fix bug", "Files changed: 3", "Additions: +10", "Deletions: -2",
    and "No description provided" where the body would be. *)
Theorem code_review_prompt_of_pull_request (self : loc) (a : Agent)
    (context : AgentContext) (user_input : string) (s : State)
    (repo : Repository) :
  heap s !! self = Some a ->
  agent_class a = CodeReviewAgent ->
  repository context = Some "o/r"%string ->
  pr_number context = Some 7 ->
  answer_get_repository world (trace s) (github_client a) "o/r" = inr repo ->
  answer_get_pull world
    (trace s ++ [CallGetRepository (github_client a) "o/r"]) repo 7 =
    inr {| pr_title := "Fix bug"; pr_body := None; pr_changed_files := 3;
           pr_additions := 10; pr_deletions := 2 |} ->
  exists prompt,
    trace (snd (execute world self context user_input s)) =
      trace s ++
        [CallGetRepository (github_client a) "o/r";
         CallGetPull repo 7;
         CallGenerate (ai_model a) prompt (get_system_prompt CodeReviewAgent)] /\
    PyStr.contains prompt "Fix bug" = true /\
    PyStr.contains prompt "Files changed: 3" = true /\
    PyStr.contains prompt "Additions: +10" = true /\
    PyStr.contains prompt "Deletions: -2" = true /\
    PyStr.contains prompt "No description provided" = true /\
    PyStr.contains prompt
      ("Title: Fix bug" +:+ PyStr.nl +:+
       "Description: No description provided" +:+ PyStr.nl) = true.
Proof.
  intros Hself Hclass Hrepo Hnum Hget Hpull.
  eexists. split.
  - unfold execute, bind at 1, get_obj at 1. rewrite Hself, Hclass.
    unfold CodeReviewAgent_execute. rewrite Hnum, Hrepo.
    cbn [truthy_int PyStr.truthy Z.eqb negb andb].
    unfold bind at 1, get_obj at 1. rewrite Hself.
    unfold bind at 1, get_repository. rewrite Hget.
    unfold bind at 1, get_pull. rewrite trace_log_call, Hpull.
    rewrite (generate_response_generate world self a _ false
               (log_call (log_call s _) _) Hself) by reflexivity.
    rewrite Hclass. cbv zeta.
    destruct (answer_generate _ _ _ _ _); unfold snd, with_heap, log_call;
      cbn [trace]; rewrite <- !app_assoc; reflexivity.
  - repeat split; vm_compute; reflexivity.
Qed.

End ExecuteClaims.

(** ** Dictionaries *)

Module PyDictFacts.

Import PyDict.

Section Facts.

Context {V : Type}.

Lemma get_set_eq (k : string) (v : V) (d : t V) : get k (set k v d) = Some v.
Proof.
  induction d as [|[k' v'] d IH]; simpl.
  - rewrite String.eqb_refl. reflexivity.
  - destruct (String.eqb k k') eqn:E; simpl; rewrite E; [reflexivity | exact IH].
Qed.

Lemma get_set_ne (k k' : string) (v : V) (d : t V) :
  k <> k' -> get k' (set k v d) = get k' d.
Proof.
  intros Hne. induction d as [|[k0 v0] d IH]; simpl.
  - apply not_eq_sym, String.eqb_neq in Hne. rewrite Hne. reflexivity.
  - destruct (String.eqb k k0) eqn:E; simpl.
    + apply String.eqb_eq in E. subst k0.
      apply not_eq_sym, String.eqb_neq in Hne. rewrite Hne. reflexivity.
    + rewrite IH. reflexivity.
Qed.

Lemma size_set_present (k : string) (v v0 : V) (d : t V) :
  get k d = Some v0 -> size (set k v d) = size d.
Proof.
  unfold size. induction d as [|[k' v'] d IH]; simpl; [discriminate|].
  destruct (String.eqb k k'); simpl; [reflexivity|].
  intros H. rewrite (IH H). reflexivity.
Qed.

Lemma keys_set (k : string) (v : V) (d : t V) : In k (keys (set k v d)).
Proof.
  unfold keys. induction d as [|[k' v'] d IH]; simpl; [left; reflexivity|].
  destruct (String.eqb k k') eqn:E; simpl.
  - left. apply String.eqb_eq in E. congruence.
  - right. exact IH.
Qed.

End Facts.

End PyDictFacts.

(** ** The manager *)

Section ManagerClaims.

Variable config : Config.
Variable world : World.

(** One [create_agent] of a registered type, step by step. *)
Lemma create_agent_run (agent_type : string) (agent_id : option string)
    (m : option AIModel) (g : option GitHubClient) (s : State)
    (cls : AgentClass) :
  PyDict.get agent_type (agent_types (manager s)) = Some cls ->
  Manager.create_agent config agent_type agent_id m g s =
    match instantiate config cls m g with
    | inl e => (inl e, s)
    | inr a =>
        let l := fresh (dom (heap s)) in
        (inr l,
         with_manager (with_heap s (<[l := a]> (heap s)))
           {| agents := PyDict.set (PyStr.or_else agent_id agent_type) l
                          (agents (manager s));
              agent_types := agent_types (manager s) |})
    end.
Proof.
  intros Hcls. unfold Manager.create_agent, bind at 1, get_manager.
  rewrite Hcls. unfold bind at 1, lift.
  destruct (instantiate config cls m g); reflexivity.
Qed.

Lemma create_agent_unknown (agent_type : string) (agent_id : option string)
    (m : option AIModel) (g : option GitHubClient) (s : State) :
  PyDict.get agent_type (agent_types (manager s)) = None ->
  Manager.create_agent config agent_type agent_id m g s =
    (inl (ValueError ("Unknown agent type: " +:+ agent_type +:+
                      ". Available: " +:+
                      PyStr.repr_list (PyDict.keys (agent_types (manager s))))),
     s).
Proof.
  intros Hnone. unfold Manager.create_agent, bind at 1, get_manager.
  rewrite Hnone. reflexivity.
Qed.

(** What a successful [create_agent] did. *)
Lemma create_agent_ok (agent_type : string) (agent_id : option string)
    (m : option AIModel) (g : option GitHubClient) (s s' : State) (l : loc) :
  Manager.create_agent config agent_type agent_id m g s = (inr l, s') ->
  exists cls a,
    PyDict.get agent_type (agent_types (manager s)) = Some cls /\
    instantiate config cls m g = inr a /\
    l = fresh (dom (heap s)) /\
    s' = with_manager (with_heap s (<[l := a]> (heap s)))
           {| agents := PyDict.set (PyStr.or_else agent_id agent_type) l
                          (agents (manager s));
              agent_types := agent_types (manager s) |}.
Proof.
  intros Hrun.
  destruct (PyDict.get agent_type (agent_types (manager s))) as [cls|] eqn:Hcls.
  - rewrite (create_agent_run _ _ _ _ _ cls Hcls) in Hrun.
    destruct (instantiate config cls m g) as [e|a] eqn:Ha; [discriminate|].
    inversion Hrun; subst. exists cls, a. auto.
  - rewrite (create_agent_unknown _ _ _ _ _ Hcls) in Hrun. discriminate.
Qed.

Lemma fresh_not_allocated (s : State) : heap s !! fresh (dom (heap s)) = None.
Proof. apply not_elem_of_dom, is_fresh. Qed.

(** C2. When [create_agent] is called with a type and no id, the agent it
    makes is stored under the type name; a second such call makes another
    object, which takes the first one's place: [get_agent] on the type name
    then returns the second and the registry has not grown. *)
Theorem create_without_id_replaces (t : string)
    (m1 m2 : option AIModel) (g1 g2 : option GitHubClient)
    (s s1 s2 : State) (l1 l2 : loc) :
  Manager.create_agent config t None m1 g1 s = (inr l1, s1) ->
  Manager.create_agent config t None m2 g2 s1 = (inr l2, s2) ->
  Manager.get_agent t s1 = (inr (Some l1), s1) /\
  Manager.get_agent t s2 = (inr (Some l2), s2) /\
  l2 <> l1 /\
  heap s1 !! l2 = None /\
  is_Some (heap s2 !! l2) /\
  PyDict.size (agents (manager s2)) = PyDict.size (agents (manager s1)).
Proof.
  intros H1 H2.
  apply create_agent_ok in H1 as (c1 & a1 & Hc1 & Ha1 & Hl1 & Hs1).
  apply create_agent_ok in H2 as (c2 & a2 & Hc2 & Ha2 & Hl2 & Hs2).
  assert (Hget1 : PyDict.get t (agents (manager s1)) = Some l1).
  { rewrite Hs1. simpl. apply PyDictFacts.get_set_eq. }
  assert (Hnew : heap s1 !! l2 = None).
  { rewrite Hl2. apply fresh_not_allocated. }
  split; [|split; [|split; [|split; [|split]]]].
  - unfold Manager.get_agent, bind, get_manager, ret. rewrite Hget1. reflexivity.
  - unfold Manager.get_agent, bind, get_manager, ret.
    rewrite Hs2 at 1. simpl. rewrite PyDictFacts.get_set_eq. reflexivity.
  - intros Heq. rewrite Heq, Hs1 in Hnew. simpl in Hnew.
    rewrite lookup_insert_eq in Hnew. discriminate.
  - exact Hnew.
  - rewrite Hs2. simpl. rewrite lookup_insert_eq. eauto.
  - rewrite Hs2. simpl. apply (PyDictFacts.size_set_present _ _ l1). exact Hget1.
Qed.

Lemma instantiate_class (cls : AgentClass) (m : option AIModel)
    (g : option GitHubClient) (a : Agent) :
  instantiate config cls m g = inr a ->
  agent_class a = cls /\ conversation_history a = [].
Proof.
  unfold instantiate, Agent_init, bindR.
  destruct (match m with Some _ => _ | None => _ end); [discriminate|].
  destruct (match g with Some _ => _ | None => _ end); [discriminate|].
  intros H. inversion H. split; reflexivity.
Qed.

Lemma instantiate_without_key (cls : AgentClass) (g : option GitHubClient) :
  PyStr.truthy (ANTHROPIC_API_KEY config) = false ->
  instantiate config cls None g =
    inl (ValueError "No API key configured for AI model").
Proof.
  intros Hkey. unfold instantiate, Agent_init, _create_default_model.
  change (get_api_key config "anthropic") with (Some (ANTHROPIC_API_KEY config)).
  cbv iota beta. rewrite Hkey. reflexivity.
Qed.

Lemma instantiate_without_token (cls : AgentClass) (m : option AIModel) :
  PyStr.truthy (GITHUB_TOKEN config) = false ->
  m <> None \/ PyStr.truthy (ANTHROPIC_API_KEY config) = true ->
  instantiate config cls m None = inl (ValueError "GitHub token not configured").
Proof.
  intros Htok Hm. unfold instantiate, Agent_init, _create_github_client.
  rewrite Htok. destruct m as [m|]; [reflexivity|].
  destruct Hm as [Hm|Hkey]; [congruence|].
  unfold _create_default_model.
  change (get_api_key config "anthropic") with (Some (ANTHROPIC_API_KEY config)).
  cbv iota beta. rewrite Hkey. reflexivity.
Qed.

(** C3. A [create_agent] that fails leaves the state, and so the registry,
    as it was: nothing is registered, no entry changes.  It fails with the
    unknown-type error when the type is not in the type table, with
    "No API key configured for AI model" when the type is known, no model
    is passed and the API key is empty, and with "GitHub token not
    configured" when the model is there, no client is passed and the token
    is empty. *)
Theorem failed_create_registers_nothing (agent_type : string)
    (agent_id : option string) (m : option AIModel)
    (g : option GitHubClient) (s : State) :
  (forall e s',
     Manager.create_agent config agent_type agent_id m g s = (inl e, s') ->
     s' = s /\
     agents (manager s') = agents (manager s) /\
     PyDict.size (agents (manager s')) = PyDict.size (agents (manager s))) /\
  (PyDict.get agent_type (agent_types (manager s)) = None ->
   exists msg,
     Manager.create_agent config agent_type agent_id m g s =
       (inl (ValueError msg), s) /\
     PyStr.prefix "Unknown agent type: " msg = true) /\
  (PyDict.mem agent_type (agent_types (manager s)) = true ->
   m = None ->
   PyStr.truthy (ANTHROPIC_API_KEY config) = false ->
   Manager.create_agent config agent_type agent_id m g s =
     (inl (ValueError "No API key configured for AI model"), s)) /\
  (PyDict.mem agent_type (agent_types (manager s)) = true ->
   g = None ->
   PyStr.truthy (GITHUB_TOKEN config) = false ->
   m <> None \/ PyStr.truthy (ANTHROPIC_API_KEY config) = true ->
   Manager.create_agent config agent_type agent_id m g s =
     (inl (ValueError "GitHub token not configured"), s)).
Proof.
  unfold PyDict.mem.
  destruct (PyDict.get agent_type (agent_types (manager s))) as [cls|] eqn:Hcls.
  - rewrite (create_agent_run _ agent_id m g s cls Hcls).
    split; [|split; [discriminate|split]].
    + intros e s' H.
      destruct (instantiate config cls m g); [|discriminate].
      inversion H; subst. auto.
    + intros _ -> Hkey. rewrite (instantiate_without_key cls g Hkey). reflexivity.
    + intros _ -> Htok Hm.
      rewrite (instantiate_without_token cls m Htok Hm). reflexivity.
  - rewrite (create_agent_unknown _ agent_id m g s Hcls).
    split; [|split; [|split; discriminate]].
    + intros e s' H. inversion H; subst. auto.
    + intros _. eexists. split; reflexivity.
Qed.

Lemma instantiate_configured (cls : AgentClass) (m : option AIModel)
    (g : option GitHubClient) :
  m <> None \/ PyStr.truthy (ANTHROPIC_API_KEY config) = true ->
  g <> None \/ PyStr.truthy (GITHUB_TOKEN config) = true ->
  exists a,
    instantiate config cls m g = inr a /\
    agent_class a = cls /\ name a = init_name cls /\
    description a = init_description cls /\ conversation_history a = [].
Proof.
  intros Hm Hg.
  unfold instantiate, Agent_init, _create_default_model, _create_github_client.
  change (get_api_key config "anthropic") with (Some (ANTHROPIC_API_KEY config)).
  cbv iota beta.
  unfold bindR.
  destruct m as [m0|], g as [g0|].
  - eexists. split; [reflexivity|]. auto.
  - destruct Hg as [Hg|Htok]; [congruence|]. rewrite Htok. simpl.
    eexists. split; [reflexivity|]. auto.
  - destruct Hm as [Hm|Hkey]; [congruence|]. rewrite Hkey. simpl.
    eexists. split; [reflexivity|]. auto.
  - destruct Hm as [Hm|Hkey]; [congruence|].
    destruct Hg as [Hg|Htok]; [congruence|].
    rewrite Hkey, Htok. simpl.
    eexists. split; [reflexivity|]. auto.
Qed.

(** C9. After [register_agent_type n C], the name [n] is among the
    available agent types, and [create_agent] on [n] returns an instance
    constructed by [C]: an agent of class [C], with the name and the
    description [C] gives its instances, stored and found under its id.
    This is so whenever the agent has what it needs: a model is passed or
    an API key is configured, and a client is passed or a token is
    configured. *)
Theorem registered_type_creates_instance (n : string) (C : AgentClass)
    (agent_id : option string) (m : option AIModel)
    (g : option GitHubClient) (s : State) :
  m <> None \/ PyStr.truthy (ANTHROPIC_API_KEY config) = true ->
  g <> None \/ PyStr.truthy (GITHUB_TOKEN config) = true ->
  exists s1,
    Manager.register_agent_type n C s = (inr tt, s1) /\
    (exists types,
       Manager.get_available_agent_types s1 = (inr types, s1) /\
       In n types) /\
    exists l s2 a,
      Manager.create_agent config n agent_id m g s1 = (inr l, s2) /\
      heap s2 !! l = Some a /\
      agent_class a = C /\
      name a = init_name C /\ description a = init_description C /\
      Manager.get_agent (match agent_id with
                         | None | Some EmptyString => n
                         | Some k => k
                         end) s2 = (inr (Some l), s2).
Proof.
  intros Hm Hg.
  destruct (instantiate_configured C m g Hm Hg)
    as (a & Ha & Hclass & Hname & Hdesc & _).
  assert (Hkey : PyStr.or_else agent_id n =
                 match agent_id with
                 | None | Some EmptyString => n
                 | Some k => k
                 end) by (destruct agent_id as [[|? ?]|]; reflexivity).
  rewrite <- Hkey.
  eexists. split; [reflexivity|]. split.
  - eexists. split; [reflexivity|]. simpl. apply PyDictFacts.keys_set.
  - erewrite create_agent_run by (simpl; apply PyDictFacts.get_set_eq).
    rewrite Ha. eexists _, _, a. split; [reflexivity|].
    split; [simpl; apply lookup_insert_eq|].
    split; [exact Hclass|]. split; [exact Hname|]. split; [exact Hdesc|].
    unfold Manager.get_agent, bind, get_manager, ret. simpl.
    rewrite PyDictFacts.get_set_eq. reflexivity.
Qed.

Lemma execute_agent_missing (agent_id : string) (context : AgentContext)
    (user_input : string) (s : State) :
  PyDict.get agent_id (agents (manager s)) = None ->
  Manager.execute_agent world agent_id context user_input s =
    (inl (ValueError ("Agent not found: " +:+ agent_id)), s).
Proof.
  intros Hnone.
  unfold Manager.execute_agent, Manager.get_agent.
  unfold bind, get_manager, ret. cbv beta iota.
  rewrite Hnone. reflexivity.
Qed.

(** C4. [execute_agent] on an id that is not in the registry raises
    "Agent not found" and leaves the state as it was; no call has left the
    process, neither to a model adapter nor to the repository client. *)
Theorem execute_missing_agent_calls_nothing (agent_id : string)
    (context : AgentContext) (user_input : string) (s : State) :
  PyDict.get agent_id (agents (manager s)) = None ->
  Manager.execute_agent world agent_id context user_input s =
    (inl (ValueError ("Agent not found: " +:+ agent_id)), s) /\
  trace (snd (Manager.execute_agent world agent_id context user_input s)) =
    trace s.
Proof.
  intros Hnone.
  pose proof (execute_agent_missing agent_id context user_input s Hnone) as H.
  split; [exact H | rewrite H; reflexivity].
Qed.

(** ** The HTTP routes *)

(** C5. For an id that is not in the registry, the execute route answers
    500 with the "Agent not found" message of the manager's exception,
    where the routes beside it (get, delete, clear conversation) answer
    404. *)
Theorem execute_route_missing_agent (agent_id : string)
    (data : Api.ExecuteBody) (s : State) :
  PyDict.get agent_id (agents (manager s)) = None ->
  fst (Api.execute_agent world agent_id data s) =
    (500, Api.ErrorPayload ("Agent not found: " +:+ agent_id)) /\
  fst (Api.get_agent agent_id s) = (404, Api.ErrorPayload "Agent not found") /\
  fst (Api.delete_agent agent_id s) = (404, Api.ErrorPayload "Agent not found") /\
  fst (Api.clear_conversation agent_id s) =
    (404, Api.ErrorPayload "Agent not found").
Proof.
  intros Hnone. repeat split.
  - unfold Api.execute_agent, Api.guarded, bind at 1, AgentContext_init.
    unfold bind at 1.
    rewrite (execute_agent_missing agent_id _ _ s Hnone).
    reflexivity.
  - unfold Api.get_agent, Api.guarded, Manager.get_agent.
    unfold bind, get_manager, ret. cbv beta iota.
    rewrite Hnone. reflexivity.
  - unfold Api.delete_agent, Api.guarded, Manager.remove_agent, PyDict.mem.
    unfold bind, get_manager, ret. cbv beta iota.
    rewrite Hnone. reflexivity.
  - unfold Api.clear_conversation, Api.guarded, Manager.get_agent.
    unfold bind, get_manager, ret. cbv beta iota.
    rewrite Hnone. reflexivity.
Qed.

End ManagerClaims.

(** ** The properties at concrete inputs *)

Example reviewer_history_after_reply :
  history_at
    (snd (generate_response Samples.world_up 0%nat "and this?" true
            (Samples.state_with Samples.reviewer_with_history))) 0%nat =
  Some [{| role := "user"; content := "hello" |};
        {| role := "assistant"; content := "hi" |};
        {| role := "user"; content := "and this?" |};
        {| role := "assistant"; content := "continued" |}].
Proof. reflexivity. Qed.

Example reviewer_history_after_failure :
  history_at
    (snd (generate_response Samples.world_down 0%nat "and this?" true
            (Samples.state_with Samples.reviewer_with_history))) 0%nat =
  Some [{| role := "user"; content := "hello" |};
        {| role := "assistant"; content := "hi" |}].
Proof. reflexivity. Qed.

Lemma chat_only_with_nonempty_history_witness :
  heap (Samples.state_with Samples.reviewer) !! 0%nat = Some Samples.reviewer /\
  conversation_history Samples.reviewer = [] /\
  trace (snd (generate_response Samples.world_up 0%nat "look at this" true
                (Samples.state_with Samples.reviewer))) =
    [CallGenerate Samples.claude "look at this"
       (get_system_prompt CodeReviewAgent)].
Proof.
  split; [reflexivity|]. split; [reflexivity|].
  exact (proj1 (chat_only_with_nonempty_history Samples.world_up 0%nat
                  Samples.reviewer "look at this"%string
                  (Samples.state_with Samples.reviewer) eq_refl) eq_refl).
Defined.

Lemma issue_triage_without_number_is_raw_text_witness :
  heap (Samples.state_with Samples.triager) !! 0%nat = Some Samples.triager /\
  agent_class Samples.triager = IssueTriageAgent /\
  issue_number Samples.bare_context = None /\
  trace (snd (execute Samples.world_up 0%nat Samples.bare_context
                "app crashes on start"
                (Samples.state_with Samples.triager))) =
    [CallGenerate Samples.claude
       ("Triage this issue:" +:+ PyStr.nl +:+ PyStr.nl +:+
        "app crashes on start")
       (get_system_prompt IssueTriageAgent)].
Proof.
  split; [reflexivity|]. split; [reflexivity|]. split; [reflexivity|].
  exact (proj1 (proj2 (issue_triage_without_number_is_raw_text
                         Samples.world_up 0%nat Samples.triager
                         Samples.bare_context "app crashes on start"%string
                         (Samples.state_with Samples.triager)
                         eq_refl eq_refl eq_refl))).
Defined.

Lemma code_review_prompt_of_pull_request_witness :
  exists prompt,
    trace (snd (execute Samples.world_up 0%nat Samples.pr_context
                  "focus on the parser"
                  (Samples.state_with Samples.reviewer))) =
      [CallGetRepository {| token := "ghp_test" |} "o/r";
       CallGetPull {| full_name := "o/r" |} 7;
       CallGenerate Samples.claude prompt (get_system_prompt CodeReviewAgent)] /\
    PyStr.contains prompt "Fix bug" = true /\
    PyStr.contains prompt "Files changed: 3" = true /\
    PyStr.contains prompt "Additions: +10" = true /\
    PyStr.contains prompt "Deletions: -2" = true /\
    PyStr.contains prompt "No description provided" = true /\
    PyStr.contains prompt
      ("Title: Fix bug" +:+ PyStr.nl +:+
       "Description: No description provided" +:+ PyStr.nl) = true.
Proof.
  exact (code_review_prompt_of_pull_request Samples.world_up 0%nat
           Samples.reviewer Samples.pr_context "focus on the parser"%string
           (Samples.state_with Samples.reviewer) {| full_name := "o/r" |}
           eq_refl eq_refl eq_refl eq_refl eq_refl eq_refl).
Defined.

Lemma create_without_id_replaces_witness :
  Manager.create_agent Samples.cfg "code_review" None None None
    Samples.fresh_state = (inr 0%nat, Samples.after_first_create) /\
  Manager.create_agent Samples.cfg "code_review" None None None
    Samples.after_first_create = (inr 1%nat, Samples.after_second_create) /\
  Manager.get_agent "code_review" Samples.after_first_create =
    (inr (Some 0%nat), Samples.after_first_create) /\
  Manager.get_agent "code_review" Samples.after_second_create =
    (inr (Some 1%nat), Samples.after_second_create) /\
  PyDict.size (agents (manager Samples.after_second_create)) =
    PyDict.size (agents (manager Samples.after_first_create)).
Proof.
  assert (H1 : Manager.create_agent Samples.cfg "code_review" None None None
                 Samples.fresh_state = (inr 0%nat, Samples.after_first_create))
    by (vm_compute; reflexivity).
  assert (H2 : Manager.create_agent Samples.cfg "code_review" None None None
                 Samples.after_first_create =
               (inr 1%nat, Samples.after_second_create))
    by (vm_compute; reflexivity).
  destruct (create_without_id_replaces Samples.cfg "code_review"
              None None None None _ _ _ _ _ H1 H2)
    as (G1 & G2 & _ & _ & _ & G3).
  repeat split; assumption.
Defined.

Lemma failed_create_registers_nothing_witness :
  PyDict.mem "code_review" (agent_types (manager Samples.fresh_state)) = true /\
  PyStr.truthy (ANTHROPIC_API_KEY Samples.cfg_unset) = false /\
  Manager.create_agent Samples.cfg_unset "code_review" None None None
    Samples.fresh_state =
    (inl (ValueError "No API key configured for AI model"),
     Samples.fresh_state).
Proof.
  split; [reflexivity|]. split; [reflexivity|].
  exact (proj1 (proj2 (proj2 (failed_create_registers_nothing
                                Samples.cfg_unset "code_review" None None None
                                Samples.fresh_state)))
           eq_refl eq_refl eq_refl).
Defined.

Example unknown_type_is_refused :
  Manager.create_agent Samples.cfg "summary" None None None
    Samples.fresh_state =
  (inl (ValueError
          "Unknown agent type: summary. Available: ['code_review', 'issue_triage', 'documentation']"),
   Samples.fresh_state).
Proof. reflexivity. Qed.

Example summarizer_round_trip :
  let s1 := snd (Manager.register_agent_type "summary" Samples.Summarizer
                   Samples.fresh_state) in
  fst (Manager.get_available_agent_types s1) =
    inr ["code_review"; "issue_triage"; "documentation"; "summary"]%string /\
  fst (Manager.create_agent Samples.cfg "summary" None None None s1) =
    inr 0%nat /\
  agent_class <$>
    heap (snd (Manager.create_agent Samples.cfg "summary" None None None s1))
      !! 0%nat = Some Samples.Summarizer.
Proof. repeat split. Qed.

Lemma execute_missing_agent_calls_nothing_witness :
  PyDict.get "ghost" (agents (manager Samples.fresh_state)) = None /\
  Manager.execute_agent Samples.world_up "ghost" Samples.bare_context "hello"
    Samples.fresh_state =
    (inl (ValueError "Agent not found: ghost"), Samples.fresh_state).
Proof.
  split; [reflexivity|].
  exact (proj1 (execute_missing_agent_calls_nothing Samples.world_up "ghost"
                  Samples.bare_context "hello"%string Samples.fresh_state
                  eq_refl)).
Defined.

Lemma execute_route_missing_agent_witness :
  PyDict.get "ghost" (agents (manager Samples.fresh_state)) = None /\
  fst (Api.execute_agent Samples.world_up "ghost" Samples.hello_body
         Samples.fresh_state) =
    (500, Api.ErrorPayload "Agent not found: ghost").
Proof.
  split; [reflexivity|].
  exact (proj1 (execute_route_missing_agent Samples.world_up "ghost"
                  Samples.hello_body Samples.fresh_state eq_refl)).
Defined.

Example any_capitalization_of_a_provider :
  ModelFactory.create_model "AnThRoPiC" "k" None 4096 (7 # 10) =
    inr {| model_class := ClaudeModel; api_key := "k";
           model := "claude-3-sonnet-20240229"; max_tokens := 4096;
           temperature := 7 # 10 |} /\
  ModelFactory.create_model "CLAUDE" "k" (Some "claude-3-opus"%string) 1 0 =
    inr {| model_class := ClaudeModel; api_key := "k";
           model := "claude-3-opus"; max_tokens := 1; temperature := 0 |} /\
  ModelFactory.create_model "OpenAI" "" None (-5) (7 # 10) =
    inr {| model_class := OpenAIModel; api_key := "";
           model := "gpt-4"; max_tokens := -5; temperature := 7 # 10 |} /\
  ModelFactory.create_model "Gemini" "k" None 4096 (7 # 10) =
    inl (ValueError "Unsupported AI provider: gemini").
Proof. repeat split. Qed.

(** * More of the code *)

(** ** Dictionaries: deletion, key order, distinct keys *)

Module PyDictMore.

Import PyDict.

Section Facts.

Context {V : Type}.

Lemma get_in_keys (k : string) (v : V) (d : t V) :
  get k d = Some v -> In k (keys d).
Proof.
  induction d as [|[k' v'] d IH]; simpl; [discriminate|].
  destruct (String.eqb k k') eqn:E.
  - intros _. left. apply String.eqb_eq in E. congruence.
  - intros H. right. exact (IH H).
Qed.

Lemma get_none_iff (k : string) (d : t V) :
  get k d = None <-> ~ In k (keys d).
Proof.
  induction d as [|[k' v'] d IH]; simpl.
  - split; [intros _ [] | reflexivity].
  - destruct (String.eqb k k') eqn:E.
    + apply String.eqb_eq in E. split; [discriminate|].
      intros H. exfalso. apply H. left. congruence.
    + apply String.eqb_neq in E. rewrite IH. split.
      * intros H [Hk|Hk]; [congruence | exact (H Hk)].
      * intros H Hk. apply H. right. exact Hk.
Qed.

Lemma keys_set_present (k : string) (v v0 : V) (d : t V) :
  get k d = Some v0 -> keys (set k v d) = keys d.
Proof.
  unfold keys. induction d as [|[k' v'] d IH]; simpl; [discriminate|].
  destruct (String.eqb k k'); simpl; [reflexivity|].
  intros H. rewrite (IH H). reflexivity.
Qed.

Lemma keys_set_absent (k : string) (v : V) (d : t V) :
  get k d = None -> keys (set k v d) = keys d ++ [k].
Proof.
  unfold keys. induction d as [|[k' v'] d IH]; simpl; [reflexivity|].
  destruct (String.eqb k k'); simpl; [discriminate|].
  intros H. rewrite (IH H). reflexivity.
Qed.

Lemma nodup_keys_set (k : string) (v : V) (d : t V) :
  List.NoDup (keys d) -> List.NoDup (keys (set k v d)).
Proof.
  intros Hd. destruct (get k d) as [v0|] eqn:Hg.
  - rewrite (keys_set_present k v v0 d Hg). exact Hd.
  - rewrite (keys_set_absent k v d Hg).
    apply get_none_iff in Hg.
    apply List.NoDup_rev in Hd. rewrite <- (List.rev_involutive (keys d ++ [k])).
    apply List.NoDup_rev. rewrite List.rev_app_distr. simpl.
    constructor; [|exact Hd].
    intros Hin. apply Hg. apply List.in_rev. exact Hin.
Qed.

Lemma in_keys_del (k k' : string) (d : t V) :
  In k' (keys (del k d)) -> In k' (keys d).
Proof.
  unfold keys. induction d as [|[k0 v0] d IH]; simpl; [tauto|].
  destruct (String.eqb k k0); simpl; [tauto|].
  intros [H|H]; [left; exact H | right; exact (IH H)].
Qed.

Lemma nodup_keys_del (k : string) (d : t V) :
  List.NoDup (keys d) -> List.NoDup (keys (del k d)).
Proof.
  induction d as [|[k0 v0] d IH]; simpl; [trivial|].
  intros Hd. inversion Hd as [|? ? Hnot Hrest]; subst.
  destruct (String.eqb k k0); simpl; [exact Hrest|].
  constructor; [|exact (IH Hrest)].
  intros Hin. apply Hnot. exact (in_keys_del k k0 d Hin).
Qed.

Lemma get_del_eq (k : string) (d : t V) :
  List.NoDup (keys d) -> get k (del k d) = None.
Proof.
  induction d as [|[k0 v0] d IH]; simpl; [reflexivity|].
  intros Hd. inversion Hd as [|? ? Hnot Hrest]; subst.
  destruct (String.eqb k k0) eqn:E; simpl.
  - apply String.eqb_eq in E. subst k0. apply get_none_iff. exact Hnot.
  - rewrite E. exact (IH Hrest).
Qed.

Lemma get_del_ne (k k' : string) (d : t V) :
  k <> k' -> get k' (del k d) = get k' d.
Proof.
  intros Hne. induction d as [|[k0 v0] d IH]; simpl; [reflexivity|].
  destruct (String.eqb k k0) eqn:E; simpl.
  - apply String.eqb_eq in E. subst k0.
    apply not_eq_sym, String.eqb_neq in Hne. rewrite Hne. reflexivity.
  - rewrite IH. reflexivity.
Qed.

Lemma size_del (k : string) (v : V) (d : t V) :
  get k d = Some v -> S (size (del k d)) = size d.
Proof.
  unfold size. induction d as [|[k0 v0] d IH]; simpl; [discriminate|].
  destruct (String.eqb k k0); simpl; [reflexivity|].
  intros H. rewrite (IH H). reflexivity.
Qed.

Lemma size_set_absent (k : string) (v : V) (d : t V) :
  get k d = None -> size (set k v d) = S (size d).
Proof.
  unfold size. induction d as [|[k0 v0] d IH]; simpl; [reflexivity|].
  destruct (String.eqb k k0); simpl; [discriminate|].
  intros H. rewrite (IH H). reflexivity.
Qed.

End Facts.

End PyDictMore.

(** ** How [execute] is put together *)

Section ExecuteShape.

Variable world : World.

Lemma log_calls_nil (s : State) : log_calls s [] = s.
Proof. destruct s. unfold log_calls. simpl. rewrite app_nil_r. reflexivity. Qed.

Lemma log_call_log_calls (s : State) (calls : list Call) (c : Call) :
  log_call (log_calls s calls) c = log_calls s (calls ++ [c]).
Proof. unfold log_call, log_calls. simpl. rewrite <- app_assoc. reflexivity. Qed.

Lemma log_call_one (s : State) (c : Call) : log_call s c = log_calls s [c].
Proof. reflexivity. Qed.

(** [execute] on a live agent either stops on a failed look-up, having
    made repository calls only, or is one [generate_response] after the
    repository calls; the shipped classes ask for no history. *)
Lemma execute_decompose (self : loc) (a : Agent) (context : AgentContext)
    (user_input : string) (s : State) :
  heap s !! self = Some a ->
  (exists e calls,
     execute world self context user_input s = (inl e, log_calls s calls) /\
     forallb is_repository_call calls = true /\ calls <> []) \/
  (exists calls prompt use_history,
     execute world self context user_input s =
       generate_response world self prompt use_history (log_calls s calls) /\
     forallb is_repository_call calls = true /\
     (shipped (agent_class a) = true -> use_history = false)).
Proof.
  intros Hself.
  remember (execute world self context user_input s) as X eqn:HX.
  unfold execute, bind at 1, get_obj at 1 in HX. rewrite Hself in HX.
  assert (Hraw : forall prompt,
            X = generate_response world self prompt false s ->
            exists calls prompt' use_history,
              X = generate_response world self prompt' use_history
                    (log_calls s calls) /\
              forallb is_repository_call calls = true /\
              (shipped (agent_class a) = true -> use_history = false)).
  { intros prompt ->. exists [], prompt, false.
    rewrite log_calls_nil. auto. }
  destruct (agent_class a) as [| | |c].
  - unfold CodeReviewAgent_execute in HX.
    destruct (pr_number context) as [n|], (repository context) as [r|];
      try (right; exact (Hraw _ HX)).
    destruct (truthy_int (Some n) && PyStr.truthy r);
      [|right; exact (Hraw _ HX)].
    unfold bind at 1, get_obj at 1 in HX. rewrite Hself in HX.
    unfold bind at 1, get_repository in HX.
    destruct (answer_get_repository _ _ _ _) as [e|repo].
    { left. exists e, [CallGetRepository (github_client a) r].
      split; [exact HX | split; [reflexivity | discriminate]]. }
    unfold bind at 1, get_pull in HX.
    destruct (answer_get_pull _ _ _ _) as [e|pr].
    { left. exists e, [CallGetRepository (github_client a) r;
                       CallGetPull repo n].
      rewrite (log_call_one s), log_call_log_calls in HX.
      split; [exact HX | split; [reflexivity | discriminate]]. }
    right. exists [CallGetRepository (github_client a) r; CallGetPull repo n],
             (review_prompt pr user_input), false.
    rewrite (log_call_one s), log_call_log_calls in HX.
    split; [exact HX | split; reflexivity].
  - unfold IssueTriageAgent_execute in HX.
    destruct (issue_number context) as [n|], (repository context) as [r|];
      try (right; exact (Hraw _ HX)).
    destruct (truthy_int (Some n) && PyStr.truthy r);
      [|right; exact (Hraw _ HX)].
    unfold bind at 1, get_obj at 1 in HX. rewrite Hself in HX.
    unfold bind at 1, get_repository in HX.
    destruct (answer_get_repository _ _ _ _) as [e|repo].
    { left. exists e, [CallGetRepository (github_client a) r].
      split; [exact HX | split; [reflexivity | discriminate]]. }
    unfold bind at 1, get_issue in HX.
    destruct (answer_get_issue _ _ _ _) as [e|issue].
    { left. exists e, [CallGetRepository (github_client a) r;
                       CallGetIssue repo n].
      rewrite (log_call_one s), log_call_log_calls in HX.
      split; [exact HX | split; [reflexivity | discriminate]]. }
    right. exists [CallGetRepository (github_client a) r; CallGetIssue repo n],
             (triage_prompt issue), false.
    rewrite (log_call_one s), log_call_log_calls in HX.
    split; [exact HX | split; reflexivity].
  - right. exact (Hraw _ HX).
  - right. exists [], (custom_prompt c context user_input),
             (custom_use_history c).
    rewrite log_calls_nil. split; [exact HX|]. split; [reflexivity|].
    discriminate.
Qed.

(** One [generate_response], whole: the manager stays, one model call is
    logged, and the call is a [generate] when no history is asked for. *)
Lemma generate_response_shape (self : loc) (a : Agent) (prompt : string)
    (use_history : bool) (s : State) :
  heap s !! self = Some a ->
  exists call,
    manager (snd (generate_response world self prompt use_history s)) =
      manager s /\
    trace (snd (generate_response world self prompt use_history s)) =
      trace s ++ [call] /\
    is_model_call call = true /\
    (use_history = false -> is_chat_call call = false).
Proof.
  intros Hself.
  destruct (use_history && PyStr.truthy_list (conversation_history a)) eqn:Hc.
  - rewrite (generate_response_chat world self a prompt use_history s Hself Hc).
    eexists. cbv zeta.
    destruct (answer_chat _ _ _ _); simpl;
      (split; [reflexivity|]; split; [reflexivity|]; split; [reflexivity|];
       intros ->; discriminate).
  - rewrite (generate_response_generate world self a prompt use_history s Hself Hc).
    eexists. cbv zeta.
    destruct (answer_generate _ _ _ _ _); simpl; auto.
Qed.

Lemma execute_manager (self : loc) (a : Agent) (context : AgentContext)
    (user_input : string) (s : State) :
  heap s !! self = Some a ->
  manager (snd (execute world self context user_input s)) = manager s.
Proof.
  intros Hself.
  destruct (execute_decompose self a context user_input s Hself)
    as [(e & calls & -> & _) | (calls & prompt & uh & -> & _)].
  - reflexivity.
  - destruct (generate_response_shape self a prompt uh (log_calls s calls) Hself)
      as (call & Hm & _). exact Hm.
Qed.

Lemma execute_unallocated (self : loc) (context : AgentContext)
    (user_input : string) (s : State) :
  heap s !! self = None ->
  execute world self context user_input s = (inl (NoSuchObject self), s).
Proof.
  intros Hnone. unfold execute, bind at 1, get_obj at 1. rewrite Hnone.
  reflexivity.
Qed.

End ExecuteShape.

(** ** The history after a model call *)

Section HistoryClaim.

Variable world : World.

(** C1. For the agent at [self] with history [h].  [generate_response]
    makes one model call: [generate] on the prompt, or, when history is
    asked for and [h] is not empty, [chat] on [h] and the prompt.  If the
    model answers that call with a reply, [generate_response] returns the
    reply and the history is [h], then the user message with the prompt,
    then the assistant message with the reply, and nothing else; if the
    model raises, [generate_response] raises the same and the history is
    [h].  [execute] first makes its repository look-ups; if one raises, the
    model is not reached and the history is [h]; otherwise the model is
    called once, with some prompt, and the same holds of that call: a
    reply is returned and the history is [h], the user message with that
    prompt, the assistant message with the reply; a raised call leaves
    [h]. *)
Theorem history_after_model_call (self : loc) (a : Agent) (s : State) :
  heap s !! self = Some a ->
  (forall prompt use_history,
     use_history && PyStr.truthy_list (conversation_history a) = false ->
     trace (snd (generate_response world self prompt use_history s)) =
       trace s ++ [CallGenerate (ai_model a) prompt
                     (get_system_prompt (agent_class a))] /\
     match answer_generate world (trace s) (ai_model a) prompt
             (get_system_prompt (agent_class a)) with
     | inr response =>
         fst (generate_response world self prompt use_history s) =
           inr response /\
         history_at (snd (generate_response world self prompt use_history s))
           self =
           Some (conversation_history a ++
                   [{| role := "user"; content := prompt |};
                    {| role := "assistant"; content := response |}])
     | inl e =>
         fst (generate_response world self prompt use_history s) = inl e /\
         history_at (snd (generate_response world self prompt use_history s))
           self = Some (conversation_history a)
     end) /\
  (forall prompt use_history,
     use_history && PyStr.truthy_list (conversation_history a) = true ->
     trace (snd (generate_response world self prompt use_history s)) =
       trace s ++ [CallChat (ai_model a)
                     (conversation_history a ++
                        [{| role := "user"; content := prompt |}])] /\
     match answer_chat world (trace s) (ai_model a)
             (conversation_history a ++
                [{| role := "user"; content := prompt |}]) with
     | inr response =>
         fst (generate_response world self prompt use_history s) =
           inr response /\
         history_at (snd (generate_response world self prompt use_history s))
           self =
           Some (conversation_history a ++
                   [{| role := "user"; content := prompt |};
                    {| role := "assistant"; content := response |}])
     | inl e =>
         fst (generate_response world self prompt use_history s) = inl e /\
         history_at (snd (generate_response world self prompt use_history s))
           self = Some (conversation_history a)
     end) /\
  (forall context user_input,
     exists lookups,
       forallb is_repository_call lookups = true /\
       ((exists e,
           execute world self context user_input s =
             (inl e, log_calls s lookups) /\
           history_at (snd (execute world self context user_input s)) self =
             Some (conversation_history a)) \/
        (exists prompt use_history,
           if use_history && PyStr.truthy_list (conversation_history a)
           then
             trace (snd (execute world self context user_input s)) =
               trace s ++ lookups ++
                 [CallChat (ai_model a)
                    (conversation_history a ++
                       [{| role := "user"; content := prompt |}])] /\
             match answer_chat world (trace s ++ lookups) (ai_model a)
                     (conversation_history a ++
                        [{| role := "user"; content := prompt |}]) with
             | inr response =>
                 fst (execute world self context user_input s) =
                   inr response /\
                 history_at (snd (execute world self context user_input s))
                   self =
                   Some (conversation_history a ++
                           [{| role := "user"; content := prompt |};
                            {| role := "assistant"; content := response |}])
             | inl e =>
                 fst (execute world self context user_input s) = inl e /\
                 history_at (snd (execute world self context user_input s))
                   self = Some (conversation_history a)
             end
           else
             trace (snd (execute world self context user_input s)) =
               trace s ++ lookups ++
                 [CallGenerate (ai_model a) prompt
                    (get_system_prompt (agent_class a))] /\
             match answer_generate world (trace s ++ lookups) (ai_model a)
                     prompt (get_system_prompt (agent_class a)) with
             | inr response =>
                 fst (execute world self context user_input s) =
                   inr response /\
                 history_at (snd (execute world self context user_input s))
                   self =
                   Some (conversation_history a ++
                           [{| role := "user"; content := prompt |};
                            {| role := "assistant"; content := response |}])
             | inl e =>
                 fst (execute world self context user_input s) = inl e /\
                 history_at (snd (execute world self context user_input s))
                   self = Some (conversation_history a)
             end))).
Proof.
  intros Hself.
  assert (Hgen : forall prompt use_history s0,
            heap s0 = heap s ->
            use_history && PyStr.truthy_list (conversation_history a) = false ->
            trace (snd (generate_response world self prompt use_history s0)) =
              trace s0 ++ [CallGenerate (ai_model a) prompt
                             (get_system_prompt (agent_class a))] /\
            match answer_generate world (trace s0) (ai_model a) prompt
                    (get_system_prompt (agent_class a)) with
            | inr response =>
                fst (generate_response world self prompt use_history s0) =
                  inr response /\
                history_at
                  (snd (generate_response world self prompt use_history s0))
                  self =
                  Some (conversation_history a ++
                          [{| role := "user"; content := prompt |};
                           {| role := "assistant"; content := response |}])
            | inl e =>
                fst (generate_response world self prompt use_history s0) =
                  inl e /\
                history_at
                  (snd (generate_response world self prompt use_history s0))
                  self = Some (conversation_history a)
            end).
  { intros prompt use_history s0 Hheap Hc.
    assert (Hself0 : heap s0 !! self = Some a) by (rewrite Hheap; exact Hself).
    rewrite (generate_response_generate world self a prompt use_history s0
               Hself0 Hc).
    cbv zeta. unfold history_at.
    destruct (answer_generate _ _ _ _ _) as [e|response]; simpl.
    - rewrite Hself0. auto.
    - rewrite lookup_insert_eq. auto. }
  assert (Hchat : forall prompt use_history s0,
            heap s0 = heap s ->
            use_history && PyStr.truthy_list (conversation_history a) = true ->
            trace (snd (generate_response world self prompt use_history s0)) =
              trace s0 ++ [CallChat (ai_model a)
                             (conversation_history a ++
                                [{| role := "user"; content := prompt |}])] /\
            match answer_chat world (trace s0) (ai_model a)
                    (conversation_history a ++
                       [{| role := "user"; content := prompt |}]) with
            | inr response =>
                fst (generate_response world self prompt use_history s0) =
                  inr response /\
                history_at
                  (snd (generate_response world self prompt use_history s0))
                  self =
                  Some (conversation_history a ++
                          [{| role := "user"; content := prompt |};
                           {| role := "assistant"; content := response |}])
            | inl e =>
                fst (generate_response world self prompt use_history s0) =
                  inl e /\
                history_at
                  (snd (generate_response world self prompt use_history s0))
                  self = Some (conversation_history a)
            end).
  { intros prompt use_history s0 Hheap Hc.
    assert (Hself0 : heap s0 !! self = Some a) by (rewrite Hheap; exact Hself).
    rewrite (generate_response_chat world self a prompt use_history s0
               Hself0 Hc).
    cbv zeta. unfold history_at.
    destruct (answer_chat _ _ _ _) as [e|response]; simpl.
    - rewrite Hself0. auto.
    - rewrite lookup_insert_eq. auto. }
  split; [intros prompt use_history; apply Hgen; reflexivity|].
  split; [intros prompt use_history; apply Hchat; reflexivity|].
  intros context user_input.
  destruct (execute_decompose world self a context user_input s Hself)
    as [(e & calls & Heq & Hrepo & _)
       | (calls & prompt & use_history & Heq & Hrepo & _)].
  - exists calls. split; [exact Hrepo|]. left. exists e.
    split; [exact Heq|]. rewrite Heq. unfold history_at. simpl.
    rewrite Hself. reflexivity.
  - exists calls. split; [exact Hrepo|]. right. exists prompt, use_history.
    rewrite Heq.
    destruct (use_history && PyStr.truthy_list (conversation_history a))
      eqn:Hc.
    + destruct (Hchat prompt use_history (log_calls s calls) eq_refl Hc)
        as [Htr Hans].
      split; [rewrite Htr; simpl; rewrite <- app_assoc; reflexivity|].
      exact Hans.
    + destruct (Hgen prompt use_history (log_calls s calls) eq_refl Hc)
        as [Htr Hans].
      split; [rewrite Htr; simpl; rewrite <- app_assoc; reflexivity|].
      exact Hans.
Qed.

End HistoryClaim.

(** ** The manager: removal, other entries, the type table *)

Section ManagerMore.

Variable config : Config.
Variable world : World.

Lemma remove_agent_present (agent_id : string) (l : loc) (s : State) :
  PyDict.get agent_id (agents (manager s)) = Some l ->
  Manager.remove_agent agent_id s =
    (inr true,
     with_manager s {| agents := PyDict.del agent_id (agents (manager s));
                       agent_types := agent_types (manager s) |}).
Proof.
  intros Hget. unfold Manager.remove_agent, PyDict.mem.
  unfold bind at 1, get_manager. rewrite Hget. reflexivity.
Qed.

Lemma remove_agent_absent (agent_id : string) (s : State) :
  PyDict.get agent_id (agents (manager s)) = None ->
  Manager.remove_agent agent_id s = (inr false, s).
Proof.
  intros Hget. unfold Manager.remove_agent, PyDict.mem.
  unfold bind at 1, get_manager. rewrite Hget. reflexivity.
Qed.

Lemma new_manager_wf (h : gmap loc Agent) (t : list Call) :
  registry_wf {| manager := Manager.AgentManager_init; heap := h; trace := t |}.
Proof.
  unfold registry_wf. simpl. split; [apply List.NoDup_nil|]. split.
  - repeat (apply List.NoDup_cons; [simpl; intros H;
      repeat (destruct H as [H|H]; [discriminate|]); exact H|]).
    apply List.NoDup_nil.
  - intros k l H. discriminate.
Qed.

Lemma create_agent_wf (t : string) (id : option string) (m : option AIModel)
    (g : option GitHubClient) (s : State) :
  registry_wf s -> registry_wf (snd (Manager.create_agent config t id m g s)).
Proof.
  intros (Hk & Ht & Hl).
  destruct (PyDict.get t (agent_types (manager s))) as [cls|] eqn:Hcls.
  - rewrite (create_agent_run config t id m g s cls Hcls).
    destruct (instantiate config cls m g) as [e|a]; [done|].
    split; [|split]; simpl.
    + apply PyDictMore.nodup_keys_set, Hk.
    + exact Ht.
    + intros k l. destruct (decide (PyStr.or_else id t = k)) as [->|Hne].
      * rewrite PyDictFacts.get_set_eq. intros [= <-].
        rewrite lookup_insert_eq. eauto.
      * rewrite (PyDictFacts.get_set_ne _ _ _ _ Hne). intros H.
        apply Hl in H. rewrite lookup_insert_is_Some. destruct H; eauto.
        destruct (decide (fresh (dom (heap s)) = l)); eauto.
  - rewrite (create_agent_unknown config t id m g s Hcls). done.
Qed.

Lemma remove_agent_wf (id : string) (s : State) :
  registry_wf s -> registry_wf (snd (Manager.remove_agent id s)).
Proof.
  intros (Hk & Ht & Hl).
  destruct (PyDict.get id (agents (manager s))) as [l|] eqn:Hget.
  - rewrite (remove_agent_present id l s Hget). split; [|split]; simpl.
    + apply PyDictMore.nodup_keys_del, Hk.
    + exact Ht.
    + intros k l'. destruct (decide (id = k)) as [->|Hne].
      * rewrite (PyDictMore.get_del_eq k _ Hk). discriminate.
      * rewrite (PyDictMore.get_del_ne _ _ _ Hne). apply Hl.
  - rewrite (remove_agent_absent id s Hget). done.
Qed.

Lemma register_agent_type_wf (n : string) (C : AgentClass) (s : State) :
  registry_wf s -> registry_wf (snd (Manager.register_agent_type n C s)).
Proof.
  intros (Hk & Ht & Hl). split; [|split]; simpl.
  - exact Hk.
  - apply PyDictMore.nodup_keys_set, Ht.
  - exact Hl.
Qed.

Lemma execute_wf (self : loc) (context : AgentContext) (user_input : string)
    (s : State) :
  registry_wf s -> registry_wf (snd (execute world self context user_input s)).
Proof.
  intros Hwf. destruct (heap s !! self) as [a|] eqn:Hself.
  - pose proof (execute_manager world self a context user_input s Hself) as Hm.
    pose proof (execute_heap world self a context user_input s Hself) as Hh.
    destruct (execute world self context user_input s) as [r s']. simpl in *.
    destruct Hwf as (Hk & Ht & Hl). unfold registry_wf. rewrite Hm.
    split; [exact Hk|]. split; [exact Ht|].
    intros k l Hget. apply Hl in Hget.
    destruct r as [e|r].
    + rewrite Hh. exact Hget.
    + destruct Hh as [p ->]. rewrite lookup_insert_is_Some.
      destruct (decide (self = l)); eauto.
  - rewrite (execute_unallocated world self context user_input s Hself).
    exact Hwf.
Qed.

(** X1. A state is well formed when the registry's ids are distinct, the
    type names are distinct, and every registered id is bound to a live
    agent object.  A new manager is well formed, and [create_agent],
    [remove_agent], [register_agent_type] and [execute_agent] keep a state
    well formed, whether they return or raise. *)
Theorem registry_stays_well_formed (s : State) :
  registry_wf s ->
  (forall t id m g,
     registry_wf (snd (Manager.create_agent config t id m g s))) /\
  (forall id, registry_wf (snd (Manager.remove_agent id s))) /\
  (forall n C, registry_wf (snd (Manager.register_agent_type n C s))) /\
  (forall id context user_input,
     registry_wf (snd (Manager.execute_agent world id context user_input s))) /\
  registry_wf {| manager := Manager.AgentManager_init; heap := heap s;
                 trace := trace s |}.
Proof.
  intros Hwf. split; [|split; [|split; [|split]]].
  - intros. apply create_agent_wf, Hwf.
  - intros. apply remove_agent_wf, Hwf.
  - intros. apply register_agent_type_wf, Hwf.
  - intros id context user_input.
    destruct (PyDict.get id (agents (manager s))) as [l|] eqn:Hget.
    + unfold Manager.execute_agent, Manager.get_agent.
      unfold bind at 1. unfold bind at 1. unfold get_manager, ret.
      cbv beta iota. rewrite Hget. apply execute_wf, Hwf.
    + rewrite (execute_agent_missing world id context user_input s Hget).
      exact Hwf.
  - apply new_manager_wf.
Qed.

(** X2. [remove_agent] returns [True] exactly when the id is registered.
    Afterwards the id is not registered, a second [remove_agent] on it
    returns [False] and changes nothing, every other id is bound as
    before, the registry is one entry smaller if the id was there, and no
    agent object and no call is touched. *)
Theorem remove_agent_once (id : string) (s : State) :
  List.NoDup (PyDict.keys (agents (manager s))) ->
  fst (Manager.remove_agent id s) =
    inr (PyDict.mem id (agents (manager s))) /\
  Manager.get_agent id (snd (Manager.remove_agent id s)) =
    (inr None, snd (Manager.remove_agent id s)) /\
  Manager.remove_agent id (snd (Manager.remove_agent id s)) =
    (inr false, snd (Manager.remove_agent id s)) /\
  (forall id', id' <> id ->
     PyDict.get id' (agents (manager (snd (Manager.remove_agent id s)))) =
     PyDict.get id' (agents (manager s))) /\
  (PyDict.size (agents (manager (snd (Manager.remove_agent id s)))) +
     (if PyDict.mem id (agents (manager s)) then 1 else 0))%nat =
    PyDict.size (agents (manager s)) /\
  heap (snd (Manager.remove_agent id s)) = heap s /\
  trace (snd (Manager.remove_agent id s)) = trace s.
Proof.
  intros Hk. unfold PyDict.mem.
  destruct (PyDict.get id (agents (manager s))) as [l|] eqn:Hget.
  - rewrite (remove_agent_present id l s Hget). simpl.
    assert (Hgone : PyDict.get id (PyDict.del id (agents (manager s))) = None)
      by (apply PyDictMore.get_del_eq, Hk).
    split; [reflexivity|]. split; [|split; [|split; [|split; [|split]]]].
    + unfold Manager.get_agent, bind, get_manager, ret. simpl.
      rewrite Hgone. reflexivity.
    + apply remove_agent_absent. exact Hgone.
    + intros id' Hne. apply PyDictMore.get_del_ne. congruence.
    + rewrite <- (PyDictMore.size_del id l _ Hget). lia.
    + reflexivity.
    + reflexivity.
  - rewrite (remove_agent_absent id s Hget). simpl.
    split; [reflexivity|]. split; [|split; [|split; [|split; [|split]]]];
      try reflexivity.
    + unfold Manager.get_agent, bind, get_manager, ret.
      cbv beta iota. rewrite Hget. reflexivity.
    + apply remove_agent_absent. exact Hget.
    + lia.
Qed.

(** X3. A [create_agent] that returns has stored the new agent under the
    given id, or under the type name when the id is [None] or empty.  The
    agent is a new object with an empty history and the name of its class;
    every other id is bound as before, every object that existed is as it
    was, the type table is as it was, and no call has left the process. *)
Theorem create_agent_leaves_the_rest (t : string) (id : option string)
    (m : option AIModel) (g : option GitHubClient) (s s' : State) (l : loc) :
  Manager.create_agent config t id m g s = (inr l, s') ->
  PyDict.get (match id with
              | None | Some EmptyString => t
              | Some k => k
              end) (agents (manager s')) = Some l /\
  (forall id', id' <> match id with
                      | None | Some EmptyString => t
                      | Some k => k
                      end ->
     PyDict.get id' (agents (manager s')) =
     PyDict.get id' (agents (manager s))) /\
  heap s !! l = None /\
  (exists cls a,
     PyDict.get t (agent_types (manager s)) = Some cls /\
     heap s' !! l = Some a /\ agent_class a = cls /\
     name a = init_name cls /\ description a = init_description cls /\
     conversation_history a = []) /\
  (forall l', l' <> l -> heap s' !! l' = heap s !! l') /\
  agent_types (manager s') = agent_types (manager s) /\
  trace s' = trace s.
Proof.
  intros Hrun.
  apply create_agent_ok in Hrun as (cls & a & Hcls & Ha & Hl & ->).
  assert (Hkey : PyStr.or_else id t =
                 match id with None | Some EmptyString => t | Some k => k end)
    by (destruct id as [[|? ?]|]; reflexivity).
  rewrite <- Hkey. simpl.
  split; [apply PyDictFacts.get_set_eq|].
  split; [intros id' Hne; apply PyDictFacts.get_set_ne; congruence|].
  split; [rewrite Hl; apply fresh_not_allocated|].
  split.
  - exists cls, a. split; [exact Hcls|]. split; [apply lookup_insert_eq|].
    unfold instantiate, Agent_init, bindR in Ha.
    destruct (match m with Some _ => _ | None => _ end); [discriminate|].
    destruct (match g with Some _ => _ | None => _ end); [discriminate|].
    inversion Ha. auto.
  - split; [|auto]. intros l' Hne. apply lookup_insert_ne. congruence.
Qed.

(** X4. [register_agent_type n C] binds [n] to [C] and nothing else: any
    other type name keeps its class; the list of available types is
    unchanged when [n] was there (the old class is replaced in place) and
    has [n] added at the end when it was not; the registry, the agents
    created earlier and the trace are as they were. *)
Theorem register_agent_type_overwrites (n : string) (C : AgentClass)
    (s : State) :
  PyDict.get n (agent_types (manager (snd (Manager.register_agent_type n C s))))
    = Some C /\
  (forall n', n' <> n ->
     PyDict.get n'
       (agent_types (manager (snd (Manager.register_agent_type n C s)))) =
     PyDict.get n' (agent_types (manager s))) /\
  fst (Manager.get_available_agent_types
         (snd (Manager.register_agent_type n C s))) =
    inr (if PyDict.mem n (agent_types (manager s))
         then PyDict.keys (agent_types (manager s))
         else PyDict.keys (agent_types (manager s)) ++ [n]) /\
  agents (manager (snd (Manager.register_agent_type n C s))) =
    agents (manager s) /\
  heap (snd (Manager.register_agent_type n C s)) = heap s /\
  trace (snd (Manager.register_agent_type n C s)) = trace s.
Proof.
  simpl. split; [apply PyDictFacts.get_set_eq|].
  split; [intros n' Hne; apply PyDictFacts.get_set_ne; congruence|].
  split; [|auto]. unfold PyDict.mem.
  destruct (PyDict.get n (agent_types (manager s))) as [c|] eqn:Hget.
  - rewrite (PyDictMore.keys_set_present n C c _ Hget). reflexivity.
  - rewrite (PyDictMore.keys_set_absent n C _ Hget). reflexivity.
Qed.

End ManagerMore.

(** ** Agents: what [execute] sends, and to whom *)

Section AgentMore.

Variable world : World.

(** X5. An agent of a shipped class never replays its history: whatever
    its history and context, [execute] makes repository calls (none, one or
    two) and then at most one model call, and that call is [generate] with
    the agent's model and the system prompt of its class, never [chat]. *)
Theorem shipped_agents_never_chat (self : loc) (a : Agent)
    (context : AgentContext) (user_input : string) (s : State) :
  heap s !! self = Some a ->
  shipped (agent_class a) = true ->
  exists repository_calls model_calls,
    trace (snd (execute world self context user_input s)) =
      trace s ++ repository_calls ++ model_calls /\
    forallb is_repository_call repository_calls = true /\
    (length repository_calls <= 2)%nat /\
    (model_calls = [] \/
     exists prompt,
       model_calls = [CallGenerate (ai_model a) prompt
                        (get_system_prompt (agent_class a))]).
Proof.
  intros Hself Hshipped.
  remember (execute world self context user_input s) as X eqn:HX.
  unfold execute, bind at 1, get_obj at 1 in HX. rewrite Hself in HX.
  assert (Hgen : forall calls prompt,
            forallb is_repository_call calls = true ->
            (length calls <= 2)%nat ->
            X = generate_response world self prompt false (log_calls s calls) ->
            exists repository_calls model_calls,
              trace (snd X) = trace s ++ repository_calls ++ model_calls /\
              forallb is_repository_call repository_calls = true /\
              (length repository_calls <= 2)%nat /\
              (model_calls = [] \/
               exists prompt,
                 model_calls = [CallGenerate (ai_model a) prompt
                                  (get_system_prompt (agent_class a))])).
  { intros calls prompt Hcalls Hlen ->.
    rewrite (generate_response_generate world self a prompt false
               (log_calls s calls) Hself) by reflexivity.
    exists calls, [CallGenerate (ai_model a) prompt
                     (get_system_prompt (agent_class a))].
    split; [|split; [exact Hcalls|split; [exact Hlen|right; eauto]]].
    cbv zeta. destruct (answer_generate _ _ _ _ _); simpl;
      rewrite <- app_assoc; reflexivity. }
  assert (Hfail : forall calls e,
            forallb is_repository_call calls = true ->
            (length calls <= 2)%nat ->
            X = (inl e, log_calls s calls) ->
            exists repository_calls model_calls,
              trace (snd X) = trace s ++ repository_calls ++ model_calls /\
              forallb is_repository_call repository_calls = true /\
              (length repository_calls <= 2)%nat /\
              (model_calls = [] \/
               exists prompt,
                 model_calls = [CallGenerate (ai_model a) prompt
                                  (get_system_prompt (agent_class a))])).
  { intros calls e Hcalls Hlen ->. exists calls, [].
    rewrite app_nil_r. auto. }
  assert (Hraw : forall prompt,
            X = generate_response world self prompt false s ->
            exists repository_calls model_calls,
              trace (snd X) = trace s ++ repository_calls ++ model_calls /\
              forallb is_repository_call repository_calls = true /\
              (length repository_calls <= 2)%nat /\
              (model_calls = [] \/
               exists prompt,
                 model_calls = [CallGenerate (ai_model a) prompt
                                  (get_system_prompt (agent_class a))])).
  { intros prompt H. apply (Hgen [] prompt); [reflexivity | simpl; lia |].
    rewrite log_calls_nil. exact H. }
  destruct (agent_class a) as [| | |c]; [| | |discriminate].
  - unfold CodeReviewAgent_execute in HX.
    destruct (pr_number context) as [n|], (repository context) as [r|];
      try exact (Hraw _ HX).
    destruct (truthy_int (Some n) && PyStr.truthy r); [|exact (Hraw _ HX)].
    unfold bind at 1, get_obj at 1 in HX. rewrite Hself in HX.
    unfold bind at 1, get_repository in HX.
    destruct (answer_get_repository _ _ _ _) as [e|repo].
    { apply (Hfail [CallGetRepository (github_client a) r] e);
        [reflexivity | simpl; lia | exact HX]. }
    unfold bind at 1, get_pull in HX.
    rewrite (log_call_one s), log_call_log_calls in HX.
    destruct (answer_get_pull _ _ _ _) as [e|pr].
    { apply (Hfail [CallGetRepository (github_client a) r; CallGetPull repo n] e);
        [reflexivity | simpl; lia | exact HX]. }
    apply (Hgen [CallGetRepository (github_client a) r; CallGetPull repo n]
             (review_prompt pr user_input));
      [reflexivity | simpl; lia | exact HX].
  - unfold IssueTriageAgent_execute in HX.
    destruct (issue_number context) as [n|], (repository context) as [r|];
      try exact (Hraw _ HX).
    destruct (truthy_int (Some n) && PyStr.truthy r); [|exact (Hraw _ HX)].
    unfold bind at 1, get_obj at 1 in HX. rewrite Hself in HX.
    unfold bind at 1, get_repository in HX.
    destruct (answer_get_repository _ _ _ _) as [e|repo].
    { apply (Hfail [CallGetRepository (github_client a) r] e);
        [reflexivity | simpl; lia | exact HX]. }
    unfold bind at 1, get_issue in HX.
    rewrite (log_call_one s), log_call_log_calls in HX.
    destruct (answer_get_issue _ _ _ _) as [e|issue].
    { apply (Hfail [CallGetRepository (github_client a) r; CallGetIssue repo n] e);
        [reflexivity | simpl; lia | exact HX]. }
    apply (Hgen [CallGetRepository (github_client a) r; CallGetIssue repo n]
             (triage_prompt issue));
      [reflexivity | simpl; lia | exact HX].
  - exact (Hraw _ HX).
Qed.

Lemma raw_path_trace (self : loc) (a : Agent) (prompt : string) (s : State) :
  heap s !! self = Some a ->
  trace (snd (generate_response world self prompt false s)) =
    trace s ++ [CallGenerate (ai_model a) prompt
                  (get_system_prompt (agent_class a))].
Proof.
  intros Hself.
  rewrite (generate_response_generate world self a prompt false s Hself)
    by reflexivity.
  cbv zeta. destruct (answer_generate _ _ _ _ _); reflexivity.
Qed.

(** X6. A Documentation Agent never looks at its context: whatever the
    repository, issue or pull request given, [execute] makes one call,
    [generate] on "Generate documentation for:", two newlines and the
    input, and no repository call. *)
Theorem documentation_ignores_context (self : loc) (a : Agent)
    (context : AgentContext) (user_input : string) (s : State) :
  heap s !! self = Some a ->
  agent_class a = DocumentationAgent ->
  execute world self context user_input s =
    generate_response world self
      ("Generate documentation for:" +:+ PyStr.nl +:+ PyStr.nl +:+ user_input)
      false s /\
  trace (snd (execute world self context user_input s)) =
    trace s ++
      [CallGenerate (ai_model a)
         ("Generate documentation for:" +:+ PyStr.nl +:+ PyStr.nl +:+
          user_input)
         (get_system_prompt DocumentationAgent)].
Proof.
  intros Hself Hclass.
  assert (Hexec : execute world self context user_input s =
            generate_response world self
              ("Generate documentation for:" +:+ PyStr.nl +:+ PyStr.nl +:+
               user_input) false s).
  { unfold execute, bind at 1, get_obj at 1. rewrite Hself, Hclass.
    reflexivity. }
  split; [exact Hexec|].
  rewrite Hexec, (raw_path_trace self a _ s Hself), Hclass. reflexivity.
Qed.

(** X7. A Code Review Agent takes the raw-code path whenever the pull
    request number or the repository is falsy: [None], the number 0, or
    the empty repository name.  It then makes one call, [generate] on
    "Review this code:", two newlines and the input, and no repository
    call. *)
Theorem code_review_without_pull_request (self : loc) (a : Agent)
    (context : AgentContext) (user_input : string) (s : State) :
  heap s !! self = Some a ->
  agent_class a = CodeReviewAgent ->
  truthy_int (pr_number context) && PyStr.truthy_opt (repository context)
    = false ->
  execute world self context user_input s =
    generate_response world self
      ("Review this code:" +:+ PyStr.nl +:+ PyStr.nl +:+ user_input) false s /\
  trace (snd (execute world self context user_input s)) =
    trace s ++
      [CallGenerate (ai_model a)
         ("Review this code:" +:+ PyStr.nl +:+ PyStr.nl +:+ user_input)
         (get_system_prompt CodeReviewAgent)].
Proof.
  intros Hself Hclass Hfalsy.
  assert (Hexec : execute world self context user_input s =
            generate_response world self
              ("Review this code:" +:+ PyStr.nl +:+ PyStr.nl +:+ user_input)
              false s).
  { unfold execute, bind at 1, get_obj at 1. rewrite Hself, Hclass.
    unfold CodeReviewAgent_execute.
    destruct (pr_number context) as [n|], (repository context) as [r|];
      try reflexivity.
    simpl in Hfalsy. unfold truthy_int. rewrite Hfalsy. reflexivity. }
  split; [exact Hexec|].
  rewrite Hexec, (raw_path_trace self a _ s Hself), Hclass. reflexivity.
Qed.

(** X8. An Issue Triage Agent takes the raw-text path whenever the issue
    number or the repository is falsy: [None], the number 0, or the empty
    repository name. *)
Theorem issue_triage_without_issue (self : loc) (a : Agent)
    (context : AgentContext) (user_input : string) (s : State) :
  heap s !! self = Some a ->
  agent_class a = IssueTriageAgent ->
  truthy_int (issue_number context) && PyStr.truthy_opt (repository context)
    = false ->
  execute world self context user_input s =
    generate_response world self
      ("Triage this issue:" +:+ PyStr.nl +:+ PyStr.nl +:+ user_input) false s /\
  trace (snd (execute world self context user_input s)) =
    trace s ++
      [CallGenerate (ai_model a)
         ("Triage this issue:" +:+ PyStr.nl +:+ PyStr.nl +:+ user_input)
         (get_system_prompt IssueTriageAgent)].
Proof.
  intros Hself Hclass Hfalsy.
  assert (Hexec : execute world self context user_input s =
            generate_response world self
              ("Triage this issue:" +:+ PyStr.nl +:+ PyStr.nl +:+ user_input)
              false s).
  { unfold execute, bind at 1, get_obj at 1. rewrite Hself, Hclass.
    unfold IssueTriageAgent_execute.
    destruct (issue_number context) as [n|], (repository context) as [r|];
      try reflexivity.
    simpl in Hfalsy. unfold truthy_int. rewrite Hfalsy. reflexivity. }
  split; [exact Hexec|].
  rewrite Hexec, (raw_path_trace self a _ s Hself), Hclass. reflexivity.
Qed.

(** X9. A Code Review Agent given a pull request number and a repository
    looks the repository up, then the pull request, then calls the model.
    A look-up that fails ends the run with that exception: the later
    look-up and the model are not called, and nothing but the trace has
    changed. *)
Theorem code_review_lookups_then_model (self : loc) (a : Agent)
    (context : AgentContext) (user_input : string) (s : State)
    (n : Z) (r : string) :
  heap s !! self = Some a ->
  agent_class a = CodeReviewAgent ->
  pr_number context = Some n -> n <> 0 ->
  repository context = Some r -> PyStr.truthy r = true ->
  execute world self context user_input s =
    match answer_get_repository world (trace s) (github_client a) r with
    | inl e => (inl e, log_calls s [CallGetRepository (github_client a) r])
    | inr repo =>
        match answer_get_pull world
                (trace s ++ [CallGetRepository (github_client a) r]) repo n with
        | inl e =>
            (inl e, log_calls s [CallGetRepository (github_client a) r;
                                 CallGetPull repo n])
        | inr pr =>
            generate_response world self (review_prompt pr user_input) false
              (log_calls s [CallGetRepository (github_client a) r;
                            CallGetPull repo n])
        end
    end.
Proof.
  intros Hself Hclass Hn Hn0 Hr Hr0.
  unfold execute, bind at 1, get_obj at 1. rewrite Hself, Hclass.
  unfold CodeReviewAgent_execute. rewrite Hn, Hr.
  unfold truthy_int. apply Z.eqb_neq in Hn0. rewrite Hn0, Hr0.
  cbn [negb andb].
  unfold bind at 1, get_obj at 1. rewrite Hself.
  unfold bind at 1, get_repository.
  destruct (answer_get_repository _ _ _ _) as [e|repo]; [reflexivity|].
  unfold bind at 1, get_pull. rewrite trace_log_call.
  rewrite (log_call_one s), log_call_log_calls.
  destruct (answer_get_pull _ _ _ _) as [e|pr]; reflexivity.
Qed.

(** X10. An Issue Triage Agent given an issue number and a repository
    looks the repository up, then the issue, then calls the model on a
    prompt made from the issue alone; a failed look-up ends the run with
    its exception.  The user's input plays no part: two runs that differ
    only in the input do the same and end in the same state. *)
Theorem issue_triage_ignores_input_with_issue (self : loc) (a : Agent)
    (context : AgentContext) (user_input other_input : string) (s : State)
    (n : Z) (r : string) :
  heap s !! self = Some a ->
  agent_class a = IssueTriageAgent ->
  issue_number context = Some n -> n <> 0 ->
  repository context = Some r -> PyStr.truthy r = true ->
  execute world self context user_input s =
    match answer_get_repository world (trace s) (github_client a) r with
    | inl e => (inl e, log_calls s [CallGetRepository (github_client a) r])
    | inr repo =>
        match answer_get_issue world
                (trace s ++ [CallGetRepository (github_client a) r]) repo n with
        | inl e =>
            (inl e, log_calls s [CallGetRepository (github_client a) r;
                                 CallGetIssue repo n])
        | inr issue =>
            generate_response world self (triage_prompt issue) false
              (log_calls s [CallGetRepository (github_client a) r;
                            CallGetIssue repo n])
        end
    end /\
  execute world self context user_input s =
    execute world self context other_input s.
Proof.
  intros Hself Hclass Hn Hn0 Hr Hr0.
  assert (H : forall input,
            execute world self context input s =
            match answer_get_repository world (trace s) (github_client a) r with
            | inl e => (inl e, log_calls s [CallGetRepository (github_client a) r])
            | inr repo =>
                match answer_get_issue world
                        (trace s ++ [CallGetRepository (github_client a) r])
                        repo n with
                | inl e =>
                    (inl e, log_calls s [CallGetRepository (github_client a) r;
                                         CallGetIssue repo n])
                | inr issue =>
                    generate_response world self (triage_prompt issue) false
                      (log_calls s [CallGetRepository (github_client a) r;
                                    CallGetIssue repo n])
                end
            end).
  { intros input.
    unfold execute, bind at 1, get_obj at 1. rewrite Hself, Hclass.
    unfold IssueTriageAgent_execute. rewrite Hn, Hr.
    unfold truthy_int. apply Z.eqb_neq in Hn0. rewrite Hn0, Hr0.
    cbn [negb andb].
    unfold bind at 1, get_obj at 1. rewrite Hself.
    unfold bind at 1, get_repository.
    destruct (answer_get_repository _ _ _ _) as [e|repo]; [reflexivity|].
    unfold bind at 1, get_issue. rewrite trace_log_call.
    rewrite (log_call_one s), log_call_log_calls.
    destruct (answer_get_issue _ _ _ _) as [e|issue]; reflexivity. }
  split; [apply H|]. rewrite (H user_input), (H other_input). reflexivity.
Qed.

End AgentMore.

(** ** Prompts: what they contain *)

Module PromptFacts.

Import PyStr.

Lemma prefix_self (sub t : string) : prefix sub (sub +:+ t) = true.
Proof.
  induction sub as [|c sub IH]; simpl; [reflexivity|].
  rewrite Ascii.eqb_refl. exact IH.
Qed.

Lemma contains_of_prefix (s sub : string) :
  prefix sub s = true -> contains s sub = true.
Proof. intros H. destruct s; simpl; rewrite H; reflexivity. Qed.

Lemma contains_after (s t sub : string) :
  contains t sub = true -> contains (s +:+ t) sub = true.
Proof.
  intros H. induction s as [|c s IH]; [exact H|].
  change (String c s +:+ t) with (String c (s +:+ t)).
  rewrite PyStrFacts.contains_cons, IH.
  destruct (prefix sub (String c (s +:+ t))); reflexivity.
Qed.

(** A line of a prompt contains what it starts with. *)
Lemma contains_line (x rest : string) :
  contains (line x +:+ rest) x = true.
Proof.
  apply PyStrFacts.contains_append. unfold line.
  apply contains_of_prefix, prefix_self.
Qed.

End PromptFacts.

(** X11. The review prompt, for every pull request and every input, has
    the title after "Title: ", the body after "Description: " with
    "No description provided" in its place when the body is [None] or
    empty, the three counts after "Files changed: ", "Additions: +" and
    "Deletions: -", and the input after "Additional context: ". *)
Theorem review_prompt_contents (pr : PullRequest) (user_input : string) :
  PyStr.contains (review_prompt pr user_input)
    ("Title: " +:+ pr_title pr) = true /\
  PyStr.contains (review_prompt pr user_input)
    ("Description: " +:+
     match pr_body pr with
     | None | Some EmptyString => "No description provided"
     | Some body => body
     end) = true /\
  PyStr.contains (review_prompt pr user_input)
    ("Files changed: " +:+ PyStr.of_Z (pr_changed_files pr)) = true /\
  PyStr.contains (review_prompt pr user_input)
    ("Additions: +" +:+ PyStr.of_Z (pr_additions pr)) = true /\
  PyStr.contains (review_prompt pr user_input)
    ("Deletions: -" +:+ PyStr.of_Z (pr_deletions pr)) = true /\
  PyStr.contains (review_prompt pr user_input)
    ("Additional context: " +:+ user_input) = true.
Proof.
  assert (Hbody : PyStr.or_else (pr_body pr) "No description provided" =
                  match pr_body pr with
                  | None | Some EmptyString => "No description provided"
                  | Some body => body
                  end) by (destruct (pr_body pr) as [[|? ?]|]; reflexivity).
  rewrite <- Hbody. unfold review_prompt.
  repeat split;
    repeat (first [apply PromptFacts.contains_line
                  | apply PromptFacts.contains_after]).
Qed.


(** ** Histories *)

Section HistoryMore.

Variable world : World.

Lemma exchanges_app (t h : list Message) :
  exchanges h = true -> exchanges (h ++ t) = exchanges t.
Proof.
  remember (length h) as n eqn:Hn. revert h Hn.
  induction n as [n IH] using lt_wf_ind. intros h Hn Hh.
  destruct h as [|u [|a h]]; [reflexivity | discriminate |].
  simpl in Hh. simpl.
  destruct (String.eqb (role u) "user" && String.eqb (role a) "assistant");
    [|discriminate].
  simpl in *. apply (IH (length h)); [lia | reflexivity | exact Hh].
Qed.

Lemma exchanges_one_more (h : list Message) (prompt response : string) :
  exchanges h = true ->
  exchanges (h ++ [{| role := "user"; content := prompt |};
                   {| role := "assistant"; content := response |}]) = true.
Proof. intros H. rewrite (exchanges_app _ h H). reflexivity. Qed.

(** X13. If an agent's history is made of exchanges (user message, then
    assistant message), it still is after any [generate_response] and any
    [execute], returned or raised; and when [generate_response] calls
    [chat], the messages it sends are such exchanges followed by one user
    message, the prompt. *)
Theorem history_stays_exchanges (self : loc) (a : Agent) (s : State) :
  heap s !! self = Some a ->
  exchanges (conversation_history a) = true ->
  (forall prompt use_history,
     exists h,
       history_at (snd (generate_response world self prompt use_history s))
         self = Some h /\ exchanges h = true) /\
  (forall context user_input,
     exists h,
       history_at (snd (execute world self context user_input s)) self =
         Some h /\ exchanges h = true) /\
  (forall prompt use_history m messages,
     In (CallChat m messages)
        (trace (snd (generate_response world self prompt use_history s))) ->
     In (CallChat m messages) (trace s) \/
     messages = conversation_history a ++
                  [{| role := "user"; content := prompt |}] /\
     ends_with_user_turn messages).
Proof.
  intros Hself Hex. unfold history_at. split; [|split].
  - intros prompt use_history.
    pose proof (generate_response_heap world self a prompt use_history s Hself) as H.
    destruct (generate_response world self prompt use_history s) as [[e|r] s'];
      simpl; rewrite H.
    + rewrite Hself. eauto.
    + rewrite lookup_insert_eq. simpl. eexists. split; [reflexivity|].
      apply exchanges_one_more, Hex.
  - intros context user_input.
    pose proof (execute_heap world self a context user_input s Hself) as H.
    destruct (execute world self context user_input s) as [[e|r] s']; simpl.
    + rewrite H, Hself. eauto.
    + destruct H as [p ->]. rewrite lookup_insert_eq. simpl.
      eexists. split; [reflexivity|]. apply exchanges_one_more, Hex.
  - intros prompt use_history m messages.
    destruct (use_history && PyStr.truthy_list (conversation_history a)) eqn:Hc.
    + rewrite (generate_response_chat world self a prompt use_history s Hself Hc).
      cbv zeta.
      assert (Htr : forall r : Result string * State,
                (r = (match answer_chat world (trace s) (ai_model a)
                              (conversation_history a ++
                               [{| role := "user"; content := prompt |}]) with
                      | inl e => (inl e, log_call s (CallChat (ai_model a)
                           (conversation_history a ++
                            [{| role := "user"; content := prompt |}])))
                      | inr response => (inr response,
                           with_heap (log_call s (CallChat (ai_model a)
                             (conversation_history a ++
                              [{| role := "user"; content := prompt |}])))
                             (<[self := set_history a
                                 (conversation_history a ++
                                  [{| role := "user"; content := prompt |};
                                   {| role := "assistant"; content := response |}])]>
                                (heap s)))
                      end)) ->
                trace (snd r) = trace s ++ [CallChat (ai_model a)
                  (conversation_history a ++
                   [{| role := "user"; content := prompt |}])]).
      { intros r ->. destruct (answer_chat _ _ _ _); reflexivity. }
      rewrite (Htr _ eq_refl). intros Hin.
      apply in_app_or in Hin as [Hin|[Heq|[]]]; [left; exact Hin|].
      right. inversion Heq; subst. split; [reflexivity|].
      exists (conversation_history a), prompt. auto.
    + rewrite (generate_response_generate world self a prompt use_history s Hself Hc).
      cbv zeta. intros Hin. left.
      destruct (answer_generate _ _ _ _ _); simpl in Hin;
        apply in_app_or in Hin as [Hin|[Heq|[]]];
        first [exact Hin | discriminate].
Qed.

Lemma clear_conversation_run (self : loc) (a : Agent) (s : State) :
  heap s !! self = Some a ->
  clear_conversation self s =
    (inr tt, with_heap s (<[self := set_history a []]> (heap s))).
Proof.
  intros Hself. unfold clear_conversation, bind, get_obj, put_obj.
  rewrite Hself. reflexivity.
Qed.

(** X14. [clear_conversation] empties the history of its agent and
    touches nothing else: other agents, the registry and the trace are as
    they were.  The next [generate_response] that asks for history then
    calls [generate] with the system prompt, not [chat], whatever the
    history was before. *)
Theorem clear_conversation_starts_over (self : loc) (a : Agent)
    (prompt : string) (s : State) :
  heap s !! self = Some a ->
  fst (clear_conversation self s) = inr tt /\
  history_at (snd (clear_conversation self s)) self = Some [] /\
  (forall l, l <> self ->
     heap (snd (clear_conversation self s)) !! l = heap s !! l) /\
  manager (snd (clear_conversation self s)) = manager s /\
  trace (snd (clear_conversation self s)) = trace s /\
  trace (snd (generate_response world self prompt true
                (snd (clear_conversation self s)))) =
    trace s ++ [CallGenerate (ai_model a) prompt
                  (get_system_prompt (agent_class a))].
Proof.
  intros Hself. rewrite (clear_conversation_run self a s Hself).
  unfold history_at. simpl.
  split; [reflexivity|]. split; [rewrite lookup_insert_eq; reflexivity|].
  split; [intros l Hne; apply lookup_insert_ne; congruence|].
  split; [reflexivity|]. split; [reflexivity|].
  rewrite (generate_response_generate world self (set_history a []) prompt true)
    by first [apply lookup_insert_eq | reflexivity].
  cbv zeta. destruct (answer_generate _ _ _ _ _); reflexivity.
Qed.

(** X15. [execute] changes nothing but the history of the agent it runs
    on: the registry and the type table are as they were, every other
    agent object is as it was, and the agent itself keeps its class, name,
    description, model and client. *)
Theorem execute_touches_only_its_history (self : loc) (a : Agent)
    (context : AgentContext) (user_input : string) (s : State) :
  heap s !! self = Some a ->
  manager (snd (execute world self context user_input s)) = manager s /\
  (forall l, l <> self ->
     heap (snd (execute world self context user_input s)) !! l =
     heap s !! l) /\
  exists h,
    heap (snd (execute world self context user_input s)) !! self =
      Some (set_history a h).
Proof.
  intros Hself. split; [apply (execute_manager world self a), Hself|].
  pose proof (execute_heap world self a context user_input s Hself) as H.
  destruct (execute world self context user_input s) as [[e|r] s']; simpl.
  - rewrite H. split; [reflexivity|].
    exists (conversation_history a). rewrite Hself. destruct a; reflexivity.
  - destruct H as [p ->].
    split; [intros l Hne; apply lookup_insert_ne; congruence|].
    eexists. apply lookup_insert_eq.
Qed.

End HistoryMore.

(** ** Adapters: how the system prompt travels *)

Section AdapterFacts.

Lemma exchanges_no_system (h : list Message) :
  exchanges h = true ->
  filter (fun msg => String.eqb (role msg) "system") h = [].
Proof.
  remember (length h) as n eqn:Hn. revert h Hn.
  induction n as [n IH] using lt_wf_ind. intros h Hn Hh.
  destruct h as [|u [|a h]]; [reflexivity | discriminate |].
  simpl in Hh.
  destruct (String.eqb (role u) "user") eqn:Hu; [|discriminate].
  destruct (String.eqb (role a) "assistant") eqn:Ha; [|discriminate].
  apply String.eqb_eq in Hu, Ha. simpl in Hh.
  rewrite !filter_cons, Hu, Ha. simpl.
  apply (IH (length h)); [simpl in Hn; lia | reflexivity | exact Hh].
Qed.


(** X17. On the replay path the system prompt is lost: [chat] passes the
    messages on as they are, with no [system] argument, so for a history
    made of exchanges the request carries no system text at all, with
    either adapter.  On the single-prompt path the system prompt of each
    shipped class is sent. *)
Theorem chat_request_drops_system_prompt (m : AIModel) (h : list Message)
    (prompt : string) (cls : AgentClass) :
  exchanges h = true ->
  Adapters.sdk_messages
    (Adapters.chat_request m
       (h ++ [{| role := "user"; content := prompt |}])) =
    h ++ [{| role := "user"; content := prompt |}] /\
  Adapters.system_texts
    (Adapters.chat_request m
       (h ++ [{| role := "user"; content := prompt |}])) = [] /\
  (shipped cls = true ->
   Adapters.system_texts
     (Adapters.generate_request m prompt (Some (get_system_prompt cls))) =
     [get_system_prompt cls]).
Proof.
  intros Hex. unfold Adapters.chat_request, Adapters.system_texts.
  split; [destruct (model_class m); reflexivity|]. split.
  - assert (Hf : filter (fun msg => String.eqb (role msg) "system")
                   (h ++ [{| role := "user"; content := prompt |}]) = []).
    { rewrite filter_app, (exchanges_no_system h Hex). reflexivity. }
    destruct (model_class m); simpl; rewrite Hf; reflexivity.
  - intros Hs. unfold Adapters.generate_request.
    destruct cls; [| | |discriminate]; destruct (model_class m); reflexivity.
Qed.

End AdapterFacts.

(** ** Configuration *)

Section ConfigFacts.

Variable config : Config.

(** X18. [validate] looks at the GitHub token only.  So a configuration
    can validate and still be unable to create any agent (no API key, no
    model passed); and when it does not validate, no agent can be created
    without passing a client. *)
Theorem validate_checks_only_the_token :
  validate config = PyStr.truthy (GITHUB_TOKEN config) /\
  (forall t id g s,
     PyDict.mem t (agent_types (manager s)) = true ->
     PyStr.truthy (ANTHROPIC_API_KEY config) = false ->
     Manager.create_agent config t id None g s =
       (inl (ValueError "No API key configured for AI model"), s)) /\
  (forall t id m s,
     PyDict.mem t (agent_types (manager s)) = true ->
     validate config = false ->
     exists msg,
       Manager.create_agent config t id m None s = (inl (ValueError msg), s)).
Proof.
  assert (Hv : validate config = PyStr.truthy (GITHUB_TOKEN config)).
  { unfold validate. rewrite filter_cons, filter_nil. simpl.
    destruct (PyStr.truthy (GITHUB_TOKEN config)); reflexivity. }
  split; [exact Hv|]. unfold PyDict.mem. split.
  - intros t id g s Hmem Hkey.
    destruct (PyDict.get t (agent_types (manager s))) as [cls|] eqn:Hcls;
      [|discriminate].
    rewrite (create_agent_run config t id None g s cls Hcls).
    rewrite (instantiate_without_key config cls g Hkey). reflexivity.
  - intros t id m s Hmem Hval. rewrite Hv in Hval.
    destruct (PyDict.get t (agent_types (manager s))) as [cls|] eqn:Hcls;
      [|discriminate].
    rewrite (create_agent_run config t id m None s cls Hcls).
    destruct m as [m|].
    + rewrite (instantiate_without_token config cls (Some m) Hval)
        by (left; discriminate). eauto.
    + destruct (PyStr.truthy (ANTHROPIC_API_KEY config)) eqn:Hkey.
      * rewrite (instantiate_without_token config cls None Hval)
          by (right; exact Hkey). eauto.
      * rewrite (instantiate_without_key config cls None Hkey). eauto.
Qed.

(** X19. [get_api_key] knows two providers, whatever their
    capitalization: "anthropic" and "openai".  For "claude", which the
    model factory takes as a name of the Anthropic provider, it has no
    key. *)
Theorem get_api_key_by_provider (provider : string) :
  get_api_key config provider =
    (if PyStr.capitalization_of provider "anthropic"
     then Some (ANTHROPIC_API_KEY config)
     else if PyStr.capitalization_of provider "openai"
     then Some (OPENAI_API_KEY config)
     else None) /\
  (PyStr.capitalization_of provider "claude" = true ->
   get_api_key config provider = None /\
   forall api_key model max_tokens temperature,
     exists m,
       ModelFactory.create_model provider api_key model max_tokens temperature
         = inr m /\ model_class m = ClaudeModel).
Proof.
  assert (H : get_api_key config provider =
              if PyStr.capitalization_of provider "anthropic"
              then Some (ANTHROPIC_API_KEY config)
              else if PyStr.capitalization_of provider "openai"
              then Some (OPENAI_API_KEY config)
              else None).
  { unfold get_api_key. simpl.
    rewrite !PyStrFacts.capitalization_of_lower by reflexivity.
    reflexivity. }
  split; [exact H|]. intros Hc.
  rewrite PyStrFacts.capitalization_of_lower in Hc by reflexivity.
  apply String.eqb_eq in Hc. split.
  - rewrite H, !PyStrFacts.capitalization_of_lower by reflexivity.
    rewrite Hc. reflexivity.
  - intros api_key model max_tokens temperature.
    unfold ModelFactory.create_model. rewrite Hc. simpl. eauto.
Qed.

(** X20. An agent created without a model gets a Claude adapter with the
    configured API key, token bound and temperature, and the configured
    default model, or "claude-3-sonnet-20240229" when that setting is
    empty; an agent created with a model keeps the one it was given. *)
Theorem created_agent_model (cls : AgentClass) (m : option AIModel)
    (g : option GitHubClient) (a : Agent) :
  instantiate config cls m g = inr a ->
  ai_model a =
    match m with
    | Some given => given
    | None =>
        {| model_class := ClaudeModel;
           api_key := ANTHROPIC_API_KEY config;
           model := match DEFAULT_MODEL config with
                    | EmptyString => "claude-3-sonnet-20240229"
                    | String c r => String c r
                    end;
           max_tokens := MAX_TOKENS config;
           temperature := TEMPERATURE config |}
    end /\
  github_client a =
    match g with
    | Some given => given
    | None => {| token := GITHUB_TOKEN config |}
    end.
Proof.
  unfold instantiate, Agent_init, _create_default_model, _create_github_client.
  change (get_api_key config "anthropic") with (Some (ANTHROPIC_API_KEY config)).
  cbv iota beta.
  destruct m as [m|], g as [g|]; simpl.
  - intros [= <-]. auto.
  - destruct (PyStr.truthy (GITHUB_TOKEN config)); simpl; [|discriminate].
    intros [= <-]. auto.
  - destruct (PyStr.truthy (ANTHROPIC_API_KEY config)); simpl; [|discriminate].
    unfold ModelFactory.create_model. simpl.
    intros [= <-]. simpl. destruct (DEFAULT_MODEL config); auto.
  - destruct (PyStr.truthy (ANTHROPIC_API_KEY config)); simpl; [|discriminate].
    unfold ModelFactory.create_model. simpl.
    destruct (PyStr.truthy (GITHUB_TOKEN config)); simpl; [|discriminate].
    intros [= <-]. simpl. destruct (DEFAULT_MODEL config); auto.
Qed.

End ConfigFacts.

(** ** The registry as a list, and the HTTP routes *)

Section ApiMore.

Variable config : Config.
Variable world : World.

Lemma in_items_get {V : Type} (k : string) (v : V) (d : PyDict.t V) :
  List.NoDup (PyDict.keys d) -> In (k, v) d -> PyDict.get k d = Some v.
Proof.
  induction d as [|[k0 v0] d IH]; simpl; [tauto|].
  intros Hd Hin. inversion Hd as [|? ? Hnot Hrest]; subst.
  destruct Hin as [Heq|Hin].
  - inversion Heq; subst. rewrite String.eqb_refl. reflexivity.
  - destruct (String.eqb k k0) eqn:E; [|exact (IH Hrest Hin)].
    apply String.eqb_eq in E. subst k0. exfalso. apply Hnot.
    apply (in_map fst) in Hin. exact Hin.
Qed.

Lemma list_entries (h : gmap loc Agent) (d : PyDict.t loc) :
  (forall k l, In (k, l) d -> is_Some (h !! l)) ->
  map (fun e : string * string * string => fst (fst e))
    (omap (fun kv : string * loc =>
             match h !! snd kv with
             | Some a => Some (fst kv, name a, description a)
             | None => None
             end) d) = PyDict.keys d /\
  forall id nm ds,
    In (id, nm, ds)
       (omap (fun kv : string * loc =>
                match h !! snd kv with
                | Some a => Some (fst kv, name a, description a)
                | None => None
                end) d) ->
    exists l a, In (id, l) d /\ h !! l = Some a /\
                nm = name a /\ ds = description a.
Proof.
  induction d as [|[k l] d IH]; intros Hlive.
  - split; [reflexivity | intros ? ? ? []].
  - destruct (Hlive k l (or_introl eq_refl)) as [a Ha].
    destruct IH as [IH1 IH2];
      [intros k' l' Hin; apply (Hlive k' l'); right; exact Hin|].
    simpl. rewrite Ha. simpl. split; [f_equal; exact IH1|].
    intros id nm ds [Heq|Hin].
    + inversion Heq; subst. exists l, a. auto.
    + destruct (IH2 id nm ds Hin) as (l' & a' & H1 & H2).
      exists l', a'. split; [right; exact H1 | exact H2].
Qed.

(** X21. In a well-formed state [list_agents] returns one entry per
    registered id, in the order of the registry, each with the name and
    description of the agent registered under that id; it changes
    nothing. *)
Theorem list_agents_lists_the_registry (s : State) :
  registry_wf s ->
  exists entries,
    Manager.list_agents s = (inr entries, s) /\
    map (fun e : string * string * string => fst (fst e)) entries =
      PyDict.keys (agents (manager s)) /\
    forall id nm ds,
      In (id, nm, ds) entries ->
      exists l a,
        PyDict.get id (agents (manager s)) = Some l /\
        heap s !! l = Some a /\ nm = name a /\ ds = description a.
Proof.
  intros (Hk & _ & Hl).
  destruct (list_entries (heap s) (agents (manager s))) as [H1 H2].
  { intros k l Hin. apply (Hl k l). apply in_items_get; assumption. }
  eexists. split; [reflexivity|]. split; [exact H1|].
  intros id nm ds Hin.
  destruct (H2 id nm ds Hin) as (l & a & Hin' & Ha & Hn & Hd).
  exists l, a. split; [apply in_items_get; assumption | auto].
Qed.

Lemma instantiate_fields (cls : AgentClass) (m : option AIModel)
    (g : option GitHubClient) (a : Agent) :
  instantiate config cls m g = inr a ->
  name a = init_name cls /\ description a = init_description cls /\
  conversation_history a = [].
Proof.
  unfold instantiate, Agent_init, bindR.
  destruct (match m with Some _ => _ | None => _ end); [discriminate|].
  destruct (match g with Some _ => _ | None => _ end); [discriminate|].
  intros H. inversion H. auto.
Qed.

Lemma get_route_run (id : string) (l : loc) (a : Agent) (s : State) :
  PyDict.get id (agents (manager s)) = Some l ->
  heap s !! l = Some a ->
  Api.get_agent id s = ((200, Api.AgentPayload (to_dict a)), s).
Proof.
  intros Hget Ha. unfold Api.get_agent, Api.guarded, Manager.get_agent.
  unfold bind, get_manager, ret, get_obj. cbv beta iota.
  rewrite Hget. cbv beta iota. rewrite Ha. reflexivity.
Qed.

Lemma get_route_missing (id : string) (s : State) :
  PyDict.get id (agents (manager s)) = None ->
  Api.get_agent id s = ((404, Api.ErrorPayload "Agent not found"), s).
Proof.
  intros Hget. unfold Api.get_agent, Api.guarded, Manager.get_agent.
  unfold bind, get_manager, ret. cbv beta iota.
  rewrite Hget. reflexivity.
Qed.

(** X22. The create route answers 400 "Agent type is required", and does
    nothing, when the body has no type or an empty one.  When the type is
    given but is not a registered type, it answers 500 with the manager's
    "Unknown agent type" message, and does nothing. *)
Theorem create_route_refusals (data : Api.CreateBody) (s : State) :
  (PyStr.truthy_opt (Api.body_type data) = false ->
   Api.create_agent config data s =
     ((400, Api.ErrorPayload "Agent type is required"), s)) /\
  (forall t,
     Api.body_type data = Some t ->
     PyStr.truthy t = true ->
     PyDict.get t (agent_types (manager s)) = None ->
     exists msg,
       Api.create_agent config data s = ((500, Api.ErrorPayload msg), s) /\
       PyStr.prefix "Unknown agent type: " msg = true).
Proof.
  split.
  - intros Hfalsy. unfold Api.create_agent.
    destruct (Api.body_type data) as [[|c r]|]; try reflexivity.
    discriminate.
  - intros t Ht Htruthy Hnone. unfold Api.create_agent, Api.guarded.
    rewrite Ht. destruct t as [|c r]; [discriminate|].
    unfold bind at 1.
    rewrite (create_agent_unknown config _ _ None None s Hnone).
    eexists. split; reflexivity.
Qed.

(** X23. When the create route is given a registered type whose agent
    can be constructed, it answers 201 with the agent's name, its
    description and a conversation length of 0, and the get route on the
    id (or on the type name, when the id is missing or empty) then answers
    200 with the same three. *)
Theorem create_route_then_get_route (t : string) (id : option string)
    (cls : AgentClass) (a : Agent) (s : State) :
  PyStr.truthy t = true ->
  PyDict.get t (agent_types (manager s)) = Some cls ->
  instantiate config cls None None = inr a ->
  exists s',
    Api.create_agent config {| Api.body_type := Some t; Api.body_id := id |} s =
      ((201, Api.CreatedPayload "Agent created successfully"
               (init_name cls, init_description cls, 0%nat)), s') /\
    Api.get_agent (match id with
                   | None | Some EmptyString => t
                   | Some k => k
                   end) s' =
      ((200, Api.AgentPayload (init_name cls, init_description cls, 0%nat)),
       s').
Proof.
  intros Ht Hcls Ha.
  destruct (instantiate_fields cls None None a Ha) as (Hn & Hd & Hh).
  assert (Hdict : to_dict a = (init_name cls, init_description cls, 0%nat)).
  { unfold to_dict. rewrite Hn, Hd, Hh. reflexivity. }
  assert (Hkey : PyStr.or_else id t =
                 match id with None | Some EmptyString => t | Some k => k end)
    by (destruct id as [[|? ?]|]; reflexivity).
  eexists. split.
  - unfold Api.create_agent, Api.guarded.
    cbn [Api.body_type Api.body_id]. cbv zeta.
    destruct t as [|c r]; [discriminate|].
    unfold bind at 1.
    rewrite (create_agent_run config _ id None None s cls Hcls), Ha.
    cbv zeta. unfold bind, get_obj, ret. simpl.
    rewrite lookup_insert_eq, Hdict. reflexivity.
  - rewrite <- Hkey, <- Hdict. apply (get_route_run _ (fresh (dom (heap s)))).
    + simpl. apply PyDictFacts.get_set_eq.
    + simpl. apply lookup_insert_eq.
Qed.

(** X24. The delete route on a registered id answers 200; after it the
    get route and a second delete both answer 404, and the execute route
    answers 500. *)
Theorem delete_route_then_gone (id : string) (l : loc)
    (data : Api.ExecuteBody) (s : State) :
  List.NoDup (PyDict.keys (agents (manager s))) ->
  PyDict.get id (agents (manager s)) = Some l ->
  fst (Api.delete_agent id s) =
    (200, Api.MessagePayload "Agent deleted successfully") /\
  fst (Api.get_agent id (snd (Api.delete_agent id s))) =
    (404, Api.ErrorPayload "Agent not found") /\
  fst (Api.delete_agent id (snd (Api.delete_agent id s))) =
    (404, Api.ErrorPayload "Agent not found") /\
  fst (Api.execute_agent world id data (snd (Api.delete_agent id s))) =
    (500, Api.ErrorPayload ("Agent not found: " +:+ id)).
Proof.
  intros Hk Hget.
  assert (Hdel : Api.delete_agent id s =
            ((200, Api.MessagePayload "Agent deleted successfully"),
             with_manager s
               {| agents := PyDict.del id (agents (manager s));
                  agent_types := agent_types (manager s) |})).
  { unfold Api.delete_agent, Api.guarded. unfold bind at 1.
    rewrite (remove_agent_present id l s Hget). reflexivity. }
  rewrite Hdel. simpl.
  assert (Hgone : PyDict.get id (PyDict.del id (agents (manager s))) = None)
    by (apply PyDictMore.get_del_eq, Hk).
  split; [reflexivity|]. split; [|split].
  - rewrite get_route_missing by exact Hgone. reflexivity.
  - unfold Api.delete_agent, Api.guarded. unfold bind at 1.
    rewrite remove_agent_absent by exact Hgone. reflexivity.
  - unfold Api.execute_agent, Api.guarded, bind at 1, AgentContext_init.
    unfold bind at 1.
    rewrite execute_agent_missing by exact Hgone. reflexivity.
Qed.

End ApiMore.

Section RoutesOnAgents.

Variable config : Config.
Variable world : World.

(** X25. The execute route on a registered agent runs [execute] on a
    context made from the body (the input defaults to the empty string,
    the timestamp is the time of the request).  If [execute] returns, the
    route answers 200 with the response, the repository and the timestamp,
    and the get route then reports a conversation two messages longer; if
    [execute] raises, the route answers 500 with the exception's message,
    and the get route reports the conversation as long as before. *)
Theorem execute_route_on_registered_agent (id : string) (l : loc) (a : Agent)
    (data : Api.ExecuteBody) (s : State) :
  PyDict.get id (agents (manager s)) = Some l ->
  heap s !! l = Some a ->
  exists context,
    repository context = Api.body_repository data /\
    issue_number context = Api.body_issue_number data /\
    pr_number context = Api.body_pr_number data /\
    timestamp context = clock_now world (trace s) /\
    match execute world l context
            (match Api.body_input data with Some i => i | None => EmptyString end)
            s with
    | (inr response, s') =>
        Api.execute_agent world id data s =
          ((200, Api.ExecutePayload response (Api.body_repository data)
                   (clock_now world (trace s))), s') /\
        fst (Api.get_agent id s') =
          (200, Api.AgentPayload
                  (name a, description a,
                   (length (conversation_history a) + 2)%nat))
    | (inl e, s') =>
        Api.execute_agent world id data s =
          ((500, Api.ErrorPayload (str_of_exn e)), s') /\
        fst (Api.get_agent id s') =
          (200, Api.AgentPayload
                  (name a, description a, length (conversation_history a)))
    end.
Proof.
  intros Hget Ha.
  set (context := {| repository := Api.body_repository data;
                     issue_number := Api.body_issue_number data;
                     pr_number := Api.body_pr_number data;
                     metadata := match Some (default PyDict.empty
                                               (Api.body_metadata data)) with
                                 | Some (kv :: r) => kv :: r
                                 | _ => PyDict.empty
                                 end;
                     timestamp := clock_now world (trace s) |}).
  set (input := match Api.body_input data with
                | Some i => i | None => EmptyString end).
  exists context.
  split; [reflexivity|]. split; [reflexivity|]. split; [reflexivity|].
  split; [reflexivity|].
  pose proof (execute_heap world l a context input s Ha) as Hh.
  pose proof (execute_manager world l a context input s Ha) as Hm.
  assert (Hroute : Api.execute_agent world id data s =
            match execute world l context input s with
            | (inr response, s') =>
                ((200, Api.ExecutePayload response (Api.body_repository data)
                         (clock_now world (trace s))), s')
            | (inl e, s') => ((500, Api.ErrorPayload (str_of_exn e)), s')
            end).
  { unfold Api.execute_agent, Api.guarded, bind at 1, AgentContext_init.
    unfold bind at 1. unfold Manager.execute_agent, Manager.get_agent.
    unfold bind at 1. unfold bind at 1. unfold get_manager, ret.
    cbv beta iota. rewrite Hget.
    change (default EmptyString (Api.body_input data)) with input.
    fold context.
    destruct (execute world l context input s) as [[e|r] s']; reflexivity. }
  rewrite Hroute.
  destruct (execute world l context input s) as [[e|r] s']; simpl in Hh, Hm.
  - split; [reflexivity|].
    rewrite (get_route_run id l a s'); [reflexivity | |].
    + rewrite Hm. exact Hget.
    + rewrite Hh. exact Ha.
  - split; [reflexivity|]. destruct Hh as [p Hh].
    erewrite (get_route_run id l _ s');
      [| rewrite Hm; exact Hget | rewrite Hh; apply lookup_insert_eq].
    unfold to_dict. simpl. rewrite length_app. reflexivity.
Qed.

(** X26. The clear-conversation route on a registered agent answers 200,
    and the get route then reports a conversation of length 0 with the
    name and description unchanged. *)
Theorem clear_route_then_get_route (id : string) (l : loc) (a : Agent)
    (s : State) :
  PyDict.get id (agents (manager s)) = Some l ->
  heap s !! l = Some a ->
  fst (Api.clear_conversation id s) =
    (200, Api.MessagePayload "Conversation cleared") /\
  fst (Api.get_agent id (snd (Api.clear_conversation id s))) =
    (200, Api.AgentPayload (name a, description a, 0%nat)).
Proof.
  intros Hget Ha.
  assert (Hrun : Api.clear_conversation id s =
            ((200, Api.MessagePayload "Conversation cleared"),
             with_heap s (<[l := set_history a []]> (heap s)))).
  { unfold Api.clear_conversation, Api.guarded, Manager.get_agent.
    unfold bind at 1. unfold bind at 1. unfold get_manager, ret.
    cbv beta iota. rewrite Hget. unfold bind at 1.
    rewrite (clear_conversation_run l a s Ha). reflexivity. }
  rewrite Hrun. split; [reflexivity|]. simpl.
  rewrite (get_route_run id l (set_history a [])); [reflexivity | exact Hget |].
  apply lookup_insert_eq.
Qed.

End RoutesOnAgents.

(** ** The command line *)

Section CliFacts.

Variable config : Config.
Variable world : World.

Lemma split_head_no_sep (sep : ascii) (s : string) :
  PyStr.has_char sep (Cli.split_head sep s) = false.
Proof.
  induction s as [|c s IH]; simpl; [reflexivity|].
  destruct (Ascii.eqb c sep) eqn:E; simpl; [reflexivity|].
  rewrite E. exact IH.
Qed.

Lemma split_head_prefix (sep : ascii) (s : string) :
  PyStr.has_char sep s = true ->
  exists rest,
    s = Cli.split_head sep s +:+ String sep rest.
Proof.
  induction s as [|c s IH]; simpl; [discriminate|].
  destruct (Ascii.eqb c sep) eqn:E; simpl.
  - intros _. apply Ascii.eqb_eq in E. subst c. exists s. reflexivity.
  - intros H. destruct (IH H) as [rest Hrest]. exists rest.
    change (String c s =
            String c (Cli.split_head sep s +:+ String sep rest)).
    f_equal. exact Hrest.
Qed.

Lemma agent_type_no_underscore (id : string) :
  PyStr.has_char Cli.underscore (Cli.agent_type_of_id id) = false.
Proof.
  unfold Cli.agent_type_of_id.
  destruct (PyStr.has_char Cli.underscore id) eqn:E;
    [apply split_head_no_sep | exact E].
Qed.

(** X27. The agent type that [agent execute] derives from an id has no
    underscore: it is the id itself when the id has none, and otherwise
    what comes before the first underscore.  So it is never "code_review"
    nor "issue_triage". *)
Theorem agent_type_of_id_has_no_underscore (id : string) :
  PyStr.has_char Cli.underscore (Cli.agent_type_of_id id) = false /\
  (PyStr.has_char Cli.underscore id = false -> Cli.agent_type_of_id id = id) /\
  (PyStr.has_char Cli.underscore id = true ->
   exists rest,
     id = Cli.agent_type_of_id id +:+ String Cli.underscore rest) /\
  Cli.agent_type_of_id id <> "code_review"%string /\
  Cli.agent_type_of_id id <> "issue_triage"%string.
Proof.
  pose proof (agent_type_no_underscore id) as H.
  split; [exact H|]. unfold Cli.agent_type_of_id in *.
  split; [intros ->; reflexivity|]. split.
  - intros E. rewrite E. apply split_head_prefix, E.
  - split; intros Heq; rewrite Heq in H; discriminate.
Qed.

Lemma new_manager_lacks (t : string) :
  PyStr.has_char Cli.underscore t = false ->
  t <> "documentation"%string ->
  PyDict.get t (agent_types Manager.AgentManager_init) = None.
Proof.
  intros Hu Hd. simpl.
  destruct (String.eqb t "code_review") eqn:E1.
  { apply String.eqb_eq in E1. subst t. discriminate. }
  destruct (String.eqb t "issue_triage") eqn:E2.
  { apply String.eqb_eq in E2. subst t. discriminate. }
  destruct (String.eqb t "documentation") eqn:E3.
  { apply String.eqb_eq in E3. contradiction. }
  reflexivity.
Qed.

(** X28. [agent execute] starts from a new manager, so it always has to
    create its agent, of the type derived from the id.  Unless that type
    is "documentation", the command raises the unknown-type error, having
    created nothing and called nothing: this is what happens for the ids
    "code_review" and "issue_triage", and for every id without an
    underscore other than "documentation".  Without an id or without an
    input, it prints an error and does nothing. *)
Theorem cli_execute_refuses_other_types (args : Cli.AgentArgs) (s : State) :
  (forall id input,
     Cli.arg_id args = Some id -> PyStr.truthy id = true ->
     Cli.arg_input args = Some input -> PyStr.truthy input = true ->
     Cli.agent_type_of_id id <> "documentation"%string ->
     Cli.agent_execute config world args s =
       (inl (ValueError
               ("Unknown agent type: " +:+ Cli.agent_type_of_id id +:+
                ". Available: ['code_review', 'issue_triage', 'documentation']")),
        with_manager s Manager.AgentManager_init)) /\
  (PyStr.truthy_opt (Cli.arg_id args) = false \/
   PyStr.truthy_opt (Cli.arg_input args) = false ->
   Cli.agent_execute config world args s =
     (inr ("Error: --id and --input are required for execute action" +:+
           PyStr.nl),
      with_manager s Manager.AgentManager_init)).
Proof.
  split.
  - intros id input Hid Hid1 Hin Hin1 Htype.
    unfold Cli.agent_execute. rewrite Hid, Hin.
    destruct id as [|c r]; [discriminate|].
    destruct input as [|c' r']; [discriminate|].
    unfold bind at 1, put_manager.
    unfold bind at 1, AgentContext_init.
    unfold bind at 1. unfold bind at 1.
    unfold Manager.get_agent at 1, bind at 1, get_manager at 1, ret at 1.
    cbn [manager with_manager agents Manager.AgentManager_init PyDict.get
         PyDict.empty].
    unfold bind at 1.
    rewrite create_agent_unknown
      by (apply new_manager_lacks;
          [apply agent_type_no_underscore | exact Htype]).
    reflexivity.
  - intros Hfalsy. unfold Cli.agent_execute.
    destruct (Cli.arg_id args) as [[|c r]|], (Cli.arg_input args) as [[|c' r']|];
      try reflexivity.
    destruct Hfalsy; discriminate.
Qed.

(** X29. When the type derived from the id is "documentation" and the
    configuration lets an agent be constructed, [agent execute] registers a
    Documentation Agent under the whole id and makes one call, [generate]
    on "Generate documentation for:", two newlines and the input, whatever
    repository, issue or pull request was given.  It prints the response
    under "Agent Response:", or raises what the model raised. *)
Theorem cli_execute_documents (args : Cli.AgentArgs) (id input : string)
    (a : Agent) (s : State) :
  Cli.arg_id args = Some id -> PyStr.truthy id = true ->
  Cli.arg_input args = Some input -> PyStr.truthy input = true ->
  Cli.agent_type_of_id id = "documentation"%string ->
  instantiate config DocumentationAgent None None = inr a ->
  trace (snd (Cli.agent_execute config world args s)) =
    trace s ++
      [CallGenerate (ai_model a)
         ("Generate documentation for:" +:+ PyStr.nl +:+ PyStr.nl +:+ input)
         (get_system_prompt DocumentationAgent)] /\
  fst (Cli.agent_execute config world args s) =
    match answer_generate world (trace s) (ai_model a)
            ("Generate documentation for:" +:+ PyStr.nl +:+ PyStr.nl +:+ input)
            (get_system_prompt DocumentationAgent) with
    | inr response =>
        inr (PyStr.nl +:+ "Agent Response:" +:+ PyStr.nl +:+ response +:+
             PyStr.nl)
    | inl e => inl e
    end /\
  PyDict.get id
    (agents (manager (snd (Cli.agent_execute config world args s)))) =
    Some (fresh (dom (heap s))).
Proof.
  intros Hid Hid1 Hin Hin1 Htype Ha.
  destruct (instantiate_class config _ _ _ _ Ha) as [Hclass Hhist].
  set (l := fresh (dom (heap s))).
  set (s1 := with_manager (with_heap s (<[l := a]> (heap s)))
               {| agents := [(id, l)];
                  agent_types := agent_types Manager.AgentManager_init |}).
  assert (Hl : heap s1 !! l = Some a) by apply lookup_insert_eq.
  assert (Hrun : Cli.agent_execute config world args s =
            match generate_response world l
                    ("Generate documentation for:" +:+ PyStr.nl +:+ PyStr.nl
                     +:+ input) false s1 with
            | (inr response, s') =>
                (inr (PyStr.nl +:+ "Agent Response:" +:+ PyStr.nl +:+
                      response +:+ PyStr.nl), s')
            | (inl e, s') => (inl e, s')
            end).
  { unfold Cli.agent_execute. rewrite Hid, Hin.
    destruct id as [|c r]; [discriminate|].
    destruct input as [|c' r']; [discriminate|].
    unfold bind at 1, put_manager.
    unfold bind at 1, AgentContext_init.
    unfold bind at 1. unfold bind at 1.
    unfold Manager.get_agent at 1, bind at 1, get_manager at 1, ret at 1.
    cbn [manager with_manager agents Manager.AgentManager_init PyDict.get
         PyDict.empty].
    unfold bind at 1. rewrite Htype.
    rewrite (create_agent_run config "documentation" _ None None
               (with_manager s Manager.AgentManager_init)
               DocumentationAgent eq_refl), Ha.
    cbv zeta. cbn [PyStr.or_else PyStr.truthy].
    unfold ret at 1.
    unfold bind at 1. unfold Manager.execute_agent, Manager.get_agent.
    unfold bind at 1. unfold bind at 1. unfold get_manager, ret.
    cbn [manager with_manager with_heap agents PyDict.set PyDict.get
         PyDict.empty heap trace].
    rewrite PyDictFacts.get_set_eq.
    match goal with
    | |- context [execute world _ _ _ ?st] => change st with s1
    end.
    fold l. unfold execute, bind at 1, get_obj at 1.
    rewrite Hl, Hclass. unfold DocumentationAgent_execute.
    destruct (generate_response world l _ false s1) as [[e|resp] s'];
      reflexivity. }
  rewrite Hrun.
  rewrite (generate_response_generate world l a _ false s1 Hl) by reflexivity.
  rewrite Hclass. cbv zeta.
  change (trace s1) with (trace s).
  destruct (answer_generate _ _ _ _ _); simpl;
    rewrite String.eqb_refl; auto.
Qed.

End CliFacts.

(** ** The further properties at concrete inputs *)

Lemma registry_stays_well_formed_witness :
  registry_wf Samples.fresh_state /\
  registry_wf
    (snd (Manager.create_agent Samples.cfg "code_review" None None None
            Samples.fresh_state)) /\
  registry_wf (snd (Manager.remove_agent "code_review" Samples.fresh_state)).
Proof.
  pose proof (new_manager_wf ∅ []) as Hwf.
  destruct (registry_stays_well_formed Samples.cfg Samples.world_up
              Samples.fresh_state Hwf) as (Hc & Hr & _).
  split; [exact Hwf|]. split; [apply Hc | apply Hr].
Defined.

Lemma remove_agent_once_witness :
  List.NoDup (PyDict.keys (agents (manager Samples.after_first_create))) /\
  fst (Manager.remove_agent "code_review" Samples.after_first_create) =
    inr true /\
  Manager.remove_agent "code_review"
    (snd (Manager.remove_agent "code_review" Samples.after_first_create)) =
    (inr false,
     snd (Manager.remove_agent "code_review" Samples.after_first_create)).
Proof.
  assert (Hk : List.NoDup
                 (PyDict.keys (agents (manager Samples.after_first_create)))).
  { vm_compute. apply List.NoDup_cons; [intros [] | apply List.NoDup_nil]. }
  destruct (remove_agent_once "code_review" Samples.after_first_create Hk)
    as (H1 & _ & H3 & _).
  split; [exact Hk|]. split; [exact H1 | exact H3].
Defined.

Lemma create_agent_leaves_the_rest_witness :
  Manager.create_agent Samples.cfg "code_review" (Some "reviewer-1"%string)
    None None Samples.after_first_create =
    (inr 1%nat,
     snd (Manager.create_agent Samples.cfg "code_review"
            (Some "reviewer-1"%string) None None
            Samples.after_first_create)) /\
  PyDict.get "reviewer-1"
    (agents (manager
       (snd (Manager.create_agent Samples.cfg "code_review"
               (Some "reviewer-1"%string) None None
               Samples.after_first_create)))) = Some 1%nat /\
  PyDict.get "code_review"
    (agents (manager
       (snd (Manager.create_agent Samples.cfg "code_review"
               (Some "reviewer-1"%string) None None
               Samples.after_first_create)))) =
  PyDict.get "code_review" (agents (manager Samples.after_first_create)).
Proof.
  assert (H : Manager.create_agent Samples.cfg "code_review"
                (Some "reviewer-1"%string) None None
                Samples.after_first_create =
              (inr 1%nat,
               snd (Manager.create_agent Samples.cfg "code_review"
                      (Some "reviewer-1"%string) None None
                      Samples.after_first_create)))
    by (vm_compute; reflexivity).
  destruct (create_agent_leaves_the_rest Samples.cfg _ _ _ _ _ _ _ H)
    as (H1 & H2 & _).
  split; [exact H|]. split; [exact H1|]. apply H2. discriminate.
Defined.

Lemma register_agent_type_overwrites_witness :
  "code_review"%string <> "summary"%string /\
  PyDict.get "code_review"
    (agent_types (manager
       (snd (Manager.register_agent_type "summary" Samples.Summarizer
               Samples.fresh_state)))) =
  PyDict.get "code_review" (agent_types (manager Samples.fresh_state)).
Proof.
  split; [discriminate|].
  apply (proj1 (proj2 (register_agent_type_overwrites "summary"
                         Samples.Summarizer Samples.fresh_state))).
  discriminate.
Defined.

Lemma list_agents_lists_the_registry_witness :
  registry_wf Samples.after_first_create /\
  exists entries,
    Manager.list_agents Samples.after_first_create =
      (inr entries, Samples.after_first_create) /\
    map (fun e : string * string * string => fst (fst e)) entries =
      PyDict.keys (agents (manager Samples.after_first_create)).
Proof.
  assert (Hwf : registry_wf Samples.after_first_create)
    by (apply create_agent_wf, new_manager_wf).
  split; [exact Hwf|].
  destruct (list_agents_lists_the_registry Samples.after_first_create Hwf)
    as (entries & H1 & H2 & _).
  exists entries. split; assumption.
Defined.

Lemma shipped_agents_never_chat_witness :
  heap (Samples.state_with Samples.reviewer_with_history) !! 0%nat =
    Some Samples.reviewer_with_history /\
  shipped (agent_class Samples.reviewer_with_history) = true /\
  exists repository_calls model_calls,
    trace (snd (execute Samples.world_up 0%nat Samples.pr_context "again"
                  (Samples.state_with Samples.reviewer_with_history))) =
      trace (Samples.state_with Samples.reviewer_with_history) ++
      repository_calls ++ model_calls /\
    forallb is_repository_call repository_calls = true.
Proof.
  split; [reflexivity|]. split; [reflexivity|].
  destruct (shipped_agents_never_chat Samples.world_up 0%nat
              Samples.reviewer_with_history Samples.pr_context "again"%string
              (Samples.state_with Samples.reviewer_with_history)
              eq_refl eq_refl) as (rc & mc & H1 & H2 & _).
  exists rc, mc. split; assumption.
Defined.

Lemma documentation_ignores_context_witness :
  heap (Samples.state_with MoreSamples.documenter) !! 0%nat =
    Some MoreSamples.documenter /\
  agent_class MoreSamples.documenter = DocumentationAgent /\
  trace (snd (execute Samples.world_up 0%nat Samples.pr_context "the parser"
                (Samples.state_with MoreSamples.documenter))) =
    [CallGenerate Samples.claude
       ("Generate documentation for:" +:+ PyStr.nl +:+ PyStr.nl +:+
        "the parser")
       (get_system_prompt DocumentationAgent)].
Proof.
  split; [reflexivity|]. split; [reflexivity|].
  exact (proj2 (documentation_ignores_context Samples.world_up 0%nat
                  MoreSamples.documenter Samples.pr_context
                  "the parser"%string
                  (Samples.state_with MoreSamples.documenter)
                  eq_refl eq_refl)).
Defined.

Lemma code_review_without_pull_request_witness :
  heap (Samples.state_with Samples.reviewer) !! 0%nat = Some Samples.reviewer /\
  truthy_int (pr_number MoreSamples.falsy_context) &&
    PyStr.truthy_opt (repository MoreSamples.falsy_context) = false /\
  trace (snd (execute Samples.world_up 0%nat MoreSamples.falsy_context
                "def f(): pass" (Samples.state_with Samples.reviewer))) =
    [CallGenerate Samples.claude
       ("Review this code:" +:+ PyStr.nl +:+ PyStr.nl +:+ "def f(): pass")
       (get_system_prompt CodeReviewAgent)].
Proof.
  split; [reflexivity|]. split; [reflexivity|].
  exact (proj2 (code_review_without_pull_request Samples.world_up 0%nat
                  Samples.reviewer MoreSamples.falsy_context
                  "def f(): pass"%string (Samples.state_with Samples.reviewer)
                  eq_refl eq_refl eq_refl)).
Defined.

Lemma issue_triage_without_issue_witness :
  heap (Samples.state_with Samples.triager) !! 0%nat = Some Samples.triager /\
  truthy_int (issue_number MoreSamples.falsy_context) &&
    PyStr.truthy_opt (repository MoreSamples.falsy_context) = false /\
  trace (snd (execute Samples.world_up 0%nat MoreSamples.falsy_context
                "it crashes" (Samples.state_with Samples.triager))) =
    [CallGenerate Samples.claude
       ("Triage this issue:" +:+ PyStr.nl +:+ PyStr.nl +:+ "it crashes")
       (get_system_prompt IssueTriageAgent)].
Proof.
  split; [reflexivity|]. split; [reflexivity|].
  exact (proj2 (issue_triage_without_issue Samples.world_up 0%nat
                  Samples.triager MoreSamples.falsy_context
                  "it crashes"%string (Samples.state_with Samples.triager)
                  eq_refl eq_refl eq_refl)).
Defined.

Lemma code_review_lookups_then_model_witness :
  heap (Samples.state_with Samples.reviewer) !! 0%nat = Some Samples.reviewer /\
  execute MoreSamples.world_no_platform 0%nat Samples.pr_context "look"
    (Samples.state_with Samples.reviewer) =
    (inl (UpstreamError "401 Bad credentials"),
     log_calls (Samples.state_with Samples.reviewer)
       [CallGetRepository {| token := "ghp_test" |} "o/r"]).
Proof.
  split; [reflexivity|].
  exact (code_review_lookups_then_model MoreSamples.world_no_platform 0%nat
           Samples.reviewer Samples.pr_context "look"%string
           (Samples.state_with Samples.reviewer) 7 "o/r"%string
           eq_refl eq_refl eq_refl ltac:(discriminate) eq_refl eq_refl).
Defined.

Lemma issue_triage_ignores_input_with_issue_witness :
  heap (Samples.state_with Samples.triager) !! 0%nat = Some Samples.triager /\
  execute MoreSamples.world_with_issue 0%nat MoreSamples.issue_context
    "please hurry" (Samples.state_with Samples.triager) =
  execute MoreSamples.world_with_issue 0%nat MoreSamples.issue_context
    "take your time" (Samples.state_with Samples.triager).
Proof.
  split; [reflexivity|].
  exact (proj2 (issue_triage_ignores_input_with_issue
                  MoreSamples.world_with_issue 0%nat Samples.triager
                  MoreSamples.issue_context "please hurry"%string
                  "take your time"%string (Samples.state_with Samples.triager)
                  12 "o/r"%string
                  eq_refl eq_refl eq_refl ltac:(discriminate) eq_refl eq_refl)).
Defined.

Lemma history_stays_exchanges_witness :
  heap (Samples.state_with Samples.reviewer_with_history) !! 0%nat =
    Some Samples.reviewer_with_history /\
  exchanges (conversation_history Samples.reviewer_with_history) = true /\
  exists h,
    history_at
      (snd (execute Samples.world_up 0%nat Samples.bare_context "x = 1"
              (Samples.state_with Samples.reviewer_with_history))) 0%nat =
      Some h /\ exchanges h = true.
Proof.
  split; [reflexivity|]. split; [reflexivity|].
  exact (proj1 (proj2 (history_stays_exchanges Samples.world_up 0%nat
                         Samples.reviewer_with_history
                         (Samples.state_with Samples.reviewer_with_history)
                         eq_refl eq_refl))
           Samples.bare_context "x = 1"%string).
Defined.

Lemma clear_conversation_starts_over_witness :
  heap (Samples.state_with Samples.reviewer_with_history) !! 0%nat =
    Some Samples.reviewer_with_history /\
  history_at
    (snd (clear_conversation 0%nat
            (Samples.state_with Samples.reviewer_with_history))) 0%nat =
    Some [] /\
  trace (snd (generate_response Samples.world_up 0%nat "anew" true
                (snd (clear_conversation 0%nat
                        (Samples.state_with Samples.reviewer_with_history))))) =
    [CallGenerate Samples.claude "anew" (get_system_prompt CodeReviewAgent)].
Proof.
  destruct (clear_conversation_starts_over Samples.world_up 0%nat
              Samples.reviewer_with_history "anew"%string
              (Samples.state_with Samples.reviewer_with_history) eq_refl)
    as (_ & H2 & _ & _ & _ & H6).
  split; [reflexivity|]. split; [exact H2 | exact H6].
Defined.

Lemma execute_touches_only_its_history_witness :
  heap (Samples.state_with Samples.reviewer) !! 0%nat = Some Samples.reviewer /\
  manager (snd (execute Samples.world_up 0%nat Samples.pr_context "look"
                  (Samples.state_with Samples.reviewer))) =
    manager (Samples.state_with Samples.reviewer).
Proof.
  split; [reflexivity|].
  exact (proj1 (execute_touches_only_its_history Samples.world_up 0%nat
                  Samples.reviewer Samples.pr_context "look"%string
                  (Samples.state_with Samples.reviewer) eq_refl)).
Defined.

Lemma chat_request_drops_system_prompt_witness :
  exchanges (conversation_history Samples.reviewer_with_history) = true /\
  Adapters.system_texts
    (Adapters.chat_request Samples.claude
       (conversation_history Samples.reviewer_with_history ++
        [{| role := "user"; content := "and this?" |}])) = [].
Proof.
  split; [reflexivity|].
  exact (proj1 (proj2 (chat_request_drops_system_prompt Samples.claude
                         (conversation_history Samples.reviewer_with_history)
                         "and this?"%string CodeReviewAgent eq_refl))).
Defined.

Lemma validate_checks_only_the_token_witness :
  validate MoreSamples.cfg_token_only = true /\
  PyDict.mem "documentation" (agent_types (manager Samples.fresh_state)) =
    true /\
  PyStr.truthy (ANTHROPIC_API_KEY MoreSamples.cfg_token_only) = false /\
  Manager.create_agent MoreSamples.cfg_token_only "documentation" None None
    None Samples.fresh_state =
    (inl (ValueError "No API key configured for AI model"),
     Samples.fresh_state).
Proof.
  split; [reflexivity|]. split; [reflexivity|]. split; [reflexivity|].
  exact (proj1 (proj2 (validate_checks_only_the_token
                         MoreSamples.cfg_token_only))
           "documentation"%string None None Samples.fresh_state
           eq_refl eq_refl).
Defined.

Lemma get_api_key_by_provider_witness :
  PyStr.capitalization_of "Claude" "claude" = true /\
  get_api_key Samples.cfg "Claude" = None.
Proof.
  split; [reflexivity|].
  exact (proj1 (proj2 (get_api_key_by_provider Samples.cfg "Claude")
                  eq_refl)).
Defined.

Lemma created_agent_model_witness :
  instantiate Samples.cfg CodeReviewAgent None None = inr Samples.reviewer /\
  ai_model Samples.reviewer =
    {| model_class := ClaudeModel; api_key := "sk-ant-test";
       model := "claude-3-sonnet-20240229"; max_tokens := 4096;
       temperature := 7 # 10 |}.
Proof.
  split; [reflexivity|].
  exact (proj1 (created_agent_model Samples.cfg CodeReviewAgent None None
                  Samples.reviewer eq_refl)).
Defined.

Lemma create_route_refusals_witness :
  PyStr.truthy_opt
    (Api.body_type {| Api.body_type := None;
                      Api.body_id := Some "a"%string |}) = false /\
  Api.create_agent Samples.cfg
    {| Api.body_type := None; Api.body_id := Some "a"%string |}
    Samples.fresh_state =
    ((400, Api.ErrorPayload "Agent type is required"), Samples.fresh_state).
Proof.
  split; [reflexivity|].
  exact (proj1 (create_route_refusals Samples.cfg
                  {| Api.body_type := None; Api.body_id := Some "a"%string |}
                  Samples.fresh_state) eq_refl).
Defined.

Lemma create_route_then_get_route_witness :
  PyDict.get "documentation" (agent_types (manager Samples.fresh_state)) =
    Some DocumentationAgent /\
  instantiate Samples.cfg DocumentationAgent None None =
    inr MoreSamples.documenter /\
  exists s',
    Api.create_agent Samples.cfg
      (MoreSamples.create_body "documentation" (Some "docs"%string))
      Samples.fresh_state =
      ((201, Api.CreatedPayload "Agent created successfully"
               ("Documentation Agent"%string,
                "Generates and improves documentation"%string, 0%nat)), s') /\
    Api.get_agent "docs" s' =
      ((200, Api.AgentPayload
               ("Documentation Agent"%string,
                "Generates and improves documentation"%string, 0%nat)), s').
Proof.
  split; [reflexivity|]. split; [reflexivity|].
  exact (create_route_then_get_route Samples.cfg "documentation"
           (Some "docs"%string) DocumentationAgent MoreSamples.documenter
           Samples.fresh_state eq_refl eq_refl eq_refl).
Defined.

Lemma delete_route_then_gone_witness :
  PyDict.get "code_review" (agents (manager Samples.after_first_create)) =
    Some 0%nat /\
  fst (Api.delete_agent "code_review" Samples.after_first_create) =
    (200, Api.MessagePayload "Agent deleted successfully") /\
  fst (Api.get_agent "code_review"
         (snd (Api.delete_agent "code_review" Samples.after_first_create))) =
    (404, Api.ErrorPayload "Agent not found").
Proof.
  assert (Hk : List.NoDup
                 (PyDict.keys (agents (manager Samples.after_first_create)))).
  { vm_compute. apply List.NoDup_cons; [intros [] | apply List.NoDup_nil]. }
  destruct (delete_route_then_gone Samples.world_up "code_review" 0%nat
              Samples.hello_body Samples.after_first_create Hk eq_refl)
    as (H1 & H2 & _).
  split; [reflexivity|]. split; [exact H1 | exact H2].
Defined.

Lemma execute_route_on_registered_agent_witness :
  PyDict.get "code_review" (agents (manager Samples.after_first_create)) =
    Some 0%nat /\
  heap Samples.after_first_create !! 0%nat = Some Samples.reviewer /\
  exists context,
    repository context = Api.body_repository Samples.hello_body /\
    issue_number context = Api.body_issue_number Samples.hello_body.
Proof.
  split; [reflexivity|]. split; [reflexivity|].
  destruct (execute_route_on_registered_agent Samples.world_up "code_review"
              0%nat Samples.reviewer Samples.hello_body
              Samples.after_first_create eq_refl eq_refl)
    as (context & H1 & H2 & _).
  exists context. split; assumption.
Defined.

Example execute_route_answers :
  fst (Api.execute_agent Samples.world_up "code_review" Samples.hello_body
         Samples.after_first_create) =
    (200, Api.ExecutePayload
            ("re: Review this code:" +:+ PyStr.nl +:+ PyStr.nl +:+ "hello")
            None "2024-01-01T00:00:00") /\
  fst (Api.execute_agent Samples.world_down "code_review" Samples.hello_body
         Samples.after_first_create) =
    (500, Api.ErrorPayload "connection refused").
Proof. split; reflexivity. Qed.

Lemma clear_route_then_get_route_witness :
  PyDict.get "code_review" (agents (manager Samples.after_first_create)) =
    Some 0%nat /\
  heap Samples.after_first_create !! 0%nat = Some Samples.reviewer /\
  fst (Api.get_agent "code_review"
         (snd (Api.clear_conversation "code_review"
                 Samples.after_first_create))) =
    (200, Api.AgentPayload
            ("Code Review Agent"%string,
             "Analyzes code changes and provides detailed reviews"%string,
             0%nat)).
Proof.
  split; [reflexivity|]. split; [reflexivity|].
  exact (proj2 (clear_route_then_get_route "code_review" 0%nat
                  Samples.reviewer Samples.after_first_create
                  eq_refl eq_refl)).
Defined.

Lemma agent_type_of_id_has_no_underscore_witness :
  PyStr.has_char Cli.underscore "code_review" = true /\
  exists rest,
    "code_review"%string =
    Cli.agent_type_of_id "code_review" +:+ String Cli.underscore rest.
Proof.
  split; [reflexivity|].
  exact (proj1 (proj2 (proj2 (agent_type_of_id_has_no_underscore
                                "code_review"))) eq_refl).
Defined.

Lemma cli_execute_refuses_other_types_witness :
  Cli.agent_type_of_id "code_review" <> "documentation"%string /\
  Cli.agent_execute Samples.cfg Samples.world_up
    (MoreSamples.execute_args "code_review" "def f(): pass")
    Samples.fresh_state =
    (inl (ValueError
            "Unknown agent type: code. Available: ['code_review', 'issue_triage', 'documentation']"),
     Samples.fresh_state).
Proof.
  split; [discriminate|].
  exact (proj1 (cli_execute_refuses_other_types Samples.cfg Samples.world_up
                  (MoreSamples.execute_args "code_review" "def f(): pass")
                  Samples.fresh_state)
           "code_review"%string "def f(): pass"%string
           eq_refl eq_refl eq_refl eq_refl ltac:(discriminate)).
Defined.

Lemma cli_execute_documents_witness :
  Cli.agent_type_of_id "documentation_api" = "documentation"%string /\
  instantiate Samples.cfg DocumentationAgent None None =
    inr MoreSamples.documenter /\
  fst (Cli.agent_execute Samples.cfg Samples.world_up
         (MoreSamples.execute_args "documentation_api" "the parser")
         Samples.fresh_state) =
    inr (PyStr.nl +:+ "Agent Response:" +:+ PyStr.nl +:+
         "re: Generate documentation for:" +:+ PyStr.nl +:+ PyStr.nl +:+
         "the parser" +:+ PyStr.nl).
Proof.
  split; [reflexivity|]. split; [reflexivity|].
  exact (proj1 (proj2 (cli_execute_documents Samples.cfg Samples.world_up
                         (MoreSamples.execute_args "documentation_api"
                            "the parser")
                         "documentation_api"%string "the parser"%string
                         MoreSamples.documenter Samples.fresh_state
                         eq_refl eq_refl eq_refl eq_refl eq_refl eq_refl))).
Defined.

(** ** The revised properties at concrete inputs *)

Lemma history_after_model_call_witness :
  (heap (Samples.state_with Samples.reviewer_with_history) !! 0%nat =
     Some Samples.reviewer_with_history /\
   true && PyStr.truthy_list
             (conversation_history Samples.reviewer_with_history) = true) /\
  (answer_chat Samples.world_up []
     Samples.claude
     [{| role := "user"; content := "hello" |};
      {| role := "assistant"; content := "hi" |};
      {| role := "user"; content := "and this?" |}] = inr "continued"%string /\
   fst (generate_response Samples.world_up 0%nat "and this?" true
          (Samples.state_with Samples.reviewer_with_history)) =
     inr "continued"%string /\
   history_at
     (snd (generate_response Samples.world_up 0%nat "and this?" true
             (Samples.state_with Samples.reviewer_with_history))) 0%nat =
     Some [{| role := "user"; content := "hello" |};
           {| role := "assistant"; content := "hi" |};
           {| role := "user"; content := "and this?" |};
           {| role := "assistant"; content := "continued" |}]) /\
  (answer_chat Samples.world_down []
     Samples.claude
     [{| role := "user"; content := "hello" |};
      {| role := "assistant"; content := "hi" |};
      {| role := "user"; content := "and this?" |}] =
     inl (UpstreamError "connection refused") /\
   fst (generate_response Samples.world_down 0%nat "and this?" true
          (Samples.state_with Samples.reviewer_with_history)) =
     inl (UpstreamError "connection refused") /\
   history_at
     (snd (generate_response Samples.world_down 0%nat "and this?" true
             (Samples.state_with Samples.reviewer_with_history))) 0%nat =
     Some [{| role := "user"; content := "hello" |};
           {| role := "assistant"; content := "hi" |}]).
Proof.
  split; [split; reflexivity|]. split.
  - split; [reflexivity|].
    exact (proj2 (proj1 (proj2 (history_after_model_call Samples.world_up
                                  0%nat Samples.reviewer_with_history
                                  (Samples.state_with
                                     Samples.reviewer_with_history)
                                  eq_refl))
                    "and this?"%string true eq_refl)).
  - split; [reflexivity|].
    exact (proj2 (proj1 (proj2 (history_after_model_call Samples.world_down
                                  0%nat Samples.reviewer_with_history
                                  (Samples.state_with
                                     Samples.reviewer_with_history)
                                  eq_refl))
                    "and this?"%string true eq_refl)).
Defined.

Example execute_history_after_reply :
  history_at
    (snd (execute Samples.world_up 0%nat Samples.bare_context "x = 1"
            (Samples.state_with Samples.reviewer_with_history))) 0%nat =
  Some [{| role := "user"; content := "hello" |};
        {| role := "assistant"; content := "hi" |};
        {| role := "user";
           content := "Review this code:" +:+ PyStr.nl +:+ PyStr.nl +:+
                      "x = 1" |};
        {| role := "assistant";
           content := "re: Review this code:" +:+ PyStr.nl +:+ PyStr.nl +:+
                      "x = 1" |}] /\
  history_at
    (snd (execute Samples.world_down 0%nat Samples.bare_context "x = 1"
            (Samples.state_with Samples.reviewer_with_history))) 0%nat =
  Some [{| role := "user"; content := "hello" |};
        {| role := "assistant"; content := "hi" |}].
Proof. split; reflexivity. Qed.

Lemma registered_type_creates_instance_witness :
  (PyStr.truthy (ANTHROPIC_API_KEY Samples.cfg) = true /\
   PyStr.truthy (GITHUB_TOKEN Samples.cfg) = true) /\
  exists l s2 a,
    Manager.create_agent Samples.cfg "summary" None None None
      (snd (Manager.register_agent_type "summary" Samples.Summarizer
              Samples.fresh_state)) = (inr l, s2) /\
    heap s2 !! l = Some a /\
    agent_class a = Samples.Summarizer /\
    name a = "Summary Agent"%string.
Proof.
  split; [split; reflexivity|].
  destruct (registered_type_creates_instance Samples.cfg "summary"
              Samples.Summarizer None None None Samples.fresh_state
              (or_intror eq_refl) (or_intror eq_refl))
    as (s1 & Hreg & _ & l & s2 & a & Hc & Hh & Hcls & Hname & _).
  injection Hreg as <-.
  exists l, s2, a. split; [exact Hc|]. split; [exact Hh|].
  split; [exact Hcls | exact Hname].
Defined.


